(** * The local record store of the medical scheduling app

    A shallow embedding of the parts of the application that persist and
    read the appointment and notification collections:

    - [services/notifications.ts]   (module [notificationService])
    - [services/statistics.ts]      (module [statisticsService])
    - [screens/CreateAppointmentScreen.tsx], [components/TimeSlotList.tsx],
      [components/AppointmentForm.tsx]

    Asynchronous functions are run to completion one after the other, so
    an [async] function is a state transformer on the device (storage,
    console, clock) that either returns or throws. *)

From Stdlib Require Import ZArith String Ascii List.
From Stdlib Require Import Floats.PrimFloat Numbers.Cyclic.Int63.Uint63.
From stdpp Require Import gmap strings list sorting pretty.

Local Open Scope string_scope.

(** ** The pieces of the JavaScript runtime the code relies on *)

Module JS.

(** [s.padStart(n, c)] for a one-character pad. *)
Definition padStart (n : nat) (c : ascii) (s : string) : string :=
  String.concat "" (replicate (n - String.length s) (String c "")) +:+ s.

(** [Number.prototype.toString] on a natural number (decimal digits). *)
Definition toString (n : nat) : string := pretty n.

(** [s.split("/")]: cuts at every slash; a string without a slash gives
    the one-element array holding the string itself. *)
Fixpoint split_slash (s : string) : list string :=
  match s with
  | EmptyString => [""]
  | String c rest =>
      let parts := split_slash rest in
      if Ascii.eqb c "/" then "" :: parts
      else match parts with
           | first :: others => String c first :: others
           | [] => [String c ""]
           end
  end.

(** A value interpolated in a template literal: a missing array element
    is [undefined] and prints as that word. *)
Definition interpolate (v : option string) : string :=
  match v with
  | Some s => s
  | None => "undefined"
  end.

(** [\d] in a regular expression without the unicode flag. *)
Definition isDigit (c : ascii) : bool :=
  let n := nat_of_ascii c in (48 <=? n)%nat && (n <=? 57)%nat.

(** The value of a run of decimal digits, as [parseInt] reads it. *)
Definition parseDigits (cs : list ascii) : Z :=
  fold_left (fun acc c => (10 * acc + (Z.of_nat (nat_of_ascii c) - 48))%Z) cs 0%Z.

(** A JavaScript number that holds a count (an array length), as the
    IEEE 754 double it is. *)
Definition number (n : nat) : float := of_uint63 (Uint63.of_Z (Z.of_nat n)).

(** [Array.prototype.sort(cmp)].  ECMAScript requires the sort to be
    stable: [a] is placed before [b] when [cmp a b < 0], and elements
    that compare equal keep their order.  Insertion from the right
    realises exactly that. *)
Section Sort.
Context {A : Type} (cmp : A -> A -> Z).

Fixpoint insert (x : A) (l : list A) : list A :=
  match l with
  | [] => [x]
  | y :: l' => if (cmp x y <=? 0)%Z then x :: y :: l' else y :: insert x l'
  end.

Fixpoint sort (l : list A) : list A :=
  match l with
  | [] => []
  | x :: l' => insert x (sort l')
  end.
End Sort.

End JS.

(** ** Data model *)

Inductive Status := pending | confirmed | cancelled.

Definition Status_eqb (a b : Status) : bool :=
  match a, b with
  | pending, pending | confirmed, confirmed | cancelled, cancelled => true
  | _, _ => false
  end.

Module Appointment.
Record t := mk {
  id : string;
  patientId : string;
  patientName : string;
  doctorId : string;
  doctorName : string;
  date : string;
  time : string;
  specialty : string;
  status : Status
}.

Definition with_status (s : Status) (a : t) : t :=
  mk (id a) (patientId a) (patientName a) (doctorId a) (doctorName a)
     (date a) (time a) (specialty a) s.
End Appointment.

Inductive NotificationType :=
  | appointment_confirmed
  | appointment_cancelled
  | appointment_reminder
  | general.

Module Notification.
(** [createdAt] is the instant (milliseconds since the epoch) that the
    stored ISO-8601 string denotes: [toISOString] writes it and
    [new Date(createdAt).getTime()] reads it back. *)
Record t := mk {
  id : string;
  userId : string;
  title : string;
  message : string;
  type : NotificationType;
  read : bool;
  createdAt : Z;
  appointmentId : option string
}.

(** [{ ...n, read: true }] *)
Definition mark_read (n : t) : t :=
  mk (id n) (userId n) (title n) (message n) (type n) true
     (createdAt n) (appointmentId n).

(** What [createNotification] receives:
    [Omit<Notification, 'id' | 'createdAt' | 'read'>]. *)
Record draft := mkDraft {
  d_userId : string;
  d_type : NotificationType;
  d_title : string;
  d_message : string;
  d_appointmentId : option string
}.
End Notification.

Module Doctor.
Record t := mk {
  id : string;
  name : string;
  specialty : string;
  image : string
}.
End Doctor.

Inductive Role := admin | doctor | patient.

Module User.
Record t := mk {
  id : string;
  name : string;
  email : string;
  role : Role
}.
End User.

(** ** The device: blob store, console and clock *)

(** The text held under a storage key: the serialisation of an array of
    records ([JSON.stringify] wrote it), the empty string, or some other
    text that [JSON.parse] rejects.  The empty string is kept apart from
    the other unparseable texts because it is the one falsy string: the
    guard [stored ? ... : ...] treats it like an absent key.  (Text that
    parses to something other than an array of records of the key's type
    is outside the model.) *)
Inductive Text (A : Type) :=
  | Json (records : list A)
  | Blank
  | Garbled.
Arguments Json {A} records.
Arguments Blank {A}.
Arguments Garbled {A}.

(** One field per key the code uses; [None] is an absent key, for which
    [AsyncStorage.getItem] answers [null]. *)
Record Storage := mkStorage {
  appointmentsKey : option (Text Appointment.t);       (* '@MedicalApp:appointments' *)
  notificationsKey : option (Text Notification.t);     (* '@MedicalApp:notifications' *)
  registeredUsersKey : option (Text User.t)            (* '@MedicalApp:registeredUsers' *)
}.

Inductive Output :=
  | ConsoleError (label : string)
  | ConsoleWarn (label : string) (value : string)
  | Alert (text : string)
  | GoBack.

(** [ticks k] is what the [k]-th reading of the wall clock gives;
    [reads] counts the readings made so far. *)
Record Device := mkDevice {
  storage : Storage;
  outputs : list Output;
  ticks : nat -> Z;
  reads : nat
}.

Definition set_storage (st : Storage) (w : Device) : Device :=
  mkDevice st (outputs w) (ticks w) (reads w).

(** [SyntaxError] is what [JSON.parse] throws; [NotFoundError] belongs to
    the repository operations described in the specification. *)
Inductive Error := SyntaxError | NotFoundError.

Inductive Completion (A : Type) :=
  | Returned (a : A)
  | Thrown (e : Error).
Arguments Returned {A} a.
Arguments Thrown {A} e.

Definition Js (A : Type) : Type := Device -> Completion A * Device.

#[export] Instance Js_ret : MRet Js := fun A a w => (Returned a, w).

#[export] Instance Js_bind : MBind Js := fun A B k c w =>
  match c w with
  | (Returned a, w') => k a w'
  | (Thrown e, w') => (Thrown e, w')
  end.

Definition throw {A : Type} (e : Error) : Js A := fun w => (Thrown e, w).

(** [try { body } catch (e) { handler }] *)
Definition try_catch {A : Type} (body : Js A) (handler : Error -> Js A) : Js A :=
  fun w =>
    match body w with
    | (Returned a, w') => (Returned a, w')
    | (Thrown e, w') => handler e w'
    end.

Definition emit (o : Output) : Js unit :=
  fun w => (Returned tt, mkDevice (storage w) (outputs w ++ [o]) (ticks w) (reads w)).

(** [Date.now()], and likewise [new Date()]: one reading of the clock. *)
Definition Date_now : Js Z :=
  fun w => (Returned (ticks w (reads w)),
            mkDevice (storage w) (outputs w) (ticks w) (S (reads w))).

(** [stored ? JSON.parse(stored) : []]: [null] and the empty string are
    falsy and give the empty array without a call of [JSON.parse]; any
    other string is parsed. *)
Definition parse_or_empty {A : Type} (stored : option (Text A)) : Js (list A) :=
  match stored with
  | None => mret []
  | Some Blank => mret []
  | Some (Json records) => mret records
  | Some Garbled => throw SyntaxError
  end.

(** The sequence a reader that treats unreadable data as empty sees. *)
Definition collection {A : Type} (stored : option (Text A)) : list A :=
  match stored with
  | Some (Json records) => records
  | _ => []
  end.

Definition getItem_appointments : Js (option (Text Appointment.t)) :=
  fun w => (Returned (appointmentsKey (storage w)), w).

Definition getItem_notifications : Js (option (Text Notification.t)) :=
  fun w => (Returned (notificationsKey (storage w)), w).

Definition getItem_registeredUsers : Js (option (Text User.t)) :=
  fun w => (Returned (registeredUsersKey (storage w)), w).

(** [AsyncStorage.setItem(key, JSON.stringify(records))] *)
Definition setItem_appointments (records : list Appointment.t) : Js unit :=
  fun w => (Returned tt,
            set_storage (mkStorage (Some (Json records))
                                   (notificationsKey (storage w))
                                   (registeredUsersKey (storage w))) w).

Definition setItem_notifications (records : list Notification.t) : Js unit :=
  fun w => (Returned tt,
            set_storage (mkStorage (appointmentsKey (storage w))
                                   (Some (Json records))
                                   (registeredUsersKey (storage w))) w).


(** ** services/notifications.ts *)

Module notificationService.

(** [(a, b) => new Date(b.createdAt).getTime() - new Date(a.createdAt).getTime()] *)
Definition newestFirst (a b : Notification.t) : Z :=
  (Notification.createdAt b - Notification.createdAt a)%Z.

Definition getNotifications (userId : string) : Js (list Notification.t) :=
  try_catch
    (stored ← getItem_notifications;
     allNotifications ← parse_or_empty stored;
     mret (JS.sort newestFirst
             (List.filter (fun n => String.eqb (Notification.userId n) userId)
                          allNotifications)))
    (fun error => emit (ConsoleError "Erro ao carregar notificações:");; mret []).

Definition createNotification (notification : Notification.draft) : Js unit :=
  try_catch
    (stored ← getItem_notifications;
     allNotifications ← parse_or_empty stored;
     now ← Date_now;
     created ← Date_now;
     let newNotification :=
       Notification.mk (pretty now)
                       (Notification.d_userId notification)
                       (Notification.d_title notification)
                       (Notification.d_message notification)
                       (Notification.d_type notification)
                       false
                       created
                       (Notification.d_appointmentId notification) in
     setItem_notifications (allNotifications ++ [newNotification]))
    (fun error => emit (ConsoleError "Erro ao criar notificação:")).

Definition markAsRead (notificationId : string) : Js unit :=
  try_catch
    (stored ← getItem_notifications;
     allNotifications ← parse_or_empty stored;
     let updatedNotifications :=
       map (fun n => if String.eqb (Notification.id n) notificationId
                     then Notification.mark_read n else n)
           allNotifications in
     setItem_notifications updatedNotifications)
    (fun error => emit (ConsoleError "Erro ao marcar notificação como lida:")).

Definition markAllAsRead (userId : string) : Js unit :=
  try_catch
    (stored ← getItem_notifications;
     allNotifications ← parse_or_empty stored;
     let updatedNotifications :=
       map (fun n => if String.eqb (Notification.userId n) userId
                     then Notification.mark_read n else n)
           allNotifications in
     setItem_notifications updatedNotifications)
    (fun error => emit (ConsoleError "Erro ao marcar todas notificações como lidas:")).

Definition deleteNotification (notificationId : string) : Js unit :=
  try_catch
    (stored ← getItem_notifications;
     allNotifications ← parse_or_empty stored;
     let filteredNotifications :=
       List.filter (fun n => negb (String.eqb (Notification.id n) notificationId))
                   allNotifications in
     setItem_notifications filteredNotifications)
    (fun error => emit (ConsoleError "Erro ao deletar notificação:")).

Definition getUnreadCount (userId : string) : Js nat :=
  try_catch
    (notifications ← getNotifications userId;
     mret (length (List.filter (fun n => negb (Notification.read n)) notifications)))
    (fun error => emit (ConsoleError "Erro ao contar notificações não lidas:");; mret 0).

Definition notifyAppointmentConfirmed (patientId : string)
    (appointmentDetails : Appointment.t) : Js unit :=
  createNotification
    (Notification.mkDraft
       patientId
       appointment_confirmed
       "Consulta Confirmada"
       ("Sua consulta com " +:+ Appointment.doctorName appointmentDetails
          +:+ " foi confirmada para " +:+ Appointment.date appointmentDetails
          +:+ " às " +:+ Appointment.time appointmentDetails +:+ ".")
       (Some (Appointment.id appointmentDetails))).

(** [reason ? ` Motivo: ${reason}` : ''] : an absent or empty reason adds
    nothing. *)
Definition reasonSuffix (reason : option string) : string :=
  match reason with
  | Some r => if String.eqb r "" then "" else " Motivo: " +:+ r
  | None => ""
  end.

Definition notifyAppointmentCancelled (patientId : string)
    (appointmentDetails : Appointment.t) (reason : option string) : Js unit :=
  createNotification
    (Notification.mkDraft
       patientId
       appointment_cancelled
       "Consulta Cancelada"
       ("Sua consulta com " +:+ Appointment.doctorName appointmentDetails
          +:+ " foi cancelada." +:+ reasonSuffix reason)
       (Some (Appointment.id appointmentDetails))).

Definition notifyNewAppointment (doctorId : string)
    (appointmentDetails : Appointment.t) : Js unit :=
  createNotification
    (Notification.mkDraft
       doctorId
       general
       "Nova Consulta Agendada"
       (Appointment.patientName appointmentDetails
          +:+ " agendou uma consulta para " +:+ Appointment.date appointmentDetails
          +:+ " às " +:+ Appointment.time appointmentDetails +:+ ".")
       (Some (Appointment.id appointmentDetails))).

End notificationService.

(** ** services/statistics.ts *)

(** What a property of a counting object [{ [key: string]: number }]
    holds at run time.  Under most keys it is a count.  Under a key that
    names a function of [Object.prototype] the first reading finds that
    function, and [function + 1] is a string; the property then holds the
    text of the function followed by [ones] digits 1. *)
Inductive Cell :=
  | Count (n : nat)
  | Glued (ones : nat).

Module StatusPercentages.
Record t := mk {
  confirmed : float;
  pending : float;
  cancelled : float
}.
End StatusPercentages.

Module Statistics.
Record t := mk {
  totalAppointments : nat;
  confirmedAppointments : nat;
  pendingAppointments : nat;
  cancelledAppointments : nat;
  totalPatients : nat;
  totalDoctors : nat;
  specialties : gmap string Cell;
  appointmentsByMonth : gmap string nat;
  statusPercentages : StatusPercentages.t
}.
End Statistics.

Module statisticsService.

Definition countStatus (s : Status) (appointments : list Appointment.t) : nat :=
  length (List.filter (fun a => Status_eqb (Appointment.status a) s) appointments).

(** [new Set(ids).size] *)
Definition distinct (ids : list string) : nat :=
  size (list_to_set ids : gset string).

(** The properties every object literal inherits from
    [Object.prototype] (ECMAScript with its Annex B): eleven functions
    and the accessor [__proto__]. *)
Definition inheritedFunctions : list string :=
  [ "constructor"; "hasOwnProperty"; "isPrototypeOf"; "propertyIsEnumerable";
    "toLocaleString"; "toString"; "valueOf";
    "__defineGetter__"; "__defineSetter__"; "__lookupGetter__"; "__lookupSetter__" ].

Definition inheritsFunction (key : string) : bool :=
  existsb (String.eqb key) inheritedFunctions.

(** [table[key] = (table[key] || 0) + 1] on an object literal; the map
    holds the object's own properties.
    - An own count [n] becomes [n + 1] ([0 || 0] is 0 as well), an own
      string gets one more "1".
    - Without an own property the reading goes to [Object.prototype]:
      [__proto__] gives that object, which is truthy, and the string made
      from it is handed to the [__proto__] setter, which ignores values
      that are not objects, so nothing is stored; one of the inherited
      functions is truthy too and the string made from it becomes an own
      property; any other key reads [undefined] and gets the count 1. *)
Definition increment (key : string) (table : gmap string Cell) : gmap string Cell :=
  match table !! key with
  | Some (Count n) => <[key := Count (n + 1)]> table
  | Some (Glued ones) => <[key := Glued (ones + 1)]> table
  | None =>
      if String.eqb key "__proto__" then table
      else if inheritsFunction key then <[key := Glued 1]> table
      else <[key := Count 1]> table
  end.

Definition countSpecialties (appointments : list Appointment.t) : gmap string Cell :=
  fold_left (fun table a => increment (Appointment.specialty a) table) appointments ∅.

(** [const [day, month, year] = appointment.date.split('/');
     const monthKey = `${month}/${year}`;] *)
Definition monthKey (date : string) : string :=
  let parts := JS.split_slash date in
  JS.interpolate (parts !! 1) +:+ "/" +:+ JS.interpolate (parts !! 2).

(** [appointmentsByMonth[monthKey] = (appointmentsByMonth[monthKey] || 0) + 1]
    for the month key of [date].  A month key holds a slash, so it names
    no property of [Object.prototype]: what is read is the table's own
    count or [undefined], and the table holds counts only. *)
Definition countUnderMonthKey (date : string) (table : gmap string nat)
    : gmap string nat :=
  <[monthKey date := default 0 (table !! monthKey date) + 1]> table.

(** The body of the second [forEach], with its own [try]/[catch].
    [split] is defined on every string, so for a record whose [date] is a
    string, as the [Appointment] type has it, nothing in the [try] block
    throws. *)
Definition countMonth (table : gmap string nat) (appointment : Appointment.t)
    : Js (gmap string nat) :=
  try_catch
    (mret (countUnderMonthKey (Appointment.date appointment) table))
    (fun error =>
       emit (ConsoleWarn "Data inválida encontrada:" (Appointment.date appointment));;
       mret table).

Fixpoint forEachMonth (appointments : list Appointment.t) (table : gmap string nat)
    : Js (gmap string nat) :=
  match appointments with
  | [] => mret table
  | appointment :: rest =>
      table' ← countMonth table appointment;
      forEachMonth rest table'
  end.

(** [total > 0 ? (count / total) * 100 : 0] *)
Definition percentage (count total : nat) : float :=
  if (0 <? total)%nat then (JS.number count / JS.number total * 100)%float
  else 0%float.

Definition getGeneralStatistics : Js Statistics.t :=
  try_catch
    (appointmentsData ← getItem_appointments;
     appointments ← parse_or_empty appointmentsData;
     registeredUsersData ← getItem_registeredUsers;
     registeredUsers ← parse_or_empty registeredUsersData;
     let totalAppointments := length appointments in
     let confirmedAppointments := countStatus confirmed appointments in
     let pendingAppointments := countStatus pending appointments in
     let cancelledAppointments := countStatus cancelled appointments in
     let totalPatients := distinct (map Appointment.patientId appointments) in
     let totalDoctors := distinct (map Appointment.doctorId appointments) in
     let specialties := countSpecialties appointments in
     appointmentsByMonth ← forEachMonth appointments ∅;
     let statusPercentages :=
       StatusPercentages.mk
         (percentage confirmedAppointments totalAppointments)
         (percentage pendingAppointments totalAppointments)
         (percentage cancelledAppointments totalAppointments) in
     mret (Statistics.mk totalAppointments confirmedAppointments
             pendingAppointments cancelledAppointments totalPatients
             totalDoctors specialties appointmentsByMonth statusPercentages))
    (fun error => emit (ConsoleError "Erro ao calcular estatísticas:");; throw error).

End statisticsService.

(** ** components/TimeSlotList.tsx *)

Module TimeSlotList.

(** [for (let hour = 9; hour < 18; hour++)] pushes two slots per hour. *)
Definition generateTimeSlots : list string :=
  flat_map
    (fun hour =>
       [JS.padStart 2 "0" (JS.toString hour) +:+ ":00";
        JS.padStart 2 "0" (JS.toString hour) +:+ ":30"])
    (seq 9 (18 - 9)).

End TimeSlotList.

(** ** screens/CreateAppointmentScreen.tsx (the version that notifies the doctor) *)

Module CreateAppointmentScreen.

Definition availableDoctors : list Doctor.t :=
  [ Doctor.mk "1" "Dr. João Silva" "Cardiologia"
      "https://randomuser.me/api/portraits/men/1.jpg";
    Doctor.mk "2" "Dra. Maria Santos" "Pediatria"
      "https://randomuser.me/api/portraits/women/1.jpg";
    Doctor.mk "3" "Dr. Pedro Oliveira" "Ortopedia"
      "https://randomuser.me/api/portraits/men/2.jpg";
    Doctor.mk "4" "Dra. Ana Costa" "Dermatologia"
      "https://randomuser.me/api/portraits/women/2.jpg";
    Doctor.mk "5" "Dr. Carlos Mendes" "Oftalmologia"
      "https://randomuser.me/api/portraits/men/3.jpg" ].

(** The [useState] cells of the component. *)
Record State := mkState {
  date : string;
  selectedTime : string;
  selectedDoctor : option Doctor.t;
  loading : bool;
  error : string
}.

Definition initial : State := mkState "" "" None false "".

Definition setDate (v : string) (s : State) : State :=
  mkState v (selectedTime s) (selectedDoctor s) (loading s) (error s).

Definition setSelectedTime (v : string) (s : State) : State :=
  mkState (date s) v (selectedDoctor s) (loading s) (error s).

Definition setSelectedDoctor (v : option Doctor.t) (s : State) : State :=
  mkState (date s) (selectedTime s) v (loading s) (error s).

Definition setLoading (v : bool) (s : State) : State :=
  mkState (date s) (selectedTime s) (selectedDoctor s) v (error s).

Definition setError (v : string) (s : State) : State :=
  mkState (date s) (selectedTime s) (selectedDoctor s) (loading s) v.

Definition missingFields : string :=
  "Por favor, preencha a data e selecione um médico e horário".

Definition saveFailed : string := "Erro ao agendar consulta. Tente novamente.".

(** [user?.id || ''] and [user?.name || ''] *)
Definition idOf (user : option User.t) : string :=
  match user with Some u => User.id u | None => "" end.

Definition nameOf (user : option User.t) : string :=
  match user with Some u => User.name u | None => "" end.

(** The guard [!date || !selectedTime || !selectedDoctor] is split in two
    so that the selected doctor is at hand below it; each of its three
    disjuncts leads to the same message and the same early return. *)
Definition handleCreateAppointment (user : option User.t) (s : State) : Js State :=
  let s1 := setError "" (setLoading true s) in
  s2 ← try_catch
         (match selectedDoctor s with
          | Some selected =>
              if String.eqb (date s) "" || String.eqb (selectedTime s) ""
              then mret (setError missingFields s1)
              else
                storedAppointments ← getItem_appointments;
                appointments ← parse_or_empty storedAppointments;
                now ← Date_now;
                let newAppointment :=
                  Appointment.mk (pretty now)
                                 (idOf user)
                                 (nameOf user)
                                 (Doctor.id selected)
                                 (Doctor.name selected)
                                 (date s)
                                 (selectedTime s)
                                 (Doctor.specialty selected)
                                 pending in
                setItem_appointments (appointments ++ [newAppointment]);;
                notificationService.notifyNewAppointment (Doctor.id selected) newAppointment;;
                emit (Alert "Consulta agendada com sucesso!");;
                emit GoBack;;
                mret s1
          | None => mret (setError missingFields s1)
          end)
         (fun err => mret (setError saveFailed s1));
  mret (setLoading false s2).

(** What the user can do on the screen: type in the date field, press a
    card of [TimeSlotList], press an item of [DoctorList], press
    "Agendar".  A card or item is named by its position in the rendered
    list. *)
Inductive Event :=
  | ChangeDateText (text : string)
  | PressTimeCard (position : nat)
  | PressDoctorItem (position : nat)
  | PressAgendar.

Definition react (user : option User.t) (s : State) (ev : Event) : Js State :=
  match ev with
  | ChangeDateText text => mret (setDate text s)
  | PressTimeCard position =>
      match TimeSlotList.generateTimeSlots !! position with
      | Some time => mret (setSelectedTime time s)
      | None => mret s
      end
  | PressDoctorItem position =>
      match availableDoctors !! position with
      | Some chosen => mret (setSelectedDoctor (Some chosen) s)
      | None => mret s
      end
  | PressAgendar => handleCreateAppointment user s
  end.

Fixpoint session (user : option User.t) (events : list Event) (s : State) : Js State :=
  match events with
  | [] => mret s
  | ev :: rest => s' ← react user s ev; session user rest s'
  end.

End CreateAppointmentScreen.

(** ** components/AppointmentForm.tsx (the form of the earlier booking screen) *)

Module AppointmentForm.

Definition generateTimeSlots : list string :=
  flat_map
    (fun hour =>
       [JS.padStart 2 "0" (JS.toString hour) +:+ ":00";
        JS.padStart 2 "0" (JS.toString hour) +:+ ":30"])
    (seq 9 (18 - 9)).

(** [inputDate.match(/^(\d{2})\/(\d{2})\/(\d{4})$/)], followed by the
    [parseInt] of the three groups: day, month, year. *)
Definition matchDate (inputDate : string) : option (Z * Z * Z) :=
  match list_ascii_of_string inputDate with
  | [d1; d2; s1; m1; m2; s2; y1; y2; y3; y4] =>
      if forallb JS.isDigit [d1; d2; m1; m2; y1; y2; y3; y4]
         && Ascii.eqb s1 "/" && Ascii.eqb s2 "/"
      then Some (JS.parseDigits [d1; d2], JS.parseDigits [m1; m2],
                 JS.parseDigits [y1; y2; y3; y4])
      else None
  | _ => None
  end.

Record State := mkState {
  selectedDoctor : string;
  dateInput : string;
  selectedTime : string;
  description : string
}.

(** What [onSubmit] receives; [date] is the instant of the [Date] object. *)
Record Submission := mkSubmission {
  doctorId : string;
  date : Z;
  time : string;
  sub_description : string
}.

Section Calendar.

(** The calendar arithmetic of [Date] in the time zone of the device:
    [localTime y m d] is [new Date(y, m, d).getTime()], [getMonth t] is
    [new Date(t).getMonth()] and [setMonth t m] is
    [new Date(t).setMonth(m)]. *)
Variable localTime : Z -> Z -> Z -> Z.
Variable getMonth : Z -> Z.
Variable setMonth : Z -> Z -> Z.

(** The [onSubmit] property the screen passes to the form. *)
Variable onSubmit : Submission -> Js unit.

Definition validateDate (inputDate : string) : Js bool :=
  match matchDate inputDate with
  | None => mret false
  | Some (day, month, year) =>
      let date := localTime year (month - 1) day in
      today ← Date_now;
      receiver ← Date_now;
      current ← Date_now;
      let maxDate := setMonth receiver (getMonth current + 3) in
      mret ((today <=? date)%Z && (date <=? maxDate)%Z)
  end.

(** [parseInt] of a slash-separated part of a date that passed
    [validateDate]: a run of digits. *)
Definition part (parts : list string) (k : nat) : Z :=
  JS.parseDigits (list_ascii_of_string (default "" (parts !! k))).

Definition handleSubmit (s : State) : Js unit :=
  if String.eqb (selectedDoctor s) "" || String.eqb (selectedTime s) ""
     || String.eqb (description s) ""
  then emit (Alert "Por favor, preencha todos os campos")
  else
    valid ← validateDate (dateInput s);
    if negb valid
    then emit (Alert "Por favor, insira uma data válida (DD/MM/AAAA)")
    else
      let parts := JS.split_slash (dateInput s) in
      let date := localTime (part parts 2) (part parts 1 - 1) (part parts 0) in
      onSubmit (mkSubmission (selectedDoctor s) date (selectedTime s) (description s)).

End Calendar.

End AppointmentForm.

(** ** The status transition of the appointment repository *)

Module AppointmentRepository.

(** Modelled from the spec: the codec's [load] for the appointment
    collection; the screens that confirm and cancel appointments are not
    among the source files.  Section 4.1: "absent or corrupt data yields
    an empty sequence (corrupt/unparseable payload is logged and treated
    as empty)". *)
Definition load : Js (list Appointment.t) :=
  stored ← getItem_appointments;
  match stored with
  | Some Blank | Some Garbled => emit (ConsoleError "appointments");; mret []
  | _ => mret (collection stored)
  end.

(** Modelled from the spec: "applies the transition" to the record that
    [setStatus] located by id, the first one carrying it. *)
Fixpoint transition (id : string) (newStatus : Status) (records : list Appointment.t)
    : list Appointment.t :=
  match records with
  | [] => []
  | a :: rest =>
      if String.eqb (Appointment.id a) id
      then Appointment.with_status newStatus a :: rest
      else a :: transition id newStatus rest
  end.

(** Modelled from the spec: [setStatus(id, newStatus, reason?)], whose
    source is not among the files.  Section 4.2: "loads the collection,
    locates the record by id, fails with NotFoundError if absent, applies
    the transition, persists the entire collection.  Side effect:
    triggers notifyAppointmentConfirmed or notifyAppointmentCancelled
    (with optional reason text appended to the message) addressed to the
    patient." *)
Definition setStatus (id : string) (newStatus : Status) (reason : option string)
    : Js Appointment.t :=
  records ← load;
  match List.find (fun a => String.eqb (Appointment.id a) id) records with
  | None => throw NotFoundError
  | Some located =>
      let updated := Appointment.with_status newStatus located in
      setItem_appointments (transition id newStatus records);;
      match newStatus with
      | confirmed =>
          notificationService.notifyAppointmentConfirmed
            (Appointment.patientId updated) updated
      | cancelled =>
          notificationService.notifyAppointmentCancelled
            (Appointment.patientId updated) updated reason
      | pending => mret tt
      end;;
      mret updated
  end.

End AppointmentRepository.

(** ** Running an operation *)

Definition result {A : Type} (c : Js A) (w : Device) : Completion A := fst (c w).

Definition after {A : Type} (c : Js A) (w : Device) : Device := snd (c w).

Definition appointmentsOf (w : Device) : list Appointment.t :=
  collection (appointmentsKey (storage w)).

Definition notificationsOf (w : Device) : list Notification.t :=
  collection (notificationsKey (storage w)).

(** A key the guarded parse [stored ? JSON.parse(stored) : []] reads
    without throwing: absent, empty, or holding a serialised array. *)
Definition readable {A : Type} (stored : option (Text A)) : Prop :=
  stored <> Some Garbled.

(** ** Predicates used in the statements *)

(** [new] is [old] with, at most, its [read] flag raised, and only if the
    record is one the operation selects. *)
Definition marked_only (selects : Notification.t -> bool)
    (old new : Notification.t) : Prop :=
  Notification.id new = Notification.id old /\
  Notification.userId new = Notification.userId old /\
  Notification.title new = Notification.title old /\
  Notification.message new = Notification.message old /\
  Notification.type new = Notification.type old /\
  Notification.createdAt new = Notification.createdAt old /\
  Notification.appointmentId new = Notification.appointmentId old /\
  (Notification.read old = true -> Notification.read new = true) /\
  (Notification.read new <> Notification.read old ->
   selects old = true /\ Notification.read old = false /\ Notification.read new = true).

(** A run that keeps the stored notifications in number and order and
    changes them by [marked_only], and leaves the other keys alone. *)
Definition frame_preserved (selects : Notification.t -> bool)
    (before after : Device) : Prop :=
  length (notificationsOf after) = length (notificationsOf before) /\
  map Notification.id (notificationsOf after) =
    map Notification.id (notificationsOf before) /\
  Forall2 (marked_only selects) (notificationsOf before) (notificationsOf after) /\
  appointmentsKey (storage after) = appointmentsKey (storage before) /\
  registeredUsersKey (storage after) = registeredUsersKey (storage before).

(** [n => selects(n) ? { ...n, read: true } : n] *)
Definition mark_where (selects : Notification.t -> bool) (n : Notification.t)
    : Notification.t :=
  if selects n then Notification.mark_read n else n.

(** What both marking operations do to a device, whatever the key holds. *)
Definition marking_effect (selects : Notification.t -> bool) (label : string)
    (w : Device) : Device :=
  match notificationsKey (storage w) with
  | Some Garbled =>
      mkDevice (storage w) (outputs w ++ [ConsoleError label]) (ticks w) (reads w)
  | stored =>
      mkDevice (mkStorage (appointmentsKey (storage w))
                  (Some (Json (map (mark_where selects) (collection stored))))
                  (registeredUsersKey (storage w)))
        (outputs w) (ticks w) (reads w)
  end.


(** ** Sample devices, for the examples *)

Definition sampleNotifications : list Notification.t :=
  [ Notification.mk "1" "p1" "A" "first" general false 100 None;
    Notification.mk "2" "p2" "B" "other user" general false 150 None;
    Notification.mk "3" "p1" "C" "newest" appointment_confirmed false 200 (Some "9");
    Notification.mk "4" "p1" "D" "tie with first" appointment_reminder true 100 None ].

Definition sampleDevice : Device :=
  mkDevice (mkStorage None (Some (Json sampleNotifications)) None) []
    (fun k => (1700000000000 + Z.of_nat k)%Z) 0.


(** The statistics [getGeneralStatistics] computes from a decoded
    appointment array. *)
Definition summarize (appointments : list Appointment.t) : Statistics.t :=
  Statistics.mk
    (length appointments)
    (statisticsService.countStatus confirmed appointments)
    (statisticsService.countStatus pending appointments)
    (statisticsService.countStatus cancelled appointments)
    (statisticsService.distinct (map Appointment.patientId appointments))
    (statisticsService.distinct (map Appointment.doctorId appointments))
    (statisticsService.countSpecialties appointments)
    (fold_left
       (fun table a => statisticsService.countUnderMonthKey (Appointment.date a) table)
       appointments ∅)
    (StatusPercentages.mk
       (statisticsService.percentage
          (statisticsService.countStatus confirmed appointments) (length appointments))
       (statisticsService.percentage
          (statisticsService.countStatus pending appointments) (length appointments))
       (statisticsService.percentage
          (statisticsService.countStatus cancelled appointments) (length appointments))).

Definition booking (id date : string) (s : Status) : Appointment.t :=
  Appointment.mk id "p1" "Ana Lima" "1" "Dr. João Silva" date "09:00" "Cardiologia" s.

Definition deviceWithAppointments (stored : option (Text Appointment.t)) : Device :=
  mkDevice (mkStorage stored None None) []
    (fun k => (1700000000000 + Z.of_nat k)%Z) 0.

Definition tenAppointments : list Appointment.t :=
  [ booking "1" "01/12/2025" confirmed; booking "2" "02/12/2025" pending;
    booking "3" "03/12/2025" cancelled; booking "4" "04/12/2025" pending;
    booking "5" "05/01/2026" confirmed; booking "6" "06/01/2026" cancelled;
    booking "7" "07/01/2026" pending; booking "8" "08/01/2026" confirmed;
    booking "9" "09/02/2026" cancelled; booking "10" "10/02/2026" pending ].

(** A date typed without slashes, next to a well-formed one. *)
Definition unsplitAppointments : list Appointment.t :=
  [ booking "1" "31122025" pending; booking "2" "15/01/2026" confirmed ].

(** ** Symbolic form of the writing operations *)

(** The notification [createNotification] builds at clock readings [now]
    and [created]. *)
Definition newNotification (d : Notification.draft) (now created : Z) : Notification.t :=
  Notification.mk (pretty now) (Notification.d_userId d) (Notification.d_title d)
    (Notification.d_message d) (Notification.d_type d) false created
    (Notification.d_appointmentId d).

(** The device after [createNotification d]. *)
Definition createNotification_effect (d : Notification.draft) (w : Device) : Device :=
  match notificationsKey (storage w) with
  | Some Garbled =>
      mkDevice (storage w) (outputs w ++ [ConsoleError "Erro ao criar notificação:"])
        (ticks w) (reads w)
  | stored =>
      mkDevice
        (mkStorage (appointmentsKey (storage w))
           (Some (Json (collection stored ++
                          [newNotification d (ticks w (reads w)) (ticks w (S (reads w)))])))
           (registeredUsersKey (storage w)))
        (outputs w) (ticks w) (S (S (reads w)))
  end.

(** The appointment [handleCreateAppointment] builds at clock reading [now]. *)
Definition newAppointment (user : option User.t) (s : CreateAppointmentScreen.State)
    (selected : Doctor.t) (now : Z) : Appointment.t :=
  Appointment.mk (pretty now)
    (CreateAppointmentScreen.idOf user) (CreateAppointmentScreen.nameOf user)
    (Doctor.id selected) (Doctor.name selected)
    (CreateAppointmentScreen.date s) (CreateAppointmentScreen.selectedTime s)
    (Doctor.specialty selected) pending.

(** The draft [notifyNewAppointment] hands to [createNotification]. *)
Definition newAppointmentDraft (doctorId : string) (a : Appointment.t) : Notification.draft :=
  Notification.mkDraft doctorId general "Nova Consulta Agendada"
    (Appointment.patientName a +:+ " agendou uma consulta para " +:+ Appointment.date a
       +:+ " às " +:+ Appointment.time a +:+ ".")
    (Some (Appointment.id a)).

(** The device after a [handleCreateAppointment] that passed its guard
    and could read the stored appointments. *)
Definition creation_effect (user : option User.t) (s : CreateAppointmentScreen.State)
    (selected : Doctor.t) (w : Device) : Device :=
  let a := newAppointment user s selected (ticks w (reads w)) in
  let saved :=
    mkDevice
      (mkStorage (Some (Json (appointmentsOf w ++ [a])))
         (notificationsKey (storage w)) (registeredUsersKey (storage w)))
      (outputs w) (ticks w) (S (reads w)) in
  let notified := createNotification_effect (newAppointmentDraft (Doctor.id selected) a) saved in
  mkDevice (storage notified)
    ((outputs notified ++ [Alert "Consulta agendada com sucesso!"]) ++ [GoBack])
    (ticks notified) (reads notified).

(** The screen state a run of [handleCreateAppointment] ends in. *)
Definition settled (message : string) (s : CreateAppointmentScreen.State)
    : CreateAppointmentScreen.State :=
  CreateAppointmentScreen.setLoading false
    (CreateAppointmentScreen.setError message
       (CreateAppointmentScreen.setError ""
          (CreateAppointmentScreen.setLoading true s))).

(** The time of a screen state is one the slot list offers, or none yet;
    the doctor is one of the listed ones, or none yet. *)
Definition offered (s : CreateAppointmentScreen.State) : Prop :=
  (CreateAppointmentScreen.selectedTime s = "" \/
   In (CreateAppointmentScreen.selectedTime s) TimeSlotList.generateTimeSlots) /\
  (forall d, CreateAppointmentScreen.selectedDoctor s = Some d ->
             In d CreateAppointmentScreen.availableDoctors).

Definition on_grid (a : Appointment.t) : Prop :=
  In (Appointment.time a) TimeSlotList.generateTimeSlots.

(** Sample inputs of the booking screen. *)
Definition drJoao : Doctor.t :=
  Doctor.mk "1" "Dr. João Silva" "Cardiologia"
    "https://randomuser.me/api/portraits/men/1.jpg".

Definition ana : User.t := User.mk "p1" "Ana Lima" "ana@example.com" patient.


Definition filled (date time : string) : CreateAppointmentScreen.State :=
  CreateAppointmentScreen.mkState date time (Some drJoao) false "".

(** A device with nothing stored whose clock gives the same millisecond
    at every reading. *)
Definition frozenClockDevice : Device :=
  mkDevice (mkStorage None None None) [] (fun _ => 1700000000000%Z) 0.

Definition emptyDevice : Device := deviceWithAppointments None.

Definition garbledNotificationsDevice : Device :=
  mkDevice (mkStorage None (Some Garbled) None) []
    (fun k => (1700000000000 + Z.of_nat k)%Z) 0.

(** A device whose notifications key holds the empty string. *)
Definition blankNotificationsDevice : Device :=
  mkDevice (mkStorage None (Some Blank) None) []
    (fun k => (1700000000000 + Z.of_nat k)%Z) 0.

(** Two bookings made one after the other while the clock stands still. *)
Definition afterFirstCreate : Device :=
  after (CreateAppointmentScreen.handleCreateAppointment (Some ana)
           (filled "15/01/2026" "09:00")) frozenClockDevice.

Definition afterSecondCreate : Device :=
  after (CreateAppointmentScreen.handleCreateAppointment (Some ana)
           (filled "16/01/2026" "10:30")) afterFirstCreate.



(** What the user does to book with the first doctor at 09:00 after
    typing [text] in the date field. *)
Definition bookingEvents (text : string) : list CreateAppointmentScreen.Event :=
  [ CreateAppointmentScreen.ChangeDateText text;
    CreateAppointmentScreen.PressTimeCard 0;
    CreateAppointmentScreen.PressDoctorItem 0;
    CreateAppointmentScreen.PressAgendar ].

(** The slot label of an hour: [hour.toString().padStart(2, '0')] and the
    minutes. *)
Definition slot (hour : nat) (minutes : string) : string :=
  JS.padStart 2 "0" (JS.toString hour) +:+ minutes.

(** ** More of services/notifications.ts *)

(** [notificationService.notifyAppointmentReminder]; the name shown is
    [doctorName || patientName], the patient's when the doctor's is empty. *)
Definition notifyAppointmentReminder (userId : string)
    (appointmentDetails : Appointment.t) : Js unit :=
  notificationService.createNotification
    (Notification.mkDraft
       userId
       appointment_reminder
       "Lembrete de Consulta"
       ("Você tem uma consulta agendada para amanhã às "
          +:+ Appointment.time appointmentDetails +:+ " com "
          +:+ (if String.eqb (Appointment.doctorName appointmentDetails) ""
               then Appointment.patientName appointmentDetails
               else Appointment.doctorName appointmentDetails)
          +:+ ".")
       (Some (Appointment.id appointmentDetails))).

(** The stored notifications of one user that are still unread. *)
Definition unreadOf (userId : string) (records : list Notification.t)
    : list Notification.t :=
  List.filter (fun n => String.eqb (Notification.userId n) userId
                        && negb (Notification.read n)) records.

(** Running [helper] on [w] appends exactly one notification: unread, for
    [recipient], of type [kind], with text [text], pointing back to
    [appointment]. *)
Definition stores_one (helper : Js unit) (w : Device) (recipient : string)
    (kind : NotificationType) (text appointment : string) : Prop :=
  exists n : Notification.t,
    notificationsOf (after helper w) = (notificationsOf w ++ [n])%list /\
    Notification.userId n = recipient /\
    Notification.type n = kind /\
    Notification.message n = text /\
    Notification.read n = false /\
    Notification.appointmentId n = Some appointment.

(** ** screens/NotificationsScreen.tsx *)

Module NotificationsScreen.

Record State := mkState {
  notifications : list Notification.t;
  loading : bool
}.

Definition initial : State := mkState [] true.

(** [user?.id], empty when there is no user. *)
Definition idOf (user : option User.t) : string :=
  match user with Some u => User.id u | None => "" end.

Definition loadNotifications (user : option User.t) (s : State) : Js State :=
  if String.eqb (idOf user) "" then mret s
  else
    s' ← try_catch
           (userNotifications ← notificationService.getNotifications (idOf user);
            mret (mkState userNotifications (loading s)))
           (fun error =>
              emit (ConsoleError "Erro ao carregar notificações:");; mret s);
    mret (mkState (notifications s') false).


Definition handleMarkAllAsRead (user : option User.t) (s : State) : Js State :=
  if String.eqb (idOf user) "" then mret s
  else
    try_catch
      (notificationService.markAllAsRead (idOf user);;
       loadNotifications user s)
      (fun error => emit (ConsoleError "Erro ao marcar todas como lidas:");; mret s).



(** [notifications.filter(n => !n.read).length] *)
Definition unreadCount (s : State) : nat :=
  length (List.filter (fun n => negb (Notification.read n)) (notifications s)).

End NotificationsScreen.

(** ** components/NotificationBell.tsx *)

Module NotificationBell.

(** The [unreadCount] cell of the component. *)
Definition loadUnreadCount (user : option User.t) (unreadCount : nat) : Js nat :=
  if String.eqb (NotificationsScreen.idOf user) "" then mret unreadCount
  else
    try_catch
      (count ← notificationService.getUnreadCount (NotificationsScreen.idOf user);
       mret count)
      (fun error =>
         emit (ConsoleError "Erro ao carregar contador de notificações:");;
         mret unreadCount).

(** The badge: absent at zero, "99+" above ninety-nine. *)
Definition badge (unreadCount : nat) : option string :=
  if (0 <? unreadCount)%nat
  then Some (if (99 <? unreadCount)%nat then "99+" else JS.toString unreadCount)
  else None.

End NotificationBell.

(** ** More of services/statistics.ts *)

(** The fields of [Statistics] that [getDoctorStatistics] fills. *)
Module DoctorStatistics.
Record t := mk {
  totalAppointments : nat;
  confirmedAppointments : nat;
  pendingAppointments : nat;
  cancelledAppointments : nat;
  totalPatients : nat;
  statusPercentages : StatusPercentages.t
}.
End DoctorStatistics.

(** The fields of [Statistics] that [getPatientStatistics] fills. *)
Module PatientStatistics.
Record t := mk {
  totalAppointments : nat;
  confirmedAppointments : nat;
  pendingAppointments : nat;
  cancelledAppointments : nat;
  totalDoctors : nat;
  specialties : gmap string Cell;
  statusPercentages : StatusPercentages.t
}.
End PatientStatistics.

Definition getDoctorStatistics (doctorId : string) : Js DoctorStatistics.t :=
  try_catch
    (appointmentsData ← getItem_appointments;
     allAppointments ← parse_or_empty appointmentsData;
     let doctorAppointments :=
       List.filter (fun a => String.eqb (Appointment.doctorId a) doctorId)
                   allAppointments in
     let totalAppointments := length doctorAppointments in
     let confirmedAppointments :=
       statisticsService.countStatus confirmed doctorAppointments in
     let pendingAppointments :=
       statisticsService.countStatus pending doctorAppointments in
     let cancelledAppointments :=
       statisticsService.countStatus cancelled doctorAppointments in
     let totalPatients :=
       statisticsService.distinct (map Appointment.patientId doctorAppointments) in
     let statusPercentages :=
       StatusPercentages.mk
         (statisticsService.percentage confirmedAppointments totalAppointments)
         (statisticsService.percentage pendingAppointments totalAppointments)
         (statisticsService.percentage cancelledAppointments totalAppointments) in
     mret (DoctorStatistics.mk totalAppointments confirmedAppointments
             pendingAppointments cancelledAppointments totalPatients
             statusPercentages))
    (fun error =>
       emit (ConsoleError "Erro ao calcular estatísticas do médico:");; throw error).

Definition getPatientStatistics (patientId : string) : Js PatientStatistics.t :=
  try_catch
    (appointmentsData ← getItem_appointments;
     allAppointments ← parse_or_empty appointmentsData;
     let patientAppointments :=
       List.filter (fun a => String.eqb (Appointment.patientId a) patientId)
                   allAppointments in
     let totalAppointments := length patientAppointments in
     let confirmedAppointments :=
       statisticsService.countStatus confirmed patientAppointments in
     let pendingAppointments :=
       statisticsService.countStatus pending patientAppointments in
     let cancelledAppointments :=
       statisticsService.countStatus cancelled patientAppointments in
     let specialties := statisticsService.countSpecialties patientAppointments in
     let totalDoctors :=
       statisticsService.distinct (map Appointment.doctorId patientAppointments) in
     let statusPercentages :=
       StatusPercentages.mk
         (statisticsService.percentage confirmedAppointments totalAppointments)
         (statisticsService.percentage pendingAppointments totalAppointments)
         (statisticsService.percentage cancelledAppointments totalAppointments) in
     mret (PatientStatistics.mk totalAppointments confirmedAppointments
             pendingAppointments cancelledAppointments totalDoctors specialties
             statusPercentages))
    (fun error =>
       emit (ConsoleError "Erro ao calcular estatísticas do paciente:");; throw error).

(** The sum of the counts held in a table of counts. *)
Definition tally (table : gmap string nat) : nat :=
  map_fold (fun _ count sum => count + sum) 0 table.

(** The sum of the counts held in a specialty table; a property that
    holds a string adds nothing. *)
Definition counted (table : gmap string Cell) : nat :=
  map_fold (fun _ cell sum => match cell with
                              | Count n => n + sum
                              | Glued _ => sum
                              end) 0 table.

(** Whether a key names a property of [Object.prototype]. *)
Definition inherited (key : string) : bool :=
  String.eqb key "__proto__" || statisticsService.inheritsFunction key.

(** The own property a specialty table has under [key] once [n] records
    of that specialty were counted into an empty table. *)
Definition cellAfter (key : string) (n : nat) : option Cell :=
  if (n =? 0)%nat then None
  else if String.eqb key "__proto__" then None
  else if statisticsService.inheritsFunction key then Some (Glued n)
  else Some (Count n).

(** The own property under [key] once [n] more records of that specialty
    are counted into a table that holds [cell] there. *)
Definition cellAdvance (key : string) (cell : option Cell) (n : nat) : option Cell :=
  match cell with
  | Some (Count c) => Some (Count (c + n))
  | Some (Glued g) => Some (Glued (g + n))
  | None => cellAfter key n
  end.

(** In a specialty table a count sits under a key that names no property
    of [Object.prototype], and a string under a key that names one. *)
Definition kinds_agree (table : gmap string Cell) : Prop :=
  forall (key : string) (cell : Cell),
    table !! key = Some cell ->
    match cell with
    | Count _ => inherited key = false
    | Glued _ => inherited key = true
    end.

(** Whether a text holds a slash. *)
Fixpoint holdsSlash (s : string) : bool :=
  match s with
  | EmptyString => false
  | String c rest => Ascii.eqb c "/" || holdsSlash rest
  end.

(** How many of the records have the specialty [key]. *)
Definition withSpecialty (key : string) (appointments : list Appointment.t) : nat :=
  length (List.filter (fun a => String.eqb (Appointment.specialty a) key) appointments).

(** Stored appointments whose specialties are a doctor's label and three
    names of properties of [Object.prototype]. *)
Definition oddSpecialties : list Appointment.t :=
  [ Appointment.mk "1" "p1" "Ana Lima" "1" "Dr. João Silva" "01/12/2025" "09:00"
      "Cardiologia" pending;
    Appointment.mk "2" "p1" "Ana Lima" "2" "Dra. Maria Santos" "02/12/2025" "09:30"
      "constructor" pending;
    Appointment.mk "3" "p1" "Ana Lima" "2" "Dra. Maria Santos" "03/12/2025" "10:00"
      "constructor" confirmed;
    Appointment.mk "4" "p1" "Ana Lima" "3" "Dr. Pedro Oliveira" "04/12/2025" "10:30"
      "__proto__" cancelled;
    Appointment.mk "5" "p1" "Ana Lima" "1" "Dr. João Silva" "05/12/2025" "11:00"
      "Cardiologia" confirmed ].

Definition oddSpecialtiesDevice : Device :=
  mkDevice (mkStorage (Some (Json oddSpecialties)) None None) []
    (fun k => (1700000000000 + Z.of_nat k)%Z) 0.

(** A device whose appointments are readable and whose registered users
    are not. *)
Definition garbledUsersDevice : Device :=
  mkDevice (mkStorage (Some (Json tenAppointments)) None (Some Garbled)) []
    (fun k => (1700000000000 + Z.of_nat k)%Z) 0.

(** ** Predicates about the booking screen *)

(** An appointment as the booking screen writes it for [user]: pending,
    at a time of the slot grid, with a date text, the user as patient and
    the three doctor fields copied from one listed doctor. *)
Definition booked_by (user : option User.t) (a : Appointment.t) : Prop :=
  Appointment.status a = pending /\
  on_grid a /\
  Appointment.date a <> "" /\
  Appointment.patientId a = CreateAppointmentScreen.idOf user /\
  Appointment.patientName a = CreateAppointmentScreen.nameOf user /\
  exists d : Doctor.t,
    In d CreateAppointmentScreen.availableDoctors /\
    Appointment.doctorId a = Doctor.id d /\
    Appointment.doctorName a = Doctor.name d /\
    Appointment.specialty a = Doctor.specialty d.

(** How often "Agendar" is pressed in a run of events. *)
Definition presses (events : list CreateAppointmentScreen.Event) : nat :=
  length (List.filter
            (fun ev => match ev with
                       | CreateAppointmentScreen.PressAgendar => true
                       | _ => false
                       end) events).

Definition garbledAppointmentsDevice : Device := deviceWithAppointments (Some Garbled).

(** A device whose appointments key holds the empty string. *)
Definition blankAppointmentsDevice : Device := deviceWithAppointments (Some Blank).

(** ** The date mask of components/AppointmentForm.tsx *)

Module DateMask.

(** [text.replace(/\D/g, '')] *)
Definition digitsOf (text : string) : list ascii :=
  List.filter JS.isDigit (list_ascii_of_string text).

(** [numbers.slice(from, to)] for [from <= to], as characters. *)
Definition slice (from to : nat) (numbers : list ascii) : list ascii :=
  take (to - from) (drop from numbers).

(** The three [if] branches of [handleDateChange], on the digits. *)
Definition formatDigits (numbers : list ascii) : list ascii :=
  if (0 <? length numbers)%nat then
    if (length numbers <=? 2)%nat then numbers
    else if (length numbers <=? 4)%nat
         then (slice 0 2 numbers ++ "/"%char :: drop 2 numbers)%list
         else (slice 0 2 numbers ++ "/"%char :: slice 2 4 numbers
                 ++ "/"%char :: slice 4 8 numbers)%list
  else [].

Definition formattedDate (text : string) : string :=
  string_of_list_ascii (formatDigits (digitsOf text)).

(** [handleDateChange]: the field keeps the masked text. *)
Definition handleDateChange (text : string) (s : AppointmentForm.State)
    : AppointmentForm.State :=
  AppointmentForm.mkState (AppointmentForm.selectedDoctor s) (formattedDate text)
    (AppointmentForm.selectedTime s) (AppointmentForm.description s).

End DateMask.

(** ** The earlier booking screen and the home screen *)

(** types/appointments.ts; [date] is the instant of the [Date] the form
    submitted, which [JSON.stringify] writes as an ISO string and
    [new Date(item.date)] reads back. *)
Module LegacyAppointment.
Record t := mk {
  id : string;
  doctorId : string;
  date : Z;
  time : string;
  description : string;
  status : string
}.
End LegacyAppointment.

(** screens/CreateAppointmentScreen.tsx, the version built on
    [AppointmentForm].  It and the home screen are the only users of the
    storage key 'appointments'; the text under that key is handed in and
    out, the clock and the outputs are those of the device. *)
Module LegacyCreateAppointmentScreen.

Record Outcome := mkOutcome {
  stored : option (Text LegacyAppointment.t);   (* the key after the call *)
  navigatedHome : bool                          (* navigation.navigate('Home') *)
}.

Definition handleSubmit (appointment : AppointmentForm.Submission)
    (existingAppointments : option (Text LegacyAppointment.t)) : Js Outcome :=
  try_catch
    (appointments ← parse_or_empty existingAppointments;
     now ← Date_now;
     let newAppointment :=
       LegacyAppointment.mk (pretty now)
                            (AppointmentForm.doctorId appointment)
                            (AppointmentForm.date appointment)
                            (AppointmentForm.time appointment)
                            (AppointmentForm.sub_description appointment)
                            "pending" in
     mret (mkOutcome (Some (Json (appointments ++ [newAppointment]))) true))
    (fun error =>
       emit (ConsoleError "Erro ao salvar consulta:");;
       emit (Alert "Erro ao salvar a consulta. Tente novamente.");;
       mret (mkOutcome existingAppointments false)).

End LegacyCreateAppointmentScreen.

(** screens/HomeScreen.tsx *)
Module HomeScreen.

Definition doctors : list Doctor.t :=
  [ Doctor.mk "1" "Dr. João Silva" "Cardiologista"
      "https://mighty.tools/mockmind-api/content/human/91.jpg";
    Doctor.mk "2" "Dra. Maria Santos" "Dermatologista"
      "https://mighty.tools/mockmind-api/content/human/97.jpg";
    Doctor.mk "3" "Dr. Pedro Oliveira" "Oftalmologista"
      "https://mighty.tools/mockmind-api/content/human/79.jpg" ].

(** [appointments] is the list the screen shows.
    [if (storedAppointments) setAppointments(JSON.parse(storedAppointments))]:
    an absent key and the empty string are falsy and leave the list as it
    is; any other text is parsed, and the list is replaced when it
    parses. *)
Definition loadAppointments (storedAppointments : option (Text LegacyAppointment.t))
    (appointments : list LegacyAppointment.t) : Js (list LegacyAppointment.t) :=
  try_catch
    (match storedAppointments with
     | None | Some Blank => mret appointments
     | Some (Json records) => mret records
     | Some Garbled => throw SyntaxError
     end)
    (fun error => emit (ConsoleError "Erro ao carregar consultas:");; mret appointments).

Definition getDoctorInfo (doctorId : string) : option Doctor.t :=
  List.find (fun entry => String.eqb (Doctor.id entry) doctorId) doctors.

(** [doctor?.name || 'Médico não encontrado'] *)
Definition shownDoctorName (item : LegacyAppointment.t) : string :=
  match getDoctorInfo (LegacyAppointment.doctorId item) with
  | Some found =>
      if String.eqb (Doctor.name found) "" then "Médico não encontrado"
      else Doctor.name found
  | None => "Médico não encontrado"
  end.

(** [item.status === 'pending' ? 'Pendente' : 'Confirmado'] *)
Definition shownStatus (item : LegacyAppointment.t) : string :=
  if String.eqb (LegacyAppointment.status item) "pending" then "Pendente"
  else "Confirmado".

End HomeScreen.
(** * Proofs *)

Import notificationService.

Ltac js_unfold :=
  unfold result, after, notificationsOf, appointmentsOf,
    getItem_notifications, getItem_appointments, getItem_registeredUsers,
    setItem_notifications, setItem_appointments, parse_or_empty,
    try_catch, throw, emit, set_storage, mbind, mret, Js_bind, Js_ret in *.

(** *** Marking notifications as read *)

Section Marking.

Variable selects : Notification.t -> bool.

Local Abbreviation mark := (mark_where selects).

Lemma mark_read_marked_only (n : Notification.t) : marked_only selects n (mark n).
Proof.
  unfold marked_only, mark_where. destruct (selects n) eqn:Hsel; simpl.
  - repeat split; auto. destruct (Notification.read n); congruence.
  - repeat split; auto; congruence.
Qed.

Lemma map_mark_Forall2 (l : list Notification.t) :
  Forall2 (marked_only selects) l (map mark l).
Proof.
  induction l as [|n l IH]; simpl; constructor; auto using mark_read_marked_only.
Qed.

Lemma map_mark_ids (l : list Notification.t) :
  map Notification.id (map mark l) = map Notification.id l.
Proof.
  induction l as [|n l IH]; simpl; [reflexivity|].
  rewrite IH. unfold mark_where. destruct (selects n); reflexivity.
Qed.

Lemma map_mark_twice (l : list Notification.t) :
  (forall n, selects (Notification.mark_read n) = selects n) ->
  map mark (map mark l) = map mark l.
Proof.
  intros Hstable. induction l as [|n l IH]; simpl; [reflexivity|].
  rewrite IH. f_equal. unfold mark_where.
  destruct (selects n) eqn:Hsel.
  - rewrite Hstable, Hsel. reflexivity.
  - rewrite Hsel. reflexivity.
Qed.

Lemma map_mark_selected_read (l : list Notification.t) (n : Notification.t) :
  (forall n, selects (Notification.mark_read n) = selects n) ->
  In n (map mark l) -> selects n = true -> Notification.read n = true.
Proof.
  intros Hstable Hin Hsel. apply in_map_iff in Hin as [m [Hm _]].
  unfold mark_where in Hm.
  destruct (selects m) eqn:Hm'; subst n; [reflexivity|].
  congruence.
Qed.

Lemma map_mark_none_selected (l : list Notification.t) :
  (forall n, In n l -> selects n = false) -> map mark l = l.
Proof.
  induction l as [|n l IH]; simpl; intros Hnone; [reflexivity|].
  unfold mark_where at 1. rewrite (Hnone n) by auto. f_equal. apply IH. auto.
Qed.

Lemma marking_effect_frame (label : string) (w : Device) :
  frame_preserved selects w (marking_effect selects label w).
Proof.
  unfold frame_preserved, marking_effect, notificationsOf.
  destruct (notificationsKey (storage w)) as [[records| |]|] eqn:Hkey; simpl;
    rewrite ?Hkey; simpl; rewrite ?length_map;
    repeat split; auto using map_mark_ids, map_mark_Forall2; constructor.
Qed.

Lemma map_mark_keeps_selected (l : list Notification.t) (n : Notification.t) :
  In n l -> selects n = true -> In (Notification.mark_read n) (map mark l).
Proof.
  intros Hin Hsel. apply in_map_iff. exists n. split; [|exact Hin].
  unfold mark_where. rewrite Hsel. reflexivity.
Qed.

End Marking.

Lemma markAsRead_run (notificationId : string) (w : Device) :
  markAsRead notificationId w =
  (Returned tt,
   marking_effect (fun n => String.eqb (Notification.id n) notificationId)
     "Erro ao marcar notificação como lida:" w).
Proof.
  unfold markAsRead, marking_effect. js_unfold.
  destruct (notificationsKey (storage w)) as [[records| |]|]; reflexivity.
Qed.

Lemma markAllAsRead_run (userId : string) (w : Device) :
  markAllAsRead userId w =
  (Returned tt,
   marking_effect (fun n => String.eqb (Notification.userId n) userId)
     "Erro ao marcar todas notificações como lidas:" w).
Proof.
  unfold markAllAsRead, marking_effect. js_unfold.
  destruct (notificationsKey (storage w)) as [[records| |]|]; reflexivity.
Qed.

(** The stored notifications after a marking run, whatever the key held. *)
Lemma marking_effect_notifications (selects : Notification.t -> bool)
    (label : string) (w : Device) :
  notificationsOf (marking_effect selects label w)
    = map (mark_where selects) (notificationsOf w).
Proof.
  unfold notificationsOf, marking_effect.
  destruct (notificationsKey (storage w)) as [[records| |]|] eqn:Hkey; simpl;
    rewrite ?Hkey; reflexivity.
Qed.

(** C9.  [markAsRead] always returns, and running it a second time with
    the same id changes nothing more: the storage after two runs is the
    storage after one.  A run keeps every stored record in its place (the
    ids read the same, in the same order); each stored record that carries
    the id is stored afterwards with [read = true] and its other fields
    as they were; after one run and after two every stored notification
    with that id has [read = true]; and when no stored notification has
    the id the collection is what it was. *)
Theorem markAsRead_idempotent_total (notificationId : string) (w : Device) :
  result (markAsRead notificationId) w = Returned tt /\
  result (markAsRead notificationId) (after (markAsRead notificationId) w) = Returned tt /\
  storage (after (markAsRead notificationId) (after (markAsRead notificationId) w))
    = storage (after (markAsRead notificationId) w) /\
  map Notification.id (notificationsOf (after (markAsRead notificationId) w))
    = map Notification.id (notificationsOf w) /\
  (forall n, In n (notificationsOf w) -> Notification.id n = notificationId ->
             In (Notification.mark_read n)
                (notificationsOf (after (markAsRead notificationId) w))) /\
  (forall n, In n (notificationsOf w) -> Notification.id n <> notificationId ->
             In n (notificationsOf (after (markAsRead notificationId) w))) /\
  (forall n, In n (notificationsOf (after (markAsRead notificationId) w)) ->
             Notification.id n = notificationId -> Notification.read n = true) /\
  (forall n, In n (notificationsOf
                     (after (markAsRead notificationId)
                        (after (markAsRead notificationId) w))) ->
             Notification.id n = notificationId -> Notification.read n = true) /\
  ((forall n, In n (notificationsOf w) -> Notification.id n <> notificationId) ->
   notificationsOf (after (markAsRead notificationId) w) = notificationsOf w).
Proof.
  set (selects := fun n => String.eqb (Notification.id n) notificationId).
  assert (Hstable : forall n, selects (Notification.mark_read n) = selects n)
    by reflexivity.
  assert (Hread : forall l n, In n (map (mark_where selects) l) ->
                    Notification.id n = notificationId -> Notification.read n = true).
  { intros l n Hin Hid. apply (map_mark_selected_read selects l n Hstable Hin).
    unfold selects. rewrite Hid. apply String.eqb_refl. }
  assert (Honce : notificationsOf (after (markAsRead notificationId) w)
                  = map (mark_where selects) (notificationsOf w)).
  { unfold after. rewrite markAsRead_run. apply marking_effect_notifications. }
  assert (Htwice : notificationsOf (after (markAsRead notificationId)
                                      (after (markAsRead notificationId) w))
                   = map (mark_where selects) (notificationsOf w)).
  { unfold after at 1. rewrite markAsRead_run. simpl.
    rewrite marking_effect_notifications. fold selects. rewrite Honce.
    apply map_mark_twice, Hstable. }
  rewrite Htwice, Honce.
  split; [unfold result; rewrite markAsRead_run; reflexivity|].
  split; [unfold result; rewrite markAsRead_run; reflexivity|].
  split.
  { unfold after. rewrite !markAsRead_run. simpl. rewrite ?markAsRead_run. simpl.
    unfold marking_effect. fold selects.
    destruct (notificationsKey (storage w)) as [[records| |]|] eqn:Hkey; simpl;
      rewrite ?Hkey; simpl; try reflexivity.
    rewrite (map_mark_twice selects records Hstable). reflexivity. }
  split; [apply map_mark_ids|].
  split.
  { intros n Hin Hid. apply map_mark_keeps_selected; [exact Hin|].
    unfold selects. rewrite Hid. apply String.eqb_refl. }
  split.
  { intros n Hin Hid. apply in_map_iff. exists n. split; [|exact Hin].
    unfold mark_where, selects. apply String.eqb_neq in Hid. rewrite Hid. reflexivity. }
  split; [apply Hread|]. split; [apply Hread|].
  intros Hnone. apply map_mark_none_selected. intros n Hin.
  unfold selects. apply String.eqb_neq. auto.
Qed.

Example markAsRead_on_the_sample_device :
  map (fun n => (Notification.id n, Notification.read n))
    (notificationsOf (after (markAsRead "3") sampleDevice))
  = [ ("1", false); ("2", false); ("3", true); ("4", true) ].
Proof. reflexivity. Qed.

(** C10.  A run of [markAsRead] or of [markAllAsRead] keeps the number of
    stored notifications, their order and their ids, and every field of
    every record except [read]; a [read] flag that changes belongs to a
    record the operation selects and goes from [false] to [true].  The
    other storage keys are not written. *)
Theorem marking_changes_only_read_flags (notificationId userId : string) (w : Device) :
  frame_preserved (fun n => String.eqb (Notification.id n) notificationId)
    w (after (markAsRead notificationId) w) /\
  frame_preserved (fun n => String.eqb (Notification.userId n) userId)
    w (after (markAllAsRead userId) w).
Proof.
  unfold after. rewrite markAsRead_run, markAllAsRead_run. simpl.
  split; apply marking_effect_frame.
Qed.

(** *** The stable sort, for a comparator [b.key - a.key] *)

Section SortByKey.

Context {A : Type} (key : A -> Z).

Local Abbreviation descending := (fun a b : A => (key b - key a)%Z).
Local Abbreviation not_before := (fun a b : A => (key b <= key a)%Z).
Local Abbreviation keyed t := (fun a : A => (key a =? t)%Z).

Lemma insert_Permutation (x : A) (l : list A) :
  Permutation (JS.insert descending x l) (x :: l).
Proof.
  induction l as [|y l IH]; simpl; [reflexivity|].
  destruct (key y - key x <=? 0)%Z; [reflexivity|].
  rewrite IH. apply perm_swap.
Qed.

Lemma sort_Permutation (l : list A) : Permutation (JS.sort descending l) l.
Proof.
  induction l as [|x l IH]; simpl; [reflexivity|].
  rewrite insert_Permutation. constructor. exact IH.
Qed.

Lemma insert_sorted (x : A) (l : list A) :
  StronglySorted not_before l -> StronglySorted not_before (JS.insert descending x l).
Proof.
  induction 1 as [|y l Hl IH Hy]; simpl.
  - repeat constructor.
  - destruct (key y - key x <=? 0)%Z eqn:Hcmp.
    + apply Z.leb_le in Hcmp. constructor; [constructor; assumption|].
      constructor; [lia|].
      eapply Forall_impl; [exact Hy|]. simpl. intros; lia.
    + apply Z.leb_gt in Hcmp. constructor; [exact IH|].
      rewrite (insert_Permutation x l). constructor; [lia | exact Hy].
Qed.

Lemma sort_sorted (l : list A) : StronglySorted not_before (JS.sort descending l).
Proof.
  induction l as [|x l IH]; simpl; [constructor | apply insert_sorted, IH].
Qed.

Lemma insert_keeps_ties (t : Z) (x : A) (l : list A) :
  List.filter (keyed t) (JS.insert descending x l) = List.filter (keyed t) (x :: l).
Proof.
  induction l as [|y l IH]; [reflexivity|].
  simpl JS.insert. destruct (key y - key x <=? 0)%Z eqn:Hcmp; [reflexivity|].
  apply Z.leb_gt in Hcmp.
  change (List.filter (keyed t) (y :: JS.insert descending x l))
    with (if (key y =? t)%Z then y :: List.filter (keyed t) (JS.insert descending x l)
          else List.filter (keyed t) (JS.insert descending x l)).
  rewrite IH. simpl.
  destruct (key y =? t)%Z eqn:Hy, (key x =? t)%Z eqn:Hx; try reflexivity.
  apply Z.eqb_eq in Hy, Hx. lia.
Qed.

Lemma sort_keeps_ties (t : Z) (l : list A) :
  List.filter (keyed t) (JS.sort descending l) = List.filter (keyed t) l.
Proof.
  induction l as [|x l IH]; [reflexivity|].
  simpl JS.sort. rewrite insert_keeps_ties. simpl. rewrite IH. reflexivity.
Qed.

End SortByKey.

(** C7.  With a readable notification collection stored,
    [getNotifications(userId)] returns, without touching the device, a
    list that holds exactly the stored records of that user (a
    permutation of them), ordered by [createdAt] from newest to oldest,
    in which the records of any one timestamp come in their stored
    order. *)
Theorem getNotifications_newest_first_stable
    (userId : string) (stored : list Notification.t) (w : Device) :
  notificationsKey (storage w) = Some (Json stored) ->
  exists listed : list Notification.t,
    getNotifications userId w = (Returned listed, w) /\
    Permutation listed
      (List.filter (fun n => String.eqb (Notification.userId n) userId) stored) /\
    StronglySorted
      (fun a b => (Notification.createdAt b <= Notification.createdAt a)%Z) listed /\
    forall t : Z,
      List.filter (fun n => (Notification.createdAt n =? t)%Z) listed =
      List.filter (fun n => (Notification.createdAt n =? t)%Z)
        (List.filter (fun n => String.eqb (Notification.userId n) userId) stored).
Proof.
  intros Hkey. eexists. split.
  - unfold getNotifications. js_unfold. rewrite Hkey. reflexivity.
  - split; [apply sort_Permutation|].
    split; [apply sort_sorted|].
    intros t. apply sort_keeps_ties.
Qed.

Lemma getNotifications_newest_first_stable_witness :
  exists listed : list Notification.t,
    getNotifications "p1" sampleDevice = (Returned listed, sampleDevice) /\
    Permutation listed
      (List.filter (fun n => String.eqb (Notification.userId n) "p1") sampleNotifications) /\
    StronglySorted
      (fun a b => (Notification.createdAt b <= Notification.createdAt a)%Z) listed /\
    forall t : Z,
      List.filter (fun n => (Notification.createdAt n =? t)%Z) listed =
      List.filter (fun n => (Notification.createdAt n =? t)%Z)
        (List.filter (fun n => String.eqb (Notification.userId n) "p1") sampleNotifications).
Proof.
  apply (getNotifications_newest_first_stable "p1" sampleNotifications sampleDevice).
  reflexivity.
Defined.

Example getNotifications_sample :
  result (getNotifications "p1") sampleDevice =
  Returned [ Notification.mk "3" "p1" "C" "newest" appointment_confirmed false 200 (Some "9");
             Notification.mk "1" "p1" "A" "first" general false 100 None;
             Notification.mk "4" "p1" "D" "tie with first" appointment_reminder true 100 None ].
Proof. reflexivity. Qed.

(** *** Statistics *)

Import statisticsService.

Lemma forEachMonth_run (appointments : list Appointment.t)
    (table : gmap string nat) (w : Device) :
  forEachMonth appointments table w =
  (Returned (fold_left (fun table a => countUnderMonthKey (Appointment.date a) table)
               appointments table), w).
Proof.
  revert table. induction appointments as [|a rest IH]; intros table; [reflexivity|].
  simpl forEachMonth. unfold mbind, Js_bind, countMonth, try_catch, mret, Js_ret.
  simpl. apply IH.
Qed.

Lemma getGeneralStatistics_run (w : Device) :
  readable (appointmentsKey (storage w)) ->
  readable (registeredUsersKey (storage w)) ->
  getGeneralStatistics w = (Returned (summarize (appointmentsOf w)), w).
Proof.
  unfold readable, getGeneralStatistics, appointmentsOf. intros Ha Hu. js_unfold.
  destruct (appointmentsKey (storage w)) as [[appointments| |]|]; try congruence;
    destruct (registeredUsersKey (storage w)) as [[users| |]|]; try congruence;
    simpl; rewrite ?forEachMonth_run; reflexivity.
Qed.

(** Every record is counted under the key its date gives: the entry of a
    month key is the number of records with that key. *)
Lemma months_count_every_record (appointments : list Appointment.t)
    (table : gmap string nat) (k : string) :
  default 0 (fold_left (fun table a => countUnderMonthKey (Appointment.date a) table)
               appointments table !! k) =
  default 0 (table !! k) +
  length (List.filter (fun a => String.eqb (monthKey (Appointment.date a)) k) appointments).
Proof.
  revert table. induction appointments as [|a rest IH]; intros table; simpl; [lia|].
  rewrite IH. unfold countUnderMonthKey.
  destruct (String.eqb_spec (monthKey (Appointment.date a)) k) as [->|Hne].
  - rewrite lookup_insert_eq. simpl. lia.
  - rewrite lookup_insert_ne by exact Hne. reflexivity.
Qed.

(** C8.  When the appointment and user keys are readable
    [getGeneralStatistics] returns; for ten stored appointments of which
    three are confirmed, four pending and three cancelled its
    [statusPercentages] are exactly 30, 40 and 30, and for an empty
    collection the three are 0, the division being skipped. *)
Theorem statusPercentages_of_ten_and_of_none (w : Device) :
  readable (appointmentsKey (storage w)) ->
  readable (registeredUsersKey (storage w)) ->
  exists stats : Statistics.t,
    getGeneralStatistics w = (Returned stats, w) /\
    (length (appointmentsOf w) = 10 ->
     countStatus confirmed (appointmentsOf w) = 3 ->
     countStatus pending (appointmentsOf w) = 4 ->
     countStatus cancelled (appointmentsOf w) = 3 ->
     Statistics.statusPercentages stats = StatusPercentages.mk 30 40 30) /\
    (appointmentsOf w = [] ->
     Statistics.statusPercentages stats = StatusPercentages.mk 0 0 0).
Proof.
  intros Ha Hu. exists (summarize (appointmentsOf w)).
  split; [apply getGeneralStatistics_run; assumption|].
  split.
  - intros Hlen Hc Hp Hx. unfold summarize. simpl.
    rewrite Hlen, Hc, Hp, Hx. vm_compute. reflexivity.
  - intros Hnil. rewrite Hnil. vm_compute. reflexivity.
Qed.

Lemma statusPercentages_of_ten_and_of_none_witness :
  (exists stats : Statistics.t,
     getGeneralStatistics (deviceWithAppointments (Some (Json tenAppointments))) =
       (Returned stats, deviceWithAppointments (Some (Json tenAppointments))) /\
     Statistics.statusPercentages stats = StatusPercentages.mk 30 40 30) /\
  (exists stats : Statistics.t,
     getGeneralStatistics (deviceWithAppointments None) =
       (Returned stats, deviceWithAppointments None) /\
     Statistics.statusPercentages stats = StatusPercentages.mk 0 0 0).
Proof.
  split.
  - destruct (statusPercentages_of_ten_and_of_none
                (deviceWithAppointments (Some (Json tenAppointments))))
      as [stats [Hrun [Hten _]]]; [discriminate | discriminate |].
    exists stats. split; [exact Hrun|]. apply Hten; reflexivity.
  - destruct (statusPercentages_of_ten_and_of_none (deviceWithAppointments None))
      as [stats [Hrun [_ Hnone]]]; [discriminate | discriminate |].
    exists stats. split; [exact Hrun|]. apply Hnone; reflexivity.
Defined.

Example split_slash_samples :
  JS.split_slash "15/01/2026" = ["15"; "01"; "2026"] /\
  JS.split_slash "31122025" = ["31122025"] /\
  JS.split_slash "" = [""] /\
  JS.split_slash "a//b/" = ["a"; ""; "b"; ""].
Proof. repeat split; reflexivity. Qed.

Example monthKey_well_formed : monthKey "15/01/2026" = "01/2026".
Proof. reflexivity. Qed.

Example monthKey_without_slash : monthKey "31122025" = "undefined/undefined".
Proof. reflexivity. Qed.

Example monthKey_four_parts : monthKey "1/2/3/4" = "2/3".
Proof. reflexivity. Qed.

(** The aggregation writes no warning: whatever is stored, a run of
    [getGeneralStatistics] adds nothing to the outputs, or the one error
    line of its outer [catch]. *)
Lemma getGeneralStatistics_outputs (w : Device) :
  outputs (after getGeneralStatistics w) = outputs w \/
  outputs (after getGeneralStatistics w) =
    (outputs w ++ [ConsoleError "Erro ao calcular estatísticas:"])%list.
Proof.
  unfold after, getGeneralStatistics. js_unfold.
  destruct (appointmentsKey (storage w)) as [[appointments| |]|];
    destruct (registeredUsersKey (storage w)) as [[users| |]|];
    simpl; rewrite ?forEachMonth_run; simpl; auto.
Qed.

(** C5 (the code departs from the claim).  With the stored dates
    "31122025" and "15/01/2026" the aggregation does not skip the first
    record: [split] gives a one-element array, the month and year are
    [undefined], and the record is counted under the key
    "undefined/undefined"; no warning is written.  The second record is
    counted under "01/2026" and the call returns. *)
Theorem unsplit_date_is_counted_under_undefined :
  exists stats : Statistics.t,
    getGeneralStatistics (deviceWithAppointments (Some (Json unsplitAppointments))) =
      (Returned stats, deviceWithAppointments (Some (Json unsplitAppointments))) /\
    Statistics.appointmentsByMonth stats !! "undefined/undefined" = Some 1 /\
    Statistics.appointmentsByMonth stats !! "01/2026" = Some 1 /\
    outputs (after getGeneralStatistics
               (deviceWithAppointments (Some (Json unsplitAppointments)))) = [].
Proof.
  exists (summarize unsplitAppointments).
  split; [apply getGeneralStatistics_run; discriminate|].
  split; [vm_compute; reflexivity|].
  split; [vm_compute; reflexivity|].
  unfold after. rewrite getGeneralStatistics_run by discriminate. reflexivity.
Qed.

(** *** Loading an absent or unreadable key *)

(** C3, counterexample.  With text under the appointments key that is
    not empty and that [JSON.parse] rejects, the load inside
    [getGeneralStatistics] does not yield an empty sequence: the call
    logs the error and throws it again. *)
Lemma getGeneralStatistics_rethrows_on_garbled :
  getGeneralStatistics (deviceWithAppointments (Some Garbled)) =
    (Thrown SyntaxError,
     mkDevice (mkStorage (Some Garbled) None None)
       [ConsoleError "Erro ao calcular estatísticas:"]
       (fun k => (1700000000000 + Z.of_nat k)%Z) 0) /\
  ~ exists stats : Statistics.t,
      result getGeneralStatistics (deviceWithAppointments (Some Garbled)) = Returned stats.
Proof.
  split; [reflexivity|]. intros [stats Hstats]. discriminate Hstats.
Qed.

(** C3, as amended.  [getNotifications] returns the empty sequence and
    leaves the device as it was when the notifications key is absent or
    holds the empty string; when the key holds other text that
    [JSON.parse] rejects it returns the empty sequence after writing the
    one error line "Erro ao carregar notificações:", and writes nothing
    else.  [getGeneralStatistics] reads an absent appointments key and
    the empty string as the empty collection, silently; on other
    unparseable appointment text it writes the error line "Erro ao
    calcular estatísticas:" and throws the parse error again.  Neither
    call ever fails with a not-found error. *)
Theorem loads_of_absent_and_unreadable_keys (userId : string) (w : Device) :
  (notificationsKey (storage w) = None \/ notificationsKey (storage w) = Some Blank ->
   getNotifications userId w = (Returned [], w)) /\
  (notificationsKey (storage w) = Some Garbled ->
   getNotifications userId w =
     (Returned [],
      mkDevice (storage w) (outputs w ++ [ConsoleError "Erro ao carregar notificações:"])
        (ticks w) (reads w))) /\
  (appointmentsKey (storage w) = None \/ appointmentsKey (storage w) = Some Blank ->
   readable (registeredUsersKey (storage w)) ->
   getGeneralStatistics w
     = (Returned (Statistics.mk 0 0 0 0 0 0 ∅ ∅ (StatusPercentages.mk 0 0 0)), w)) /\
  (appointmentsKey (storage w) = Some Garbled ->
   getGeneralStatistics w =
     (Thrown SyntaxError,
      mkDevice (storage w) (outputs w ++ [ConsoleError "Erro ao calcular estatísticas:"])
        (ticks w) (reads w))) /\
  result (getNotifications userId) w <> Thrown NotFoundError /\
  result getGeneralStatistics w <> Thrown NotFoundError.
Proof.
  split; [|split; [|split; [|split; [|split]]]].
  - intros [Hkey|Hkey]; unfold getNotifications; js_unfold; rewrite Hkey; reflexivity.
  - intros Hkey. unfold getNotifications. js_unfold. rewrite Hkey. reflexivity.
  - intros Hkey Husers.
    rewrite getGeneralStatistics_run; [|destruct Hkey; congruence|assumption].
    unfold appointmentsOf. destruct Hkey as [Hkey|Hkey]; rewrite Hkey; reflexivity.
  - intros Hkey. unfold getGeneralStatistics. js_unfold. rewrite Hkey. reflexivity.
  - unfold getNotifications. js_unfold.
    destruct (notificationsKey (storage w)) as [[records| |]|]; discriminate.
  - unfold getGeneralStatistics. js_unfold.
    destruct (appointmentsKey (storage w)) as [[appointments| |]|];
      destruct (registeredUsersKey (storage w)) as [[users| |]|];
      simpl; rewrite ?forEachMonth_run; discriminate.
Qed.

Lemma loads_of_absent_and_unreadable_keys_witness :
  getNotifications "p1" emptyDevice = (Returned [], emptyDevice) /\
  getNotifications "p1" blankNotificationsDevice = (Returned [], blankNotificationsDevice) /\
  getNotifications "p1" garbledNotificationsDevice =
    (Returned [],
     mkDevice (mkStorage None (Some Garbled) None)
       [ConsoleError "Erro ao carregar notificações:"]
       (fun k => (1700000000000 + Z.of_nat k)%Z) 0) /\
  getGeneralStatistics (deviceWithAppointments (Some Blank))
    = (Returned (Statistics.mk 0 0 0 0 0 0 ∅ ∅ (StatusPercentages.mk 0 0 0)),
       deviceWithAppointments (Some Blank)) /\
  result getGeneralStatistics (deviceWithAppointments (Some Garbled)) = Thrown SyntaxError.
Proof.
  split; [|split; [|split; [|split]]].
  - apply (loads_of_absent_and_unreadable_keys "p1" emptyDevice). left. reflexivity.
  - apply (loads_of_absent_and_unreadable_keys "p1" blankNotificationsDevice).
    right. reflexivity.
  - apply (loads_of_absent_and_unreadable_keys "p1" garbledNotificationsDevice).
    reflexivity.
  - apply (loads_of_absent_and_unreadable_keys "p1" (deviceWithAppointments (Some Blank)));
      [right; reflexivity | discriminate].
  - unfold result.
    rewrite (proj1 (proj2 (proj2 (proj2
               (loads_of_absent_and_unreadable_keys "p1"
                  (deviceWithAppointments (Some Garbled)))))) eq_refl).
    reflexivity.
Defined.

(** *** Creating notifications and appointments *)

Import CreateAppointmentScreen.

Lemma createNotification_run (d : Notification.draft) (w : Device) :
  createNotification d w = (Returned tt, createNotification_effect d w).
Proof.
  unfold createNotification, createNotification_effect, Date_now. js_unfold.
  destruct (notificationsKey (storage w)) as [[records| |]|]; reflexivity.
Qed.

Lemma createNotification_effect_appointments (d : Notification.draft) (w : Device) :
  appointmentsKey (storage (createNotification_effect d w)) = appointmentsKey (storage w).
Proof.
  unfold createNotification_effect.
  destruct (notificationsKey (storage w)) as [[records| |]|]; reflexivity.
Qed.

Lemma createNotification_effect_appends (d : Notification.draft) (w : Device) :
  readable (notificationsKey (storage w)) ->
  notificationsKey (storage (createNotification_effect d w)) =
  Some (Json (notificationsOf w ++
                [newNotification d (ticks w (reads w)) (ticks w (S (reads w)))])).
Proof.
  unfold readable, createNotification_effect, notificationsOf.
  destruct (notificationsKey (storage w)) as [[records| |]|]; intros Hr;
    [reflexivity | reflexivity | congruence | reflexivity].
Qed.

(** The four ways a run of [handleCreateAppointment] can go. *)
Lemma handleCreateAppointment_run (user : option User.t) (s : State) (w : Device) :
  handleCreateAppointment user s w =
  match selectedDoctor s with
  | Some selected =>
      if String.eqb (date s) "" || String.eqb (selectedTime s) ""
      then (Returned (settled missingFields s), w)
      else match appointmentsKey (storage w) with
           | Some Garbled => (Returned (settled saveFailed s), w)
           | _ => (Returned (setLoading false (setError "" (setLoading true s))),
                   creation_effect user s selected w)
           end
  | None => (Returned (settled missingFields s), w)
  end.
Proof.
  unfold handleCreateAppointment, creation_effect, notifyNewAppointment, Date_now.
  js_unfold.
  destruct (selectedDoctor s) as [selected|]; [|reflexivity].
  destruct (String.eqb (date s) "" || String.eqb (selectedTime s) ""); [reflexivity|].
  destruct (appointmentsKey (storage w)) as [[records| |]|]; simpl;
    rewrite ?createNotification_run; reflexivity.
Qed.

Lemma creation_effect_appointments (user : option User.t) (s : State)
    (selected : Doctor.t) (w : Device) :
  appointmentsKey (storage (creation_effect user s selected w)) =
  Some (Json (appointmentsOf w ++ [newAppointment user s selected (ticks w (reads w))])).
Proof.
  unfold creation_effect. simpl. rewrite createNotification_effect_appointments.
  reflexivity.
Qed.

Lemma creation_effect_notifications_readable (user : option User.t) (s : State)
    (selected : Doctor.t) (w : Device) :
  readable (notificationsKey (storage w)) ->
  readable (notificationsKey (storage (creation_effect user s selected w))).
Proof.
  intros Hr. unfold creation_effect. simpl.
  rewrite createNotification_effect_appends by exact Hr. discriminate.
Qed.

(** A run that passes the guard with the stored appointments readable
    appends exactly the new record. *)
Lemma handleCreateAppointment_appends (user : option User.t) (s : State)
    (selected : Doctor.t) (w : Device) :
  selectedDoctor s = Some selected ->
  date s <> "" -> selectedTime s <> "" ->
  readable (appointmentsKey (storage w)) ->
  handleCreateAppointment user s w =
    (Returned (setLoading false (setError "" (setLoading true s))),
     creation_effect user s selected w).
Proof.
  intros Hdoc Hdate Htime Hread. rewrite handleCreateAppointment_run, Hdoc.
  apply String.eqb_neq in Hdate, Htime. rewrite Hdate, Htime. simpl.
  unfold readable in Hread.
  destruct (appointmentsKey (storage w)) as [[records| |]|]; congruence.
Qed.

(** *** The slot grid and the booking screen *)

Lemma generateTimeSlots_list :
  TimeSlotList.generateTimeSlots =
  [ "09:00"; "09:30"; "10:00"; "10:30"; "11:00"; "11:30"; "12:00"; "12:30";
    "13:00"; "13:30"; "14:00"; "14:30"; "15:00"; "15:30"; "16:00"; "16:30";
    "17:00"; "17:30" ].
Proof. reflexivity. Qed.

Lemma generateTimeSlots_hours (t : string) :
  In t TimeSlotList.generateTimeSlots <->
  exists hour : nat, 9 <= hour <= 17 /\ (t = slot hour ":00" \/ t = slot hour ":30").
Proof.
  unfold TimeSlotList.generateTimeSlots. rewrite in_flat_map. split.
  - intros [hour [Hhour Ht]]. apply in_seq in Hhour. exists hour. split; [lia|].
    simpl in Ht. unfold slot. intuition.
  - intros [hour [Hhour Ht]]. exists hour. split; [apply in_seq; lia|].
    simpl. unfold slot in Ht. intuition.
Qed.

Lemma not_on_grid_0830 : ~ In "08:30" TimeSlotList.generateTimeSlots.
Proof. rewrite generateTimeSlots_list. simpl. intuition discriminate. Qed.

Lemma not_on_grid_1800 : ~ In "18:00" TimeSlotList.generateTimeSlots.
Proof. rewrite generateTimeSlots_list. simpl. intuition discriminate. Qed.

Lemma lookup_In {A : Type} (l : list A) (i : nat) (x : A) : l !! i = Some x -> In x l.
Proof. intros Hi. apply list_elem_of_In. eapply list_elem_of_lookup_2, Hi. Qed.

Lemma settled_offered (message : string) (s : State) : offered s -> offered (settled message s).
Proof. unfold offered, settled. simpl. auto. Qed.

Lemma react_keeps_grid (user : option User.t) (ev : Event) (s : State) (w : Device) :
  offered s -> Forall on_grid (appointmentsOf w) ->
  exists s' w', react user s ev w = (Returned s', w') /\
                offered s' /\ Forall on_grid (appointmentsOf w').
Proof.
  intros Hs Hw. destruct ev as [text|position|position|]; simpl.
  - exists (setDate text s), w. repeat split; auto; apply Hs.
  - destruct (TimeSlotList.generateTimeSlots !! position) as [time|] eqn:Hpos.
    + exists (setSelectedTime time s), w. repeat split; auto; [|apply Hs].
      right. exact (lookup_In _ _ _ Hpos).
    + exists s, w. auto.
  - destruct (availableDoctors !! position) as [chosen|] eqn:Hpos.
    + exists (setSelectedDoctor (Some chosen) s), w. repeat split; auto; [apply Hs|].
      intros d [= <-]. exact (lookup_In _ _ _ Hpos).
    + exists s, w. auto.
  - rewrite handleCreateAppointment_run.
    destruct (selectedDoctor s) as [selected|] eqn:Hdoc;
      [|eauto using settled_offered].
    destruct (String.eqb (date s) "" || String.eqb (selectedTime s) "") eqn:Hguard;
      [eauto using settled_offered|].
    apply orb_false_iff in Hguard as [_ Htime]. apply String.eqb_neq in Htime.
    assert (Hnew : Forall on_grid (appointmentsOf (creation_effect user s selected w))).
    { unfold appointmentsOf at 1. rewrite creation_effect_appointments. simpl.
      apply Forall_app. split; [exact Hw|]. constructor; [|constructor].
      unfold on_grid. simpl. destruct Hs as [[Hempty|Hin] _]; [contradiction|exact Hin]. }
    assert (Hkept : offered (setLoading false (setError "" (setLoading true s))))
      by (destruct Hs as [Ht Hd]; split; simpl; auto).
    destruct (appointmentsKey (storage w)) as [[records| |]|] eqn:Hkey;
      eauto using settled_offered.
Qed.

(** Whatever the user does on the screen, the run returns and every
    stored appointment keeps (or gets) a time of the slot grid. *)
Lemma session_keeps_grid (user : option User.t) (events : list Event)
    (s : State) (w : Device) :
  offered s -> Forall on_grid (appointmentsOf w) ->
  exists s' w', session user events s w = (Returned s', w') /\
                offered s' /\ Forall on_grid (appointmentsOf w').
Proof.
  revert s w. induction events as [|ev rest IH]; intros s w Hs Hw; simpl.
  - exists s, w. auto.
  - destruct (react_keeps_grid user ev s w Hs Hw) as [s1 [w1 [Hrun [Hs1 Hw1]]]].
    destruct (IH s1 w1 Hs1 Hw1) as [s2 [w2 [Hrest [Hs2 Hw2]]]].
    exists s2, w2.
    split; [unfold mbind, Js_bind; rewrite Hrun; exact Hrest | split; assumption].
Qed.

Lemma initial_offered : offered initial.
Proof. split; [left; reflexivity | discriminate]. Qed.

Lemma creation_effect_rest (user : option User.t) (s : State)
    (selected : Doctor.t) (w : Device) :
  registeredUsersKey (storage (creation_effect user s selected w))
    = registeredUsersKey (storage w) /\
  exists more : list Notification.t,
    notificationsOf (creation_effect user s selected w)
      = (notificationsOf w ++ more)%list.
Proof.
  unfold creation_effect, createNotification_effect, notificationsOf. simpl.
  destruct (notificationsKey (storage w)) as [[records| |]|] eqn:Hkey; simpl;
    rewrite ?Hkey; split; try reflexivity; eexists; simpl; reflexivity.
Qed.

(** One event: the stored appointments grow by at most one record, made
    by the screen for this user; everything else stored stays or grows. *)
Lemma react_extends (user : option User.t) (ev : Event) (s : State) (w : Device) :
  offered s ->
  exists (s' : State) (w' : Device) (added : list Appointment.t)
         (more : list Notification.t),
    react user s ev w = (Returned s', w') /\
    offered s' /\
    (loading s = false -> loading s' = false) /\
    appointmentsOf w' = (appointmentsOf w ++ added)%list /\
    Forall (booked_by user) added /\
    length added <= presses [ev] /\
    notificationsOf w' = (notificationsOf w ++ more)%list /\
    registeredUsersKey (storage w') = registeredUsersKey (storage w).
Proof.
  intros Hs.
  assert (Hstay : forall s', offered s' -> (loading s = false -> loading s' = false) ->
            exists (s'' : State) (w' : Device) (added : list Appointment.t)
                   (more : list Notification.t),
              (Returned s', w) = (Returned s'', w') /\
              offered s'' /\
              (loading s = false -> loading s'' = false) /\
              appointmentsOf w' = (appointmentsOf w ++ added)%list /\
              Forall (booked_by user) added /\
              length added <= presses [ev] /\
              notificationsOf w' = (notificationsOf w ++ more)%list /\
              registeredUsersKey (storage w') = registeredUsersKey (storage w)).
  { intros s' Hs' Hl. exists s', w, [], []. rewrite !app_nil_r.
    split; [reflexivity|]. split; [exact Hs'|]. split; [exact Hl|].
    split; [reflexivity|]. split; [constructor|].
    split; [simpl; lia|]. split; reflexivity. }
  destruct ev as [text|position|position|]; simpl.
  - apply Hstay; [|auto]. split; apply Hs.
  - destruct (TimeSlotList.generateTimeSlots !! position) as [time|] eqn:Hpos;
      [|apply Hstay; auto].
    apply Hstay; [|auto]. split; [|apply Hs]. right. exact (lookup_In _ _ _ Hpos).
  - destruct (availableDoctors !! position) as [chosen|] eqn:Hpos;
      [|apply Hstay; auto].
    apply Hstay; [|auto]. split; [apply Hs|].
    intros d [= <-]. exact (lookup_In _ _ _ Hpos).
  - rewrite handleCreateAppointment_run.
    destruct (selectedDoctor s) as [selected|] eqn:Hdoc;
      [|apply Hstay; [apply settled_offered, Hs | reflexivity]].
    destruct (String.eqb (date s) "" || String.eqb (selectedTime s) "") eqn:Hguard;
      [apply Hstay; [apply settled_offered, Hs | reflexivity]|].
    apply orb_false_iff in Hguard as [Hdate Htime].
    apply String.eqb_neq in Hdate, Htime.
    assert (Hcreated :
              exists (s'' : State) (w' : Device) (added : list Appointment.t)
                     (more : list Notification.t),
                (Returned (setLoading false (setError "" (setLoading true s))),
                 creation_effect user s selected w) = (Returned s'', w') /\
                offered s'' /\
                (loading s = false -> loading s'' = false) /\
                appointmentsOf w' = (appointmentsOf w ++ added)%list /\
                Forall (booked_by user) added /\
                length added <= presses [PressAgendar] /\
                notificationsOf w' = (notificationsOf w ++ more)%list /\
                registeredUsersKey (storage w') = registeredUsersKey (storage w)).
    { destruct (creation_effect_rest user s selected w) as [Husers [more Hmore]].
      eexists _, _, [newAppointment user s selected (ticks w (reads w))], more.
      split; [reflexivity|]. split; [split; apply Hs|]. split; [reflexivity|].
      split; [unfold appointmentsOf at 1; rewrite creation_effect_appointments;
              reflexivity|].
      split; [|split; [unfold presses; simpl; lia | split; assumption]].
      constructor; [|constructor].
      unfold booked_by, on_grid. simpl.
      destruct Hs as [[Hempty|Hgrid] Hlisted]; [contradiction|].
      repeat split; auto. exists selected. repeat split. apply Hlisted, Hdoc. }
    destruct (appointmentsKey (storage w)) as [[records| |]|] eqn:Hkey;
      [exact Hcreated | exact Hcreated | | exact Hcreated].
    apply Hstay; [apply settled_offered, Hs | reflexivity].
Qed.

Lemma presses_cons (ev : Event) (events : list Event) :
  presses (ev :: events) = presses [ev] + presses events.
Proof. unfold presses. simpl. destruct ev; reflexivity. Qed.

(** Any run of events: the stored appointments grow by at most one record
    per press of "Agendar", each made by the screen for this user. *)
Lemma session_extends (user : option User.t) (events : list Event)
    (s : State) (w : Device) :
  offered s -> loading s = false ->
  exists (s' : State) (w' : Device) (added : list Appointment.t)
         (more : list Notification.t),
    session user events s w = (Returned s', w') /\
    loading s' = false /\
    appointmentsOf w' = (appointmentsOf w ++ added)%list /\
    Forall (booked_by user) added /\
    length added <= presses events /\
    notificationsOf w' = (notificationsOf w ++ more)%list /\
    registeredUsersKey (storage w') = registeredUsersKey (storage w).
Proof.
  revert s w. induction events as [|ev rest IH]; intros s w Hs Hl.
  - exists s, w, [], []. rewrite !app_nil_r.
    split; [reflexivity|]. split; [exact Hl|]. split; [reflexivity|].
    split; [constructor|]. split; [simpl; lia|]. split; reflexivity.
  - destruct (react_extends user ev s w Hs)
      as [s1 [w1 [added1 [more1 [Hrun [Hs1 [Hl1 [Ha1 [Hb1 [Hn1 [Hm1 Hu1]]]]]]]]]]].
    destruct (IH s1 w1 Hs1 (Hl1 Hl))
      as [s2 [w2 [added2 [more2 [Hrest [Hl2 [Ha2 [Hb2 [Hn2 [Hm2 Hu2]]]]]]]]]].
    exists s2, w2, (added1 ++ added2)%list, (more1 ++ more2)%list.
    split; [simpl; unfold mbind, Js_bind; rewrite Hrun; exact Hrest|].
    split; [exact Hl2|].
    split; [rewrite Ha2, Ha1, app_assoc; reflexivity|].
    split; [apply Forall_app; split; assumption|].
    split; [rewrite length_app, presses_cons; lia|].
    split; [rewrite Hm2, Hm1, app_assoc; reflexivity | congruence].
Qed.

(** Typing a date, pressing the card at [position], the first doctor and
    "Agendar" on the initial screen books at the time of that card. *)
Lemma session_books (user : option User.t) (dateText time : string)
    (position : nat) (w : Device) :
  TimeSlotList.generateTimeSlots !! position = Some time ->
  dateText <> "" ->
  readable (appointmentsKey (storage w)) ->
  session user
    [ChangeDateText dateText; PressTimeCard position; PressDoctorItem 0; PressAgendar]
    initial w
  = (Returned (mkState dateText time (Some drJoao) false ""),
     creation_effect user (mkState dateText time (Some drJoao) false "") drJoao w).
Proof.
  intros Hpos Hdate Hread.
  assert (Htime : time <> "").
  { apply lookup_In in Hpos. rewrite generateTimeSlots_list in Hpos. simpl in Hpos.
    intuition (subst; discriminate). }
  cbn [session react]. unfold mbind, Js_bind, mret, Js_ret. rewrite Hpos.
  change (availableDoctors !! 0) with (Some drJoao).
  unfold initial, setDate, setSelectedTime, setSelectedDoctor. cbn [date selectedTime
    selectedDoctor loading error].
  rewrite (handleCreateAppointment_appends user
             (mkState dateText time (Some drJoao) false "") drJoao w
             eq_refl Hdate Htime Hread).
  reflexivity.
Qed.

(** C6.  Both copies of [generateTimeSlots] produce the eighteen labels
    HH:00 and HH:30 for the hours 9 to 17 and nothing else: "09:00" and
    "17:30" are cards of the list, "08:30" and "18:00" are not.  The time
    of a booking is set by pressing a card and in no other way, so a
    booking at "08:30" or "18:00" cannot be made: whatever the user does
    on the screen, on any device, the run returns and every appointment
    it stores has a time of the grid, none "08:30" or "18:00".  Pressing
    the first or the last card, with a date typed and a doctor selected,
    books at "09:00" or "17:30": the pending appointment is appended and
    no error is shown. *)
Theorem slot_grid_is_nine_to_half_past_five
    (user : option User.t) (events : list Event) (w : Device) (dateText : string) :
  TimeSlotList.generateTimeSlots =
    [ "09:00"; "09:30"; "10:00"; "10:30"; "11:00"; "11:30"; "12:00"; "12:30";
      "13:00"; "13:30"; "14:00"; "14:30"; "15:00"; "15:30"; "16:00"; "16:30";
      "17:00"; "17:30" ] /\
  AppointmentForm.generateTimeSlots = TimeSlotList.generateTimeSlots /\
  (forall t : string,
     In t TimeSlotList.generateTimeSlots <->
     exists hour : nat, 9 <= hour <= 17 /\ (t = slot hour ":00" \/ t = slot hour ":30")) /\
  (~ In "08:30" TimeSlotList.generateTimeSlots /\
   ~ In "18:00" TimeSlotList.generateTimeSlots /\
   TimeSlotList.generateTimeSlots !! 0 = Some "09:00" /\
   TimeSlotList.generateTimeSlots !! 17 = Some "17:30") /\
  (exists (s' : State) (w' : Device) (added : list Appointment.t),
     session user events initial w = (Returned s', w') /\
     appointmentsOf w' = (appointmentsOf w ++ added)%list /\
     Forall (fun a => on_grid a /\ Appointment.time a <> "08:30"
                      /\ Appointment.time a <> "18:00") added) /\
  (dateText <> "" ->
   readable (appointmentsKey (storage w)) ->
   forall (position : nat) (time : string),
     (position = 0 /\ time = "09:00") \/ (position = 17 /\ time = "17:30") ->
     exists (w' : Device) (a : Appointment.t),
       session user
         [ChangeDateText dateText; PressTimeCard position; PressDoctorItem 0; PressAgendar]
         initial w
       = (Returned (mkState dateText time (Some drJoao) false ""), w') /\
       appointmentsOf w' = (appointmentsOf w ++ [a])%list /\
       Appointment.time a = time /\ Appointment.date a = dateText /\
       Appointment.status a = pending).
Proof.
  split; [exact generateTimeSlots_list|].
  split; [reflexivity|].
  split; [exact generateTimeSlots_hours|].
  split; [split; [exact not_on_grid_0830|]; split; [exact not_on_grid_1800|];
          split; reflexivity|].
  split.
  - destruct (session_extends user events initial w initial_offered eq_refl)
      as [s' [w' [added [more [Hrun [_ [Happ [Hadded _]]]]]]]].
    exists s', w', added. split; [exact Hrun|]. split; [exact Happ|].
    eapply Forall_impl; [exact Hadded|]. intros a [_ [Hgrid _]].
    split; [exact Hgrid|].
    split; intros Htime; unfold on_grid in Hgrid; rewrite Htime in Hgrid;
      [exact (not_on_grid_0830 Hgrid) | exact (not_on_grid_1800 Hgrid)].
  - intros Hdate Hread position time Hcard.
    assert (Hpos : TimeSlotList.generateTimeSlots !! position = Some time)
      by (destruct Hcard as [[-> ->]|[-> ->]]; reflexivity).
    eexists _, _. split; [exact (session_books user dateText time position w
                                   Hpos Hdate Hread)|].
    split; [unfold appointmentsOf at 1; rewrite creation_effect_appointments;
            reflexivity|].
    repeat split.
Qed.

Lemma slot_grid_is_nine_to_half_past_five_witness :
  exists (w' : Device) (a : Appointment.t),
    session (Some ana)
      [ChangeDateText "15/01/2026"; PressTimeCard 17; PressDoctorItem 0; PressAgendar]
      initial emptyDevice
    = (Returned (mkState "15/01/2026" "17:30" (Some drJoao) false ""), w') /\
    appointmentsOf w' = (appointmentsOf emptyDevice ++ [a])%list /\
    Appointment.time a = "17:30" /\ Appointment.date a = "15/01/2026" /\
    Appointment.status a = pending.
Proof.
  destruct (slot_grid_is_nine_to_half_past_five (Some ana) [] emptyDevice "15/01/2026")
    as [_ [_ [_ [_ [_ Haccept]]]]].
  apply Haccept; [discriminate | discriminate | right; split; reflexivity].
Defined.

Example session_books_at_nine :
  map Appointment.time
    (appointmentsOf
       (after (session (Some ana)
                 [ChangeDateText "15/01/2026"; PressTimeCard 0; PressDoctorItem 0;
                  PressAgendar] initial) emptyDevice)) = ["09:00"].
Proof. reflexivity. Qed.

(** *** Ids drawn from the clock *)

(** While the clock gives a reading no stored id was made from, the ids
    stay distinct. *)
Lemma create_keeps_ids_distinct_when_fresh (user : option User.t) (s : State)
    (selected : Doctor.t) (w : Device) :
  selectedDoctor s = Some selected ->
  date s <> "" -> selectedTime s <> "" ->
  readable (appointmentsKey (storage w)) ->
  NoDup (map Appointment.id (appointmentsOf w)) ->
  ~ In (pretty (ticks w (reads w))) (map Appointment.id (appointmentsOf w)) ->
  NoDup (map Appointment.id (appointmentsOf (after (handleCreateAppointment user s) w))).
Proof.
  intros Hdoc Hdate Htime Hread Hnodup Hfresh. unfold after.
  rewrite (handleCreateAppointment_appends user s selected w Hdoc Hdate Htime Hread).
  simpl. unfold appointmentsOf at 1. rewrite creation_effect_appointments. simpl.
  rewrite map_app. simpl. apply NoDup_app. split; [exact Hnodup|].
  split; [|apply NoDup_singleton].
  intros x Hx Hin. apply list_elem_of_In in Hx.
  apply list_elem_of_singleton in Hin. subst x. exact (Hfresh Hx).
Qed.

(** C1 (the code departs from the claim).  Two bookings made one after
    the other, starting from an empty store, while the clock reads the
    same millisecond: both records are stored, in order and pending, but
    under one and the same id, so the ids of the collection are not
    distinct. *)
Theorem creates_in_one_millisecond_share_an_id :
  appointmentsOf frozenClockDevice = [] /\
  map Appointment.id (appointmentsOf afterFirstCreate) = ["1700000000000"] /\
  map Appointment.id (appointmentsOf afterSecondCreate)
    = ["1700000000000"; "1700000000000"] /\
  map Appointment.date (appointmentsOf afterSecondCreate) = ["15/01/2026"; "16/01/2026"] /\
  map Appointment.status (appointmentsOf afterSecondCreate) = [pending; pending] /\
  ~ NoDup (map Appointment.id (appointmentsOf afterSecondCreate)).
Proof.
  assert (Hids : map Appointment.id (appointmentsOf afterSecondCreate)
                 = ["1700000000000"; "1700000000000"]) by reflexivity.
  repeat split; try reflexivity.
  rewrite Hids. intros Hnodup. apply NoDup_cons in Hnodup as [Hnotin _].
  apply Hnotin. constructor.
Qed.

(** *** Confirming an appointment *)

Import AppointmentRepository.

Lemma find_appended_fresh (id : string) (records : list Appointment.t)
    (a : Appointment.t) :
  (forall b, In b records -> Appointment.id b <> id) ->
  Appointment.id a = id ->
  List.find (fun b => String.eqb (Appointment.id b) id) (records ++ [a]) = Some a.
Proof.
  intros Hfresh Hid. induction records as [|b rest IH]; simpl.
  - rewrite Hid, String.eqb_refl. reflexivity.
  - destruct (String.eqb_spec (Appointment.id b) id) as [Heq|_].
    + exfalso. apply (Hfresh b); [left; reflexivity | exact Heq].
    + apply IH. intros c Hc. apply Hfresh. right. exact Hc.
Qed.

(** What [setStatus id confirmed] does when the record is found and the
    stored notifications are readable. *)
Lemma setStatus_confirmed_run (id : string) (reason : option string) (w : Device)
    (records : list Appointment.t) (located : Appointment.t) :
  appointmentsKey (storage w) = Some (Json records) ->
  List.find (fun a => String.eqb (Appointment.id a) id) records = Some located ->
  readable (notificationsKey (storage w)) ->
  exists n : Notification.t,
    result (setStatus id confirmed reason) w
      = Returned (Appointment.with_status confirmed located) /\
    notificationsOf (after (setStatus id confirmed reason) w)
      = (notificationsOf w ++ [n])%list /\
    Notification.userId n = Appointment.patientId located /\
    Notification.type n = appointment_confirmed /\
    Notification.read n = false /\
    Notification.appointmentId n = Some (Appointment.id located).
Proof.
  intros Hkey Hfind Hread.
  unfold result, after, setStatus, load, notifyAppointmentConfirmed. js_unfold.
  rewrite Hkey. simpl. rewrite Hfind. rewrite createNotification_run. simpl.
  eexists. split; [reflexivity|]. split.
  - unfold notificationsOf. rewrite createNotification_effect_appends by exact Hread.
    reflexivity.
  - repeat split.
Qed.


(** While the clock gives a reading no stored appointment id was made
    from, and the stored notifications can be read, confirming a new
    appointment finds it and appends exactly one notification, addressed
    to its patient, of type [appointment_confirmed] and unread. *)
Lemma confirming_notifies_when_the_id_is_fresh
    (user : option User.t) (s : State) (selected : Doctor.t)
    (reason : option string) (w : Device) :
  selectedDoctor s = Some selected ->
  date s <> "" ->
  selectedTime s <> "" ->
  readable (appointmentsKey (storage w)) ->
  readable (notificationsKey (storage w)) ->
  (forall a, In a (appointmentsOf w) -> Appointment.id a <> pretty (ticks w (reads w))) ->
  exists (created : Appointment.t) (n : Notification.t),
    appointmentsOf (after (handleCreateAppointment user s) w)
      = (appointmentsOf w ++ [created])%list /\
    Appointment.doctorId created = Doctor.id selected /\
    Appointment.patientId created = idOf user /\
    Appointment.status created = pending /\
    result (setStatus (Appointment.id created) confirmed reason)
           (after (handleCreateAppointment user s) w)
      = Returned (Appointment.with_status confirmed created) /\
    notificationsOf
      (after (setStatus (Appointment.id created) confirmed reason)
             (after (handleCreateAppointment user s) w))
      = (notificationsOf (after (handleCreateAppointment user s) w) ++ [n])%list /\
    Notification.userId n = idOf user /\
    Notification.type n = appointment_confirmed /\
    Notification.read n = false.
Proof.
  intros Hdoc Hdate Htime Hra Hrn Hfresh.
  set (created := newAppointment user s selected (ticks w (reads w))).
  assert (Hafter : after (handleCreateAppointment user s) w
                   = creation_effect user s selected w).
  { unfold after.
    rewrite (handleCreateAppointment_appends user s selected w Hdoc Hdate Htime Hra).
    reflexivity. }
  rewrite Hafter.
  destruct (setStatus_confirmed_run (Appointment.id created) reason
              (creation_effect user s selected w)
              (appointmentsOf w ++ [created]) created)
    as [n [Hres [Hnotes [Huser [Htype [Hunread _]]]]]].
  - apply creation_effect_appointments.
  - apply find_appended_fresh; [exact Hfresh | reflexivity].
  - apply creation_effect_notifications_readable. exact Hrn.
  - exists created, n. repeat split; auto.
    unfold appointmentsOf at 1. rewrite creation_effect_appointments. reflexivity.
Qed.

Example confirmation_on_the_sample_device :
  map (fun n => (Notification.userId n, Notification.type n, Notification.read n))
    (notificationsOf
       (after (setStatus "1700000000000" confirmed None)
              (after (handleCreateAppointment (Some ana) (filled "15/01/2026" "09:00"))
                     emptyDevice)))
  = [ ("1", general, false); ("p1", appointment_confirmed, false) ].
Proof. reflexivity. Qed.

(** *** The date check of the earlier form *)

Import AppointmentForm.

Example matchDate_accepts_masked : matchDate "15/01/2026" = Some (15, 1, 2026)%Z.
Proof. reflexivity. Qed.

Example matchDate_rejects_digits_only : matchDate "31122025" = None.
Proof. reflexivity. Qed.

(** [validateDate] consumes three clock readings when the text has the
    DD/MM/YYYY shape and none otherwise; it answers [true] exactly when
    the shape is right and the date lies between the first reading and
    three months after the second. *)
Lemma validateDate_run (localTime : Z -> Z -> Z -> Z) (getMonth : Z -> Z)
    (setMonth : Z -> Z -> Z) (inputDate : string) (w : Device) :
  validateDate localTime getMonth setMonth inputDate w =
  match matchDate inputDate with
  | None => (Returned false, w)
  | Some (day, month, year) =>
      (Returned
         ((ticks w (reads w) <=? localTime year (month - 1) day)%Z &&
          (localTime year (month - 1) day <=?
             setMonth (ticks w (S (reads w))) (getMonth (ticks w (S (S (reads w)))) + 3))%Z),
       mkDevice (storage w) (outputs w) (ticks w) (S (S (S (reads w)))))
  end.
Proof.
  unfold validateDate. destruct (matchDate inputDate) as [[[day month] year]|];
    reflexivity.
Qed.

(** The form hands nothing to [onSubmit] when a field is missing or the
    date check fails: the storage is then what it was, whatever
    [onSubmit] would have done. *)
Lemma form_submits_only_checked (localTime : Z -> Z -> Z -> Z) (getMonth : Z -> Z)
    (setMonth : Z -> Z -> Z) (onSubmit : Submission -> Js unit)
    (s : AppointmentForm.State) (w : Device) :
  AppointmentForm.selectedDoctor s = "" \/ AppointmentForm.selectedTime s = "" \/
  description s = "" \/
  result (validateDate localTime getMonth setMonth (dateInput s)) w = Returned false ->
  result (AppointmentForm.handleSubmit localTime getMonth setMonth onSubmit s) w
    = Returned tt /\
  storage (after (AppointmentForm.handleSubmit localTime getMonth setMonth onSubmit s) w)
    = storage w.
Proof.
  intros Hfails. unfold result, after, AppointmentForm.handleSubmit in *.
  destruct (String.eqb_spec (AppointmentForm.selectedDoctor s) "") as [_|Hdoc];
    [split; reflexivity|].
  destruct (String.eqb_spec (AppointmentForm.selectedTime s) "") as [_|Htime];
    [split; reflexivity|].
  destruct (String.eqb_spec (description s) "") as [_|Hdesc];
    [split; reflexivity|].
  destruct Hfails as [Hf|[Hf|[Hf|Hf]]]; try contradiction.
  simpl. unfold mbind, Js_bind. rewrite validateDate_run in *.
  destruct (matchDate (dateInput s)) as [[[day month] year]|]; simpl in *.
  - injection Hf as Hf. rewrite Hf. simpl. split; reflexivity.
  - split; reflexivity.
Qed.

Lemma form_rejects_unmatched_date (localTime : Z -> Z -> Z -> Z)
    (getMonth : Z -> Z) (setMonth : Z -> Z -> Z) (inputDate : string) (w : Device) :
  matchDate inputDate = None ->
  result (validateDate localTime getMonth setMonth inputDate) w = Returned false.
Proof.
  intros Hmatch. unfold result. rewrite validateDate_run, Hmatch. reflexivity.
Qed.

Example screen_stores_unmatched_date :
  map Appointment.date
    (appointmentsOf (after (CreateAppointmentScreen.handleCreateAppointment (Some ana)
                              (filled "31122025" "09:00")) emptyDevice))
  = ["31122025"].
Proof. reflexivity. Qed.

(** *** What the two booking paths check *)

Import CreateAppointmentScreen.

(** The guard of [handleCreateAppointment]: with the date, the time or the
    doctor missing it stops with the message "Por favor, preencha a data
    e selecione um médico e horário" and leaves the device as it was; it
    changes the stored appointments only when all three are present, and
    then by appending the one new pending record. *)
Lemma create_requires_the_three_fields (user : option User.t) (s : State) (w : Device) :
  (date s = "" \/ selectedTime s = "" \/ selectedDoctor s = None ->
   handleCreateAppointment user s w = (Returned (settled missingFields s), w)) /\
  (appointmentsKey (storage (after (handleCreateAppointment user s) w))
     <> appointmentsKey (storage w) ->
   date s <> "" /\ selectedTime s <> "" /\
   exists selected : Doctor.t,
     selectedDoctor s = Some selected /\
     appointmentsOf (after (handleCreateAppointment user s) w) =
       (appointmentsOf w ++ [newAppointment user s selected (ticks w (reads w))])%list).
Proof.
  split.
  - intros Hmissing. rewrite handleCreateAppointment_run.
    destruct (selectedDoctor s) as [selected|]; [|reflexivity].
    destruct Hmissing as [Hd|[Ht|Hdoc]]; [| |discriminate].
    + rewrite Hd. reflexivity.
    + rewrite Ht. rewrite orb_true_r. reflexivity.
  - unfold after. rewrite handleCreateAppointment_run.
    destruct (selectedDoctor s) as [selected|]; [|simpl; congruence].
    destruct (String.eqb (date s) "") eqn:Hd; [simpl; congruence|].
    destruct (String.eqb (selectedTime s) "") eqn:Ht; [simpl; congruence|].
    apply String.eqb_neq in Hd, Ht. simpl.
    destruct (appointmentsKey (storage w)) as [[records| |]|] eqn:Hkey; simpl;
      intros Hchanged; try congruence;
      (repeat split; auto; exists selected; split; [reflexivity|];
       unfold appointmentsOf at 1; rewrite creation_effect_appointments; reflexivity).
Qed.

(** C2 (the code departs from the claim).  On the booking screen the user
    types 31122025 in the date field, presses the 09:00 card and the
    first doctor, and presses "Agendar".  The text has no slash: it does
    not have the shape DD/MM/YYYY, and [validateDate] answers [false] for
    it whatever the calendar and the clock say.  The screen does not call
    [validateDate]: the booking ends without an error message, the
    appointment is stored with the date "31122025", the success alert is
    shown and the screen is left.  The same happens with 3112.  The
    earlier form, after the same four keys 3112, shows "31/12" in its
    date field, and with doctor, time and description present its
    [handleSubmit] alerts that the date is invalid and hands nothing to
    [onSubmit]. *)
Theorem booking_screen_stores_an_unparseable_date :
  AppointmentForm.matchDate "31122025" = None /\
  (forall (localTime : Z -> Z -> Z -> Z) (getMonth : Z -> Z) (setMonth : Z -> Z -> Z)
          (w : Device),
     AppointmentForm.validateDate localTime getMonth setMonth "31122025" w
       = (Returned false, w)) /\
  (result (session (Some ana) (bookingEvents "31122025") initial) emptyDevice
     = Returned (mkState "31122025" "09:00" (Some drJoao) false "") /\
   appointmentsOf (after (session (Some ana) (bookingEvents "31122025") initial)
                     emptyDevice)
     = [ Appointment.mk "1700000000000" "p1" "Ana Lima" "1" "Dr. João Silva"
           "31122025" "09:00" "Cardiologia" pending ] /\
   outputs (after (session (Some ana) (bookingEvents "31122025") initial) emptyDevice)
     = [ Alert "Consulta agendada com sucesso!"; GoBack ]) /\
  (result (session (Some ana) (bookingEvents "3112") initial) emptyDevice
     = Returned (mkState "3112" "09:00" (Some drJoao) false "") /\
   appointmentsOf (after (session (Some ana) (bookingEvents "3112") initial) emptyDevice)
     = [ Appointment.mk "1700000000000" "p1" "Ana Lima" "1" "Dr. João Silva"
           "3112" "09:00" "Cardiologia" pending ]) /\
  AppointmentForm.dateInput
    (DateMask.handleDateChange "3112" (AppointmentForm.mkState "1" "" "09:00" "Retorno"))
    = "31/12" /\
  (forall (localTime : Z -> Z -> Z -> Z) (getMonth : Z -> Z) (setMonth : Z -> Z -> Z)
          (onSubmit : AppointmentForm.Submission -> Js unit) (w : Device),
     AppointmentForm.handleSubmit localTime getMonth setMonth onSubmit
       (DateMask.handleDateChange "3112" (AppointmentForm.mkState "1" "" "09:00" "Retorno"))
       w
     = (Returned tt,
        mkDevice (storage w)
          (outputs w ++ [Alert "Por favor, insira uma data válida (DD/MM/AAAA)"])
          (ticks w) (reads w))).
Proof.
  split; [reflexivity|]. split; [intros; reflexivity|].
  split; [repeat split; reflexivity|].
  split; [split; reflexivity|].
  split; [reflexivity|]. intros. reflexivity.
Qed.

(** * Further properties of the code *)

(** *** Reading and counting notifications *)

Lemma getNotifications_run (userId : string) (w : Device) :
  notificationService.getNotifications userId w =
  match notificationsKey (storage w) with
  | Some Garbled =>
      (Returned [],
       mkDevice (storage w)
         (outputs w ++ [ConsoleError "Erro ao carregar notificações:"])
         (ticks w) (reads w))
  | stored =>
      (Returned (JS.sort notificationService.newestFirst
                   (List.filter (fun n => String.eqb (Notification.userId n) userId)
                      (collection stored))), w)
  end.
Proof.
  unfold notificationService.getNotifications. js_unfold.
  destruct (notificationsKey (storage w)) as [[records| |]|]; reflexivity.
Qed.

Lemma getNotifications_storage (userId : string) (w : Device) :
  storage (after (notificationService.getNotifications userId) w) = storage w.
Proof.
  unfold after. rewrite getNotifications_run.
  destruct (notificationsKey (storage w)) as [[records| |]|]; reflexivity.
Qed.

Lemma getNotifications_result (userId : string) (w : Device) :
  result (notificationService.getNotifications userId) w =
  Returned (JS.sort notificationService.newestFirst
              (List.filter (fun n => String.eqb (Notification.userId n) userId)
                 (notificationsOf w))).
Proof.
  unfold result, notificationsOf. rewrite getNotifications_run.
  destruct (notificationsKey (storage w)) as [[records| |]|]; reflexivity.
Qed.

Lemma filter_length_Permutation {A : Type} (p : A -> bool) (l l' : list A) :
  Permutation l l' -> length (List.filter p l) = length (List.filter p l').
Proof.
  induction 1 as [|x l l' _ IH|x y l|l l' l'' _ IH1 _ IH2]; simpl.
  - reflexivity.
  - destruct (p x); simpl; congruence.
  - destruct (p x), (p y); reflexivity.
  - congruence.
Qed.

Lemma filter_filter_and {A : Type} (p q : A -> bool) (l : list A) :
  List.filter p (List.filter q l) = List.filter (fun x => q x && p x) l.
Proof.
  induction l as [|x l IH]; simpl; [reflexivity|].
  destruct (q x); simpl; [destruct (p x)|]; rewrite IH; reflexivity.
Qed.

Lemma unread_of_listed (userId : string) (records : list Notification.t) :
  length (List.filter (fun n => negb (Notification.read n))
            (JS.sort notificationService.newestFirst
               (List.filter (fun n => String.eqb (Notification.userId n) userId) records)))
  = length (unreadOf userId records).
Proof.
  unfold unreadOf. rewrite <- filter_filter_and.
  apply filter_length_Permutation, (sort_Permutation Notification.createdAt).
Qed.

Lemma getUnreadCount_run (userId : string) (w : Device) :
  result (notificationService.getUnreadCount userId) w
    = Returned (length (unreadOf userId (notificationsOf w))) /\
  storage (after (notificationService.getUnreadCount userId) w) = storage w.
Proof.
  unfold result, after, notificationService.getUnreadCount, notificationsOf.
  unfold try_catch, mbind, Js_bind. rewrite getNotifications_run.
  destruct (notificationsKey (storage w)) as [[records| |]|]; simpl;
    rewrite ?unread_of_listed; split; reflexivity.
Qed.

(** X1.  [getUnreadCount] always returns and writes nothing; its answer
    is the number of stored notifications of that user whose [read] flag
    is false, whatever their order, and 0 when the key is absent or its
    text unparseable. *)
Theorem getUnreadCount_counts_stored_unread (userId : string) (w : Device) :
  result (notificationService.getUnreadCount userId) w
    = Returned (length (unreadOf userId (notificationsOf w))) /\
  storage (after (notificationService.getUnreadCount userId) w) = storage w /\
  (~ readable (notificationsKey (storage w)) \/ notificationsKey (storage w) = None ->
   result (notificationService.getUnreadCount userId) w = Returned 0).
Proof.
  destruct (getUnreadCount_run userId w) as [Hres Hsto].
  split; [exact Hres|]. split; [exact Hsto|].
  intros Hkey. rewrite Hres. unfold notificationsOf, readable in *.
  destruct (notificationsKey (storage w)) as [[records| |]|]; try reflexivity.
  destruct Hkey as [Hkey|Hkey]; [exfalso; apply Hkey|]; discriminate.
Qed.

Lemma getUnreadCount_counts_stored_unread_witness :
  result (notificationService.getUnreadCount "p1") sampleDevice = Returned 2 /\
  result (notificationService.getUnreadCount "p1") garbledNotificationsDevice = Returned 0.
Proof.
  split.
  - apply (getUnreadCount_counts_stored_unread "p1" sampleDevice).
  - apply (getUnreadCount_counts_stored_unread "p1" garbledNotificationsDevice).
    left. intros Hreadable. apply Hreadable. reflexivity.
Defined.

(** *** Marking and the unread count *)

Lemma mark_where_userId (selects : Notification.t -> bool) (n : Notification.t) :
  Notification.userId (mark_where selects n) = Notification.userId n.
Proof. unfold mark_where. destruct (selects n); reflexivity. Qed.

Lemma mark_where_read (selects : Notification.t -> bool) (n : Notification.t) :
  Notification.read (mark_where selects n) = selects n || Notification.read n.
Proof. unfold mark_where. destruct (selects n); reflexivity. Qed.

Lemma unread_after_marking (selects : Notification.t -> bool) (userId : string)
    (records : list Notification.t) :
  length (unreadOf userId (map (mark_where selects) records))
    + length (List.filter selects (unreadOf userId records))
  = length (unreadOf userId records).
Proof.
  induction records as [|n rest IH]; [reflexivity|].
  unfold unreadOf in *. cbn [map List.filter].
  rewrite mark_where_userId, mark_where_read.
  destruct (String.eqb (Notification.userId n) userId), (Notification.read n),
    (selects n) eqn:Hsel; cbn [andb orb negb List.filter length];
    rewrite ?Hsel; cbn [length]; lia.
Qed.

Lemma unread_of_other_user (userId other : string) (records : list Notification.t) :
  other <> userId ->
  List.filter (fun n => String.eqb (Notification.userId n) userId)
    (unreadOf other records) = [].
Proof.
  intros Hother. unfold unreadOf. rewrite filter_filter_and.
  induction records as [|n rest IH]; [reflexivity|]. simpl.
  destruct (String.eqb_spec (Notification.userId n) other) as [Ho|_];
    [|exact IH].
  destruct (String.eqb_spec (Notification.userId n) userId) as [Hu|_];
    [congruence|].
  rewrite andb_false_r. exact IH.
Qed.

(** X2.  After [markAllAsRead(userId)] the unread count of that user is
    0, whatever was stored, and the unread count of every other user is
    what it was. *)
Theorem markAllAsRead_clears_the_unread_count (userId other : string) (w : Device) :
  result (notificationService.getUnreadCount userId)
         (after (notificationService.markAllAsRead userId) w) = Returned 0 /\
  (other <> userId ->
   result (notificationService.getUnreadCount other)
          (after (notificationService.markAllAsRead userId) w)
   = result (notificationService.getUnreadCount other) w).
Proof.
  unfold after. rewrite markAllAsRead_run. simpl.
  set (selects := fun n => String.eqb (Notification.userId n) userId).
  split.
  - rewrite (proj1 (getUnreadCount_run _ _)), marking_effect_notifications.
    f_equal.
    pose proof (unread_after_marking selects userId (notificationsOf w)) as Hcount.
    assert (Hall : List.filter selects (unreadOf userId (notificationsOf w))
                   = unreadOf userId (notificationsOf w)).
    { unfold unreadOf. rewrite filter_filter_and. apply filter_ext.
      intros n. unfold selects.
      destruct (String.eqb (Notification.userId n) userId),
        (Notification.read n); reflexivity. }
    rewrite Hall in Hcount. lia.
  - intros Hother.
    rewrite !(proj1 (getUnreadCount_run _ _)), marking_effect_notifications.
    f_equal.
    pose proof (unread_after_marking selects other (notificationsOf w)) as Hcount.
    rewrite (unread_of_other_user userId other _ Hother) in Hcount.
    simpl in Hcount. lia.
Qed.

Lemma markAllAsRead_clears_the_unread_count_witness :
  result (notificationService.getUnreadCount "p1")
         (after (notificationService.markAllAsRead "p1") sampleDevice) = Returned 0 /\
  result (notificationService.getUnreadCount "p2")
         (after (notificationService.markAllAsRead "p1") sampleDevice)
  = result (notificationService.getUnreadCount "p2") sampleDevice.
Proof.
  split.
  - apply (markAllAsRead_clears_the_unread_count "p1" "p2" sampleDevice).
  - apply (markAllAsRead_clears_the_unread_count "p1" "p2" sampleDevice).
    discriminate.
Defined.

(** X3.  [markAsRead(id)] lowers the unread count of a user by exactly the
    number of that user's unread notifications carrying the id, so it
    never raises any count; ids are drawn from the clock and several
    records may share one. *)
Theorem markAsRead_lowers_the_unread_count (notificationId userId : string) (w : Device) :
  exists before afterwards : nat,
    result (notificationService.getUnreadCount userId) w = Returned before /\
    result (notificationService.getUnreadCount userId)
           (after (notificationService.markAsRead notificationId) w)
      = Returned afterwards /\
    before = afterwards
             + length (List.filter
                         (fun n => String.eqb (Notification.id n) notificationId)
                         (unreadOf userId (notificationsOf w))).
Proof.
  unfold after. rewrite markAsRead_run. simpl.
  do 2 eexists. split; [apply getUnreadCount_run|].
  split; [apply getUnreadCount_run|].
  rewrite marking_effect_notifications.
  symmetry. apply (unread_after_marking
                     (fun n => String.eqb (Notification.id n) notificationId)).
Qed.

(** *** Marking keeps the listing *)

Lemma insert_map {A : Type} (cmp : A -> A -> Z) (f : A -> A) (x : A) (l : list A) :
  (forall a b, cmp (f a) (f b) = cmp a b) ->
  JS.insert cmp (f x) (map f l) = map f (JS.insert cmp x l).
Proof.
  intros Hcmp. induction l as [|y l IH]; simpl; [reflexivity|].
  rewrite Hcmp. destruct (cmp x y <=? 0)%Z; simpl; [reflexivity|].
  rewrite IH. reflexivity.
Qed.

Lemma sort_map {A : Type} (cmp : A -> A -> Z) (f : A -> A) (l : list A) :
  (forall a b, cmp (f a) (f b) = cmp a b) ->
  JS.sort cmp (map f l) = map f (JS.sort cmp l).
Proof.
  intros Hcmp. induction l as [|x l IH]; simpl; [reflexivity|].
  rewrite IH. apply insert_map, Hcmp.
Qed.

Lemma filter_map_stable {A : Type} (p : A -> bool) (f : A -> A) (l : list A) :
  (forall a, p (f a) = p a) ->
  List.filter p (map f l) = map f (List.filter p l).
Proof.
  intros Hp. induction l as [|x l IH]; simpl; [reflexivity|].
  rewrite Hp. destruct (p x); simpl; rewrite IH; reflexivity.
Qed.

Lemma listing_after_marking (selects : Notification.t -> bool) (label userId : string)
    (w : Device) :
  JS.sort notificationService.newestFirst
    (List.filter (fun n => String.eqb (Notification.userId n) userId)
       (notificationsOf (marking_effect selects label w)))
  = map (mark_where selects)
      (JS.sort notificationService.newestFirst
         (List.filter (fun n => String.eqb (Notification.userId n) userId)
            (notificationsOf w))).
Proof.
  rewrite marking_effect_notifications.
  rewrite filter_map_stable by (intros a; rewrite mark_where_userId; reflexivity).
  apply sort_map. intros a b. unfold notificationService.newestFirst, mark_where.
  destruct (selects a), (selects b); reflexivity.
Qed.

(** X4.  What [getNotifications] lists for a user after [markAsRead] or
    [markAllAsRead] is what it listed before, record for record and in
    the same order, with the [read] flag raised on the selected records;
    after [markAllAsRead] of that user every listed record is read. *)
Theorem marking_keeps_the_listing (notificationId userId : string) (w : Device) :
  exists listed : list Notification.t,
    result (notificationService.getNotifications userId) w = Returned listed /\
    result (notificationService.getNotifications userId)
           (after (notificationService.markAsRead notificationId) w)
      = Returned (map (mark_where
                         (fun n => String.eqb (Notification.id n) notificationId))
                      listed) /\
    result (notificationService.getNotifications userId)
           (after (notificationService.markAllAsRead userId) w)
      = Returned (map Notification.mark_read listed).
Proof.
  eexists. split; [apply getNotifications_result|].
  unfold after. rewrite markAsRead_run, markAllAsRead_run. simpl.
  rewrite !getNotifications_result, !listing_after_marking.
  split; [reflexivity|]. f_equal.
  apply map_ext_in. intros n Hn. unfold mark_where.
  apply (Permutation_in _ (sort_Permutation Notification.createdAt _)) in Hn.
  apply filter_In in Hn as [_ Huser]. rewrite Huser. reflexivity.
Qed.

(** *** Deleting a notification *)

Lemma deleteNotification_run (notificationId : string) (w : Device) :
  notificationService.deleteNotification notificationId w =
  match notificationsKey (storage w) with
  | Some Garbled =>
      (Returned tt,
       mkDevice (storage w)
         (outputs w ++ [ConsoleError "Erro ao deletar notificação:"])
         (ticks w) (reads w))
  | stored =>
      (Returned tt,
       mkDevice
         (mkStorage (appointmentsKey (storage w))
            (Some (Json (List.filter
                           (fun n => negb (String.eqb (Notification.id n) notificationId))
                           (collection stored))))
            (registeredUsersKey (storage w)))
         (outputs w) (ticks w) (reads w))
  end.
Proof.
  unfold notificationService.deleteNotification. js_unfold.
  destruct (notificationsKey (storage w)) as [[records| |]|]; reflexivity.
Qed.

Lemma deleteNotification_notifications (notificationId : string) (w : Device) :
  notificationsOf (after (notificationService.deleteNotification notificationId) w)
  = List.filter (fun n => negb (String.eqb (Notification.id n) notificationId))
      (notificationsOf w).
Proof.
  unfold after, notificationsOf. rewrite deleteNotification_run.
  destruct (notificationsKey (storage w)) as [[records| |]|] eqn:Hkey; simpl;
    rewrite ?Hkey; reflexivity.
Qed.

Lemma filter_sublist {A : Type} (p : A -> bool) (l : list A) :
  sublist (List.filter p l) l.
Proof.
  induction l as [|x l IH]; simpl; [constructor|].
  destruct (p x); [apply sublist_skip | apply sublist_cons]; exact IH.
Qed.

Lemma filter_split_length {A : Type} (p : A -> bool) (l : list A) :
  length l = length (List.filter (fun x => negb (p x)) l) + length (List.filter p l).
Proof.
  induction l as [|x l IH]; simpl; [reflexivity|].
  destruct (p x); simpl; lia.
Qed.

(** X5.  [deleteNotification(id)] always returns.  Afterwards no stored
    notification carries the id; every other record is still stored, in
    the order it had; the collection shrinks by the number of records
    that carried the id (none, one, or several); the other keys are not
    written; and a second deletion of the same id changes nothing. *)
Theorem deleteNotification_removes_the_id (notificationId : string) (w : Device) :
  result (notificationService.deleteNotification notificationId) w = Returned tt /\
  (forall n, In n (notificationsOf
                     (after (notificationService.deleteNotification notificationId) w)) ->
             Notification.id n <> notificationId /\ In n (notificationsOf w)) /\
  (forall n, In n (notificationsOf w) -> Notification.id n <> notificationId ->
             In n (notificationsOf
                     (after (notificationService.deleteNotification notificationId) w))) /\
  sublist (notificationsOf (after (notificationService.deleteNotification notificationId) w))
          (notificationsOf w) /\
  length (notificationsOf w)
    = length (notificationsOf
                (after (notificationService.deleteNotification notificationId) w))
      + length (List.filter (fun n => String.eqb (Notification.id n) notificationId)
                  (notificationsOf w)) /\
  appointmentsKey (storage (after (notificationService.deleteNotification notificationId) w))
    = appointmentsKey (storage w) /\
  registeredUsersKey (storage (after (notificationService.deleteNotification notificationId) w))
    = registeredUsersKey (storage w) /\
  storage (after (notificationService.deleteNotification notificationId)
             (after (notificationService.deleteNotification notificationId) w))
    = storage (after (notificationService.deleteNotification notificationId) w).
Proof.
  split.
  { unfold result. rewrite deleteNotification_run.
    destruct (notificationsKey (storage w)) as [[records| |]|]; reflexivity. }
  rewrite !deleteNotification_notifications.
  split.
  { intros n Hn. apply filter_In in Hn as [Hin Hid]. split; [|exact Hin].
    apply negb_true_iff, String.eqb_neq in Hid. exact Hid. }
  split.
  { intros n Hin Hid. apply filter_In. split; [exact Hin|].
    apply negb_true_iff, String.eqb_neq. exact Hid. }
  split; [apply filter_sublist|].
  split; [apply filter_split_length|].
  unfold after. rewrite !deleteNotification_run.
  destruct (notificationsKey (storage w)) as [[records| |]|] eqn:Hkey; simpl;
    rewrite ?Hkey; simpl; repeat split.
  - f_equal. f_equal. f_equal. rewrite filter_filter_and. apply filter_ext.
    intros n. destruct (negb (String.eqb (Notification.id n) notificationId)); reflexivity.
Qed.

(** *** Creating a notification *)

Lemma unreadOf_app (userId : string) (l l' : list Notification.t) :
  unreadOf userId (l ++ l') = (unreadOf userId l ++ unreadOf userId l')%list.
Proof. unfold unreadOf. apply List.filter_app. Qed.

(** X6.  With readable stored notifications, [createNotification] keeps
    every stored record and appends one: unread, with the id made from
    the first clock reading and [createdAt] the second, and the fields of
    the draft.  The unread count of the recipient goes up by one, that of
    every other user stays, and the appointments key is not written. *)
Theorem createNotification_appends_one_unread
    (d : Notification.draft) (other : string) (w : Device) :
  readable (notificationsKey (storage w)) ->
  result (notificationService.createNotification d) w = Returned tt /\
  notificationsOf (after (notificationService.createNotification d) w)
    = (notificationsOf w ++
         [Notification.mk (pretty (ticks w (reads w))) (Notification.d_userId d)
            (Notification.d_title d) (Notification.d_message d) (Notification.d_type d)
            false (ticks w (S (reads w))) (Notification.d_appointmentId d)])%list /\
  result (notificationService.getUnreadCount (Notification.d_userId d))
         (after (notificationService.createNotification d) w)
    = Returned (S (length (unreadOf (Notification.d_userId d) (notificationsOf w)))) /\
  (other <> Notification.d_userId d ->
   result (notificationService.getUnreadCount other)
          (after (notificationService.createNotification d) w)
   = result (notificationService.getUnreadCount other) w) /\
  appointmentsKey (storage (after (notificationService.createNotification d) w))
    = appointmentsKey (storage w).
Proof.
  intros Hread.
  assert (Hafter : notificationsOf (after (notificationService.createNotification d) w)
                   = (notificationsOf w ++
                        [newNotification d (ticks w (reads w)) (ticks w (S (reads w)))])%list).
  { unfold after. rewrite createNotification_run. simpl.
    unfold notificationsOf at 1. rewrite createNotification_effect_appends by exact Hread.
    reflexivity. }
  split; [unfold result; rewrite createNotification_run; reflexivity|].
  split; [exact Hafter|].
  rewrite !(proj1 (getUnreadCount_run _ _)), Hafter, !unreadOf_app, !length_app.
  split; [|split].
  - unfold unreadOf at 2. simpl. rewrite String.eqb_refl. simpl. f_equal. lia.
  - intros Hother. apply String.eqb_neq in Hother.
    unfold unreadOf at 2. simpl. rewrite String.eqb_sym, Hother.
    simpl. f_equal. lia.
  - unfold after. rewrite createNotification_run. simpl.
    apply createNotification_effect_appointments.
Qed.

Lemma createNotification_appends_one_unread_witness :
  result (notificationService.getUnreadCount "p1")
         (after (notificationService.createNotification
                   (Notification.mkDraft "p1" general "T" "M" None)) sampleDevice)
    = Returned 3 /\
  result (notificationService.getUnreadCount "p2")
         (after (notificationService.createNotification
                   (Notification.mkDraft "p1" general "T" "M" None)) sampleDevice)
    = result (notificationService.getUnreadCount "p2") sampleDevice.
Proof.
  destruct (createNotification_appends_one_unread
              (Notification.mkDraft "p1" general "T" "M" None) "p2" sampleDevice)
    as [_ [_ [Hown [Hother _]]]]; [discriminate|].
  split; [exact Hown | apply Hother; discriminate].
Defined.

(** X7.  When the notifications key holds text that is not empty and
    that [JSON.parse] rejects, none of [createNotification], [markAsRead],
    [markAllAsRead] and [deleteNotification] writes anything or throws:
    each returns after logging its own error line and leaves the storage
    and the clock as they were, so the caller cannot tell that nothing
    was stored.  When the key holds the empty string the guard takes it
    for an empty array without parsing it, nothing is logged, and the
    call writes: [createNotification] stores the new record alone, the
    other three store the empty array. *)
Theorem notification_writes_are_dropped_on_unreadable_text
    (d : Notification.draft) (key : string) (w : Device) :
  (notificationsKey (storage w) = Some Garbled ->
   notificationService.createNotification d w
     = (Returned tt,
        mkDevice (storage w) (outputs w ++ [ConsoleError "Erro ao criar notificação:"])
          (ticks w) (reads w)) /\
   notificationService.markAsRead key w
     = (Returned tt,
        mkDevice (storage w)
          (outputs w ++ [ConsoleError "Erro ao marcar notificação como lida:"])
          (ticks w) (reads w)) /\
   notificationService.markAllAsRead key w
     = (Returned tt,
        mkDevice (storage w)
          (outputs w ++ [ConsoleError "Erro ao marcar todas notificações como lidas:"])
          (ticks w) (reads w)) /\
   notificationService.deleteNotification key w
     = (Returned tt,
        mkDevice (storage w) (outputs w ++ [ConsoleError "Erro ao deletar notificação:"])
          (ticks w) (reads w))) /\
  (notificationsKey (storage w) = Some Blank ->
   (notificationsKey (storage (after (notificationService.createNotification d) w))
      = Some (Json [newNotification d (ticks w (reads w)) (ticks w (S (reads w)))]) /\
    outputs (after (notificationService.createNotification d) w) = outputs w) /\
   (notificationsKey (storage (after (notificationService.markAsRead key) w))
      = Some (Json []) /\
    outputs (after (notificationService.markAsRead key) w) = outputs w) /\
   (notificationsKey (storage (after (notificationService.markAllAsRead key) w))
      = Some (Json []) /\
    outputs (after (notificationService.markAllAsRead key) w) = outputs w) /\
   (notificationsKey (storage (after (notificationService.deleteNotification key) w))
      = Some (Json []) /\
    outputs (after (notificationService.deleteNotification key) w) = outputs w)).
Proof.
  split; intros Hkey; unfold after;
    rewrite createNotification_run, markAsRead_run, markAllAsRead_run,
      deleteNotification_run;
    unfold createNotification_effect, marking_effect; rewrite Hkey; simpl;
    repeat split.
Qed.

Lemma notification_writes_are_dropped_on_unreadable_text_witness :
  notificationService.deleteNotification "1" garbledNotificationsDevice
    = (Returned tt,
       mkDevice (mkStorage None (Some Garbled) None)
         [ConsoleError "Erro ao deletar notificação:"]
         (fun k => (1700000000000 + Z.of_nat k)%Z) 0) /\
  notificationsKey (storage (after (notificationService.deleteNotification "1")
                               blankNotificationsDevice)) = Some (Json []) /\
  notificationsKey
    (storage (after (notificationService.createNotification
                       (Notification.mkDraft "p1" general "T" "M" None))
                blankNotificationsDevice))
    = Some (Json [Notification.mk "1700000000000" "p1" "T" "M" general false
                    1700000000001 None]).
Proof.
  destruct (notification_writes_are_dropped_on_unreadable_text
              (Notification.mkDraft "p1" general "T" "M" None) "1"
              garbledNotificationsDevice) as [Hgarbled _].
  destruct (notification_writes_are_dropped_on_unreadable_text
              (Notification.mkDraft "p1" general "T" "M" None) "1"
              blankNotificationsDevice) as [_ Hblank].
  destruct (Hgarbled eq_refl) as [_ [_ [_ Hdelete]]].
  destruct (Hblank eq_refl) as [[Hcreate _] [_ [_ [Hdeleted _]]]].
  split; [exact Hdelete|]. split; [exact Hdeleted|]. exact Hcreate.
Defined.

(** X8.  Each of the four event helpers stores, when the stored
    notifications are readable, exactly one new unread notification for
    the given recipient that points back to the appointment; the type is
    that of the event.  A cancellation mentions the reason only when one
    is given and is not empty; a reminder names the doctor, or the patient
    when the appointment has no doctor name. *)
Theorem event_helpers_store_one_notification
    (recipient : string) (a : Appointment.t) (reason : option string) (w : Device) :
  readable (notificationsKey (storage w)) ->
  stores_one (notificationService.notifyAppointmentConfirmed recipient a) w
    recipient appointment_confirmed
    ("Sua consulta com " +:+ Appointment.doctorName a +:+ " foi confirmada para "
       +:+ Appointment.date a +:+ " às " +:+ Appointment.time a +:+ ".")
    (Appointment.id a) /\
  stores_one (notificationService.notifyAppointmentCancelled recipient a reason) w
    recipient appointment_cancelled
    ("Sua consulta com " +:+ Appointment.doctorName a +:+ " foi cancelada."
       +:+ match reason with
           | Some r => if String.eqb r "" then "" else " Motivo: " +:+ r
           | None => ""
           end)
    (Appointment.id a) /\
  stores_one (notificationService.notifyNewAppointment recipient a) w
    recipient general
    (Appointment.patientName a +:+ " agendou uma consulta para "
       +:+ Appointment.date a +:+ " às " +:+ Appointment.time a +:+ ".")
    (Appointment.id a) /\
  stores_one (notifyAppointmentReminder recipient a) w
    recipient appointment_reminder
    ("Você tem uma consulta agendada para amanhã às " +:+ Appointment.time a
       +:+ " com "
       +:+ (if String.eqb (Appointment.doctorName a) ""
            then Appointment.patientName a else Appointment.doctorName a)
       +:+ ".")
    (Appointment.id a).
Proof.
  intros Hread.
  assert (Hgen : forall d,
            notificationsOf (after (notificationService.createNotification d) w)
            = (notificationsOf w ++
                 [newNotification d (ticks w (reads w)) (ticks w (S (reads w)))])%list).
  { intros d. unfold after. rewrite createNotification_run. simpl.
    unfold notificationsOf at 1. rewrite createNotification_effect_appends by exact Hread.
    reflexivity. }
  repeat split; eexists; (split; [apply Hgen|]); repeat split.
Qed.

Lemma event_helpers_store_one_notification_witness :
  stores_one (notificationService.notifyAppointmentCancelled "p1"
                (booking "7" "15/01/2026" pending) (Some "")) sampleDevice
    "p1" appointment_cancelled "Sua consulta com Dr. João Silva foi cancelada." "7".
Proof.
  apply (event_helpers_store_one_notification "p1" (booking "7" "15/01/2026" pending)
           (Some "") sampleDevice).
  discriminate.
Defined.

(** *** The notifications screen and the bell *)

Lemma loadNotifications_run (user : option User.t) (s : NotificationsScreen.State)
    (w : Device) :
  NotificationsScreen.idOf user <> "" ->
  result (NotificationsScreen.loadNotifications user s) w
    = Returned (NotificationsScreen.mkState
                  (JS.sort notificationService.newestFirst
                     (List.filter
                        (fun n => String.eqb (Notification.userId n)
                                    (NotificationsScreen.idOf user))
                        (notificationsOf w)))
                  false) /\
  storage (after (NotificationsScreen.loadNotifications user s) w) = storage w.
Proof.
  intros Hid. apply String.eqb_neq in Hid.
  unfold result, after, NotificationsScreen.loadNotifications, notificationsOf.
  rewrite Hid. unfold try_catch, mbind, Js_bind. rewrite getNotifications_run.
  destruct (notificationsKey (storage w)) as [[records| |]|]; split; reflexivity.
Qed.

Lemma unread_after_marking_all (userId : string) (records : list Notification.t) :
  length (unreadOf userId
            (map (mark_where (fun n => String.eqb (Notification.userId n) userId))
                 records)) = 0.
Proof.
  induction records as [|n rest IH]; [reflexivity|].
  unfold unreadOf in *. cbn [map List.filter].
  rewrite mark_where_userId, mark_where_read.
  destruct (String.eqb (Notification.userId n) userId); simpl; exact IH.
Qed.

Lemma loadNotifications_full (user : option User.t) (s : NotificationsScreen.State)
    (w : Device) :
  NotificationsScreen.idOf user <> "" ->
  exists w' : Device,
    NotificationsScreen.loadNotifications user s w
      = (Returned (NotificationsScreen.mkState
                     (JS.sort notificationService.newestFirst
                        (List.filter
                           (fun n => String.eqb (Notification.userId n)
                                       (NotificationsScreen.idOf user))
                           (notificationsOf w)))
                     false), w') /\
    storage w' = storage w.
Proof.
  intros Hid. destruct (loadNotifications_run user s w Hid) as [Hres Hsto].
  unfold result, after in Hres, Hsto.
  destruct (NotificationsScreen.loadNotifications user s w) as [c w'].
  simpl in Hres, Hsto. subst c. exists w'. split; [reflexivity | exact Hsto].
Qed.

(** X9.  On the notifications screen, "mark all as read" leaves no unread
    notification in the list it shows, whatever the storage holds, and
    ends the loading state; it never throws.  Without a logged-in user id
    it does nothing at all. *)
Theorem handleMarkAllAsRead_leaves_nothing_unread
    (user : option User.t) (s : NotificationsScreen.State) (w : Device) :
  (NotificationsScreen.idOf user <> "" ->
   exists s' : NotificationsScreen.State,
     result (NotificationsScreen.handleMarkAllAsRead user s) w = Returned s' /\
     NotificationsScreen.unreadCount s' = 0 /\
     NotificationsScreen.loading s' = false /\
     result (notificationService.getNotifications (NotificationsScreen.idOf user))
            (after (NotificationsScreen.handleMarkAllAsRead user s) w)
       = Returned (NotificationsScreen.notifications s')) /\
  (NotificationsScreen.idOf user = "" ->
   NotificationsScreen.handleMarkAllAsRead user s w = (Returned s, w)).
Proof.
  split.
  - intros Hid.
    assert (Hrun : exists w2,
              NotificationsScreen.handleMarkAllAsRead user s w
                = (Returned (NotificationsScreen.mkState
                               (JS.sort notificationService.newestFirst
                                  (List.filter
                                     (fun n => String.eqb (Notification.userId n)
                                                 (NotificationsScreen.idOf user))
                                     (map (mark_where
                                             (fun n => String.eqb (Notification.userId n)
                                                         (NotificationsScreen.idOf user)))
                                          (notificationsOf w))))
                               false), w2) /\
              notificationsOf w2
                = map (mark_where
                         (fun n => String.eqb (Notification.userId n)
                                     (NotificationsScreen.idOf user)))
                      (notificationsOf w)).
    { unfold NotificationsScreen.handleMarkAllAsRead.
      rewrite (proj2 (String.eqb_neq _ _) Hid).
      unfold try_catch, mbind, Js_bind. rewrite markAllAsRead_run.
      match goal with
      | |- context [NotificationsScreen.loadNotifications user s ?w1] =>
          destruct (loadNotifications_full user s w1 Hid) as [w2 [Hload Hsto]]
      end.
      rewrite Hload. exists w2. rewrite marking_effect_notifications.
      split; [reflexivity|].
      unfold notificationsOf at 1. rewrite Hsto.
      apply marking_effect_notifications. }
    destruct Hrun as [w2 [Hrun Hnotes]].
    unfold result, after. rewrite Hrun. simpl. eexists.
    split; [reflexivity|]. simpl. split; [|split; [reflexivity|]].
    + unfold NotificationsScreen.unreadCount. simpl. rewrite unread_of_listed.
      apply unread_after_marking_all.
    + pose proof (getNotifications_result (NotificationsScreen.idOf user) w2) as Hget.
      unfold result in Hget. rewrite Hget, Hnotes. reflexivity.
  - intros Hid. unfold NotificationsScreen.handleMarkAllAsRead. rewrite Hid. reflexivity.
Qed.

Lemma handleMarkAllAsRead_leaves_nothing_unread_witness :
  exists s' : NotificationsScreen.State,
    result (NotificationsScreen.handleMarkAllAsRead (Some ana)
              NotificationsScreen.initial) sampleDevice = Returned s' /\
    NotificationsScreen.unreadCount s' = 0 /\
    NotificationsScreen.loading s' = false /\
    result (notificationService.getNotifications (NotificationsScreen.idOf (Some ana)))
           (after (NotificationsScreen.handleMarkAllAsRead (Some ana)
                     NotificationsScreen.initial) sampleDevice)
      = Returned (NotificationsScreen.notifications s').
Proof.
  apply (handleMarkAllAsRead_leaves_nothing_unread (Some ana)
           NotificationsScreen.initial sampleDevice).
  discriminate.
Defined.

(** X10.  The bell and the notifications screen agree: for a logged-in
    user, the count the bell loads from a device is the number of unread
    entries in the list the screen loads from it.  Without a user id both
    keep what they showed. *)
Theorem bell_and_screen_agree (user : option User.t) (s : NotificationsScreen.State)
    (shown : nat) (w : Device) :
  (NotificationsScreen.idOf user <> "" ->
   exists (s' : NotificationsScreen.State) (count : nat),
     result (NotificationsScreen.loadNotifications user s) w = Returned s' /\
     result (NotificationBell.loadUnreadCount user shown) w = Returned count /\
     NotificationsScreen.unreadCount s' = count /\
     count = length (unreadOf (NotificationsScreen.idOf user) (notificationsOf w))) /\
  (NotificationsScreen.idOf user = "" ->
   NotificationsScreen.loadNotifications user s w = (Returned s, w) /\
   NotificationBell.loadUnreadCount user shown w = (Returned shown, w)).
Proof.
  split.
  - intros Hid. do 2 eexists.
    split; [apply (loadNotifications_run user s w Hid)|].
    split.
    + unfold result, NotificationBell.loadUnreadCount.
      rewrite (proj2 (String.eqb_neq _ _) Hid).
      unfold try_catch, mbind, Js_bind.
      pose proof (proj1 (getUnreadCount_run (NotificationsScreen.idOf user) w)) as Hc.
      unfold result in Hc.
      destruct (notificationService.getUnreadCount (NotificationsScreen.idOf user) w)
        as [[c|e] w']; simpl in Hc; [|discriminate].
      injection Hc as ->. reflexivity.
    + split; [|reflexivity].
      unfold NotificationsScreen.unreadCount. simpl. apply unread_of_listed.
  - intros Hid.
    unfold NotificationsScreen.loadNotifications, NotificationBell.loadUnreadCount.
    rewrite Hid. split; reflexivity.
Qed.

Lemma bell_and_screen_agree_witness :
  exists (s' : NotificationsScreen.State) (count : nat),
    result (NotificationsScreen.loadNotifications (Some ana) NotificationsScreen.initial)
           sampleDevice = Returned s' /\
    result (NotificationBell.loadUnreadCount (Some ana) 0) sampleDevice = Returned count /\
    NotificationsScreen.unreadCount s' = count /\
    count = length (unreadOf (NotificationsScreen.idOf (Some ana))
                      (notificationsOf sampleDevice)).
Proof.
  apply (bell_and_screen_agree (Some ana) NotificationsScreen.initial 0 sampleDevice).
  discriminate.
Defined.

(** *** Sorting commutes with filtering *)

Section SortFilter.

Context {A : Type} (key : A -> Z) (p : A -> bool).

Local Abbreviation descending := (fun a b : A => (key b - key a)%Z).
Local Abbreviation not_before := (fun a b : A => (key b <= key a)%Z).





End SortFilter.




(** *** Statistics: counts that add up *)

Lemma status_counts_add_up (appointments : list Appointment.t) :
  countStatus confirmed appointments + countStatus pending appointments
    + countStatus cancelled appointments = length appointments.
Proof.
  unfold countStatus. induction appointments as [|a rest IH]; [reflexivity|].
  simpl. destruct (Appointment.status a); simpl; lia.
Qed.

Lemma distinct_at_most_length (ids : list string) : distinct ids <= length ids.
Proof.
  unfold distinct. induction ids as [|x ids IH].
  - rewrite list_to_set_nil, size_empty. simpl. lia.
  - rewrite list_to_set_cons, size_union_alt, size_singleton. simpl.
    assert (Hsub : (list_to_set ids ∖ {[x]} : gset string) ⊆ list_to_set ids)
      by (intros y Hy; apply elem_of_difference in Hy; tauto).
    apply subseteq_size in Hsub. lia.
Qed.

Lemma distinct_positive (ids : list string) : ids <> [] -> 1 <= distinct ids.
Proof.
  unfold distinct. destruct ids as [|x ids]; [congruence|]. intros _.
  rewrite list_to_set_cons, size_union_alt, size_singleton. lia.
Qed.

(** **** The month table *)

Lemma tally_countUnderMonthKey (date : string) (table : gmap string nat) :
  tally (countUnderMonthKey date table) = S (tally table).
Proof.
  unfold tally, countUnderMonthKey.
  assert (Hcomm : forall (m : gmap string nat) (j1 j2 : string) (z1 z2 y : nat),
            j1 <> j2 -> m !! j1 = Some z1 -> m !! j2 = Some z2 ->
            z1 + (z2 + y) = z2 + (z1 + y)) by (intros; lia).
  destruct (table !! monthKey date) as [count|] eqn:Hkey; simpl.
  - rewrite <- insert_delete_eq.
    rewrite map_fold_insert_L; [|apply Hcomm|apply lookup_delete_eq].
    rewrite (map_fold_delete_L _ _ (monthKey date) count table);
      [lia|apply Hcomm|exact Hkey].
  - rewrite map_fold_insert_L; [lia|apply Hcomm|exact Hkey].
Qed.

Lemma tally_months (appointments : list Appointment.t) (table : gmap string nat) :
  tally (fold_left (fun table a => countUnderMonthKey (Appointment.date a) table)
           appointments table)
  = tally table + length appointments.
Proof.
  revert table. induction appointments as [|a rest IH]; intros table; simpl; [lia|].
  rewrite IH, tally_countUnderMonthKey. lia.
Qed.

Lemma months_have_no_zero (appointments : list Appointment.t)
    (table : gmap string nat) (k : string) :
  (forall j, table !! j <> Some 0) ->
  fold_left (fun table a => countUnderMonthKey (Appointment.date a) table)
    appointments table !! k <> Some 0.
Proof.
  revert table. induction appointments as [|a rest IH]; intros table Hpos; simpl;
    [apply Hpos|].
  apply IH. intros j. unfold countUnderMonthKey.
  destruct (decide (monthKey (Appointment.date a) = j)) as [->|Hne].
  - rewrite lookup_insert_eq. intros [= Hzero]. lia.
  - rewrite lookup_insert_ne by exact Hne. apply Hpos.
Qed.

Lemma tally_empty : tally ∅ = 0.
Proof. unfold tally. apply map_fold_empty. Qed.

Lemma filter_none {A : Type} (p : A -> bool) (l : list A) :
  (forall a, In a l -> p a = false) -> List.filter p l = [].
Proof.
  induction l as [|a rest IH]; intros Hnone; [reflexivity|]. simpl.
  rewrite (Hnone a) by (left; reflexivity). apply IH. intros b Hb. apply Hnone.
  right. exact Hb.
Qed.

(** A month key is present exactly when some record has it. *)
Lemma month_absent_iff (appointments : list Appointment.t) (k : string) :
  fold_left (fun table a => countUnderMonthKey (Appointment.date a) table)
    appointments ∅ !! k = None <->
  forall a, In a appointments -> monthKey (Appointment.date a) <> k.
Proof.
  pose proof (months_count_every_record appointments ∅ k) as Hcount.
  rewrite lookup_empty in Hcount. simpl in Hcount.
  pose proof (months_have_no_zero appointments ∅ k) as Hpos.
  split.
  - intros Hnone a Hin Hk. rewrite Hnone in Hcount. simpl in Hcount.
    assert (Hmem : In a (List.filter
                           (fun a => String.eqb (monthKey (Appointment.date a)) k)
                           appointments)).
    { apply filter_In. split; [exact Hin|]. apply String.eqb_eq. exact Hk. }
    destruct (List.filter (fun a => String.eqb (monthKey (Appointment.date a)) k)
                appointments); [contradiction | discriminate].
  - intros Hnone.
    rewrite (filter_none (fun a => String.eqb (monthKey (Appointment.date a)) k))
      in Hcount.
    2: { intros a Hin. apply String.eqb_neq. apply Hnone, Hin. }
    simpl in Hcount.
    match goal with
    | |- ?table !! k = None => destruct (table !! k) as [c|] eqn:Hlook; [|reflexivity]
    end.
    simpl in Hcount. subst c. exfalso. apply Hpos; [|reflexivity].
    intros j. rewrite lookup_empty. discriminate.
Qed.

(** **** A month key names no property of [Object.prototype] *)

Lemma holdsSlash_app (a b : string) :
  holdsSlash (a +:+ b) = holdsSlash a || holdsSlash b.
Proof.
  induction a as [|c a IH]; simpl; [reflexivity|].
  rewrite IH. apply orb_assoc.
Qed.

Lemma inherited_holds_no_slash (key : string) :
  inherited key = true -> holdsSlash key = false.
Proof.
  unfold inherited, inheritsFunction, inheritedFunctions. simpl. intros Hkey.
  repeat (apply orb_true_iff in Hkey as [Hkey|Hkey]);
    try discriminate Hkey; apply String.eqb_eq in Hkey; subst key; reflexivity.
Qed.

Lemma monthKey_not_inherited (date : string) : inherited (monthKey date) = false.
Proof.
  destruct (inherited (monthKey date)) eqn:Hkey; [|reflexivity].
  apply inherited_holds_no_slash in Hkey. unfold monthKey in Hkey.
  rewrite !holdsSlash_app in Hkey. simpl in Hkey.
  rewrite orb_true_r in Hkey. discriminate Hkey.
Qed.

(** Under a month key, counting in a table of counts is what [increment]
    does to the object. *)
Lemma countUnderMonthKey_is_increment (date : string) (table : gmap string nat) :
  increment (monthKey date) (Count <$> table) = Count <$> countUnderMonthKey date table.
Proof.
  pose proof (monthKey_not_inherited date) as Hkey.
  unfold inherited in Hkey. apply orb_false_iff in Hkey as [Hproto Hfun].
  unfold increment, countUnderMonthKey. rewrite lookup_fmap.
  destruct (table !! monthKey date) as [n|]; simpl.
  - rewrite fmap_insert. reflexivity.
  - rewrite Hproto, Hfun, fmap_insert. reflexivity.
Qed.

(** **** The specialty table *)

Lemma cellAdvance_S (key : string) (cell : option Cell) (n : nat) :
  cellAdvance key (cellAdvance key cell 1) n = cellAdvance key cell (S n).
Proof.
  destruct cell as [[c|g]|]; simpl.
  - do 2 f_equal. lia.
  - do 2 f_equal. lia.
  - unfold cellAfter. simpl.
    destruct (String.eqb key "__proto__") eqn:Hproto; simpl.
    + unfold cellAfter. rewrite Hproto. destruct (n =? 0)%nat; reflexivity.
    + destruct (inheritsFunction key); reflexivity.
Qed.

Lemma lookup_increment_eq (key : string) (table : gmap string Cell) :
  increment key table !! key = cellAdvance key (table !! key) 1.
Proof.
  unfold increment, cellAdvance, cellAfter.
  destruct (table !! key) as [[c|g]|] eqn:Hkey; simpl.
  - apply lookup_insert_eq.
  - apply lookup_insert_eq.
  - destruct (String.eqb key "__proto__"); [exact Hkey|].
    destruct (inheritsFunction key); apply lookup_insert_eq.
Qed.

Lemma lookup_increment_ne (key k : string) (table : gmap string Cell) :
  key <> k -> increment key table !! k = table !! k.
Proof.
  intros Hne. unfold increment.
  destruct (table !! key) as [[c|g]|]; try (apply lookup_insert_ne; exact Hne).
  destruct (String.eqb key "__proto__"); [reflexivity|].
  destruct (inheritsFunction key); apply lookup_insert_ne; exact Hne.
Qed.

(** The property a specialty table has under a key after a run of
    [increment]s is decided by the property it had and by the number of
    records of that specialty. *)
Lemma specialties_count_every_record (appointments : list Appointment.t)
    (table : gmap string Cell) (k : string) :
  fold_left (fun table a => increment (Appointment.specialty a) table)
    appointments table !! k
  = cellAdvance k (table !! k) (withSpecialty k appointments).
Proof.
  unfold withSpecialty. revert table.
  induction appointments as [|a rest IH]; intros table; simpl.
  - destruct (table !! k) as [[c|g]|]; simpl; try reflexivity; do 2 f_equal; lia.
  - rewrite IH. destruct (String.eqb_spec (Appointment.specialty a) k) as [->|Hne].
    + rewrite lookup_increment_eq. simpl length. apply cellAdvance_S.
    + rewrite lookup_increment_ne by exact Hne. reflexivity.
Qed.

Lemma countSpecialties_lookup (appointments : list Appointment.t) (k : string) :
  countSpecialties appointments !! k = cellAfter k (withSpecialty k appointments).
Proof.
  unfold countSpecialties. rewrite specialties_count_every_record, lookup_empty.
  reflexivity.
Qed.

Lemma counted_comm (m : gmap string Cell) (j1 j2 : string) (z1 z2 : Cell) (y : nat) :
  j1 <> j2 -> m !! j1 = Some z1 -> m !! j2 = Some z2 ->
  match z1 with Count n => n + match z2 with Count n' => n' + y | Glued _ => y end
           | Glued _ => match z2 with Count n' => n' + y | Glued _ => y end end
  = match z2 with Count n => n + match z1 with Count n' => n' + y | Glued _ => y end
             | Glued _ => match z1 with Count n' => n' + y | Glued _ => y end end.
Proof. intros _ _ _. destruct z1, z2; lia. Qed.

Lemma counted_insert_new (key : string) (cell : Cell) (table : gmap string Cell) :
  table !! key = None ->
  counted (<[key := cell]> table)
  = match cell with Count n => n + counted table | Glued _ => counted table end.
Proof.
  intros Hkey. unfold counted.
  rewrite map_fold_insert_L; [reflexivity | apply counted_comm | exact Hkey].
Qed.

Lemma counted_insert_old (key : string) (old cell : Cell) (table : gmap string Cell) :
  table !! key = Some old ->
  counted (<[key := cell]> table)
    + match old with Count n => n | Glued _ => 0 end
  = counted table + match cell with Count n => n | Glued _ => 0 end.
Proof.
  intros Hkey. rewrite <- insert_delete_eq.
  rewrite counted_insert_new by apply lookup_delete_eq.
  unfold counted at 3.
  rewrite (map_fold_delete_L _ _ key old table); [|apply counted_comm|exact Hkey].
  fold (counted (delete key table)). destruct old, cell; lia.
Qed.

Lemma counted_increment (key : string) (table : gmap string Cell) :
  kinds_agree table ->
  counted (increment key table)
  = counted table + (if inherited key then 0 else 1).
Proof.
  intros Hkinds. unfold increment.
  destruct (table !! key) as [[c|g]|] eqn:Hkey.
  - pose proof (Hkinds key (Count c) Hkey) as Hplain. simpl in Hplain. rewrite Hplain.
    pose proof (counted_insert_old key (Count c) (Count (c + 1)) table Hkey). simpl in *.
    lia.
  - pose proof (Hkinds key (Glued g) Hkey) as Hprop. simpl in Hprop. rewrite Hprop.
    pose proof (counted_insert_old key (Glued g) (Glued (g + 1)) table Hkey). simpl in *.
    lia.
  - unfold inherited.
    destruct (String.eqb key "__proto__"); simpl; [lia|].
    destruct (inheritsFunction key); rewrite counted_insert_new by exact Hkey; lia.
Qed.

Lemma increment_kinds_agree (key : string) (table : gmap string Cell) :
  kinds_agree table -> kinds_agree (increment key table).
Proof.
  intros Hkinds k cell. destruct (decide (key = k)) as [<-|Hne].
  - rewrite lookup_increment_eq. unfold cellAdvance, cellAfter, inherited.
    destruct (table !! key) as [[c|g]|] eqn:Hkey; simpl.
    + intros [= <-]. exact (Hkinds key (Count c) Hkey).
    + intros [= <-]. exact (Hkinds key (Glued g) Hkey).
    + destruct (String.eqb key "__proto__"); [discriminate|].
      destruct (inheritsFunction key); intros [= <-]; reflexivity.
  - rewrite lookup_increment_ne by exact Hne. apply Hkinds.
Qed.

Lemma counted_specialties (appointments : list Appointment.t)
    (table : gmap string Cell) :
  kinds_agree table ->
  counted (fold_left (fun table a => increment (Appointment.specialty a) table)
             appointments table)
  = counted table
    + length (List.filter (fun a => negb (inherited (Appointment.specialty a)))
                appointments).
Proof.
  revert table. induction appointments as [|a rest IH]; intros table Hkinds; simpl;
    [lia|].
  rewrite IH by (apply increment_kinds_agree, Hkinds).
  rewrite counted_increment by exact Hkinds.
  destruct (inherited (Appointment.specialty a)); simpl; lia.
Qed.

Lemma countSpecialties_counted (appointments : list Appointment.t) :
  counted (countSpecialties appointments)
  = length (List.filter (fun a => negb (inherited (Appointment.specialty a)))
              appointments).
Proof.
  unfold countSpecialties. rewrite counted_specialties.
  - unfold counted at 1. rewrite map_fold_empty. reflexivity.
  - intros key cell. rewrite lookup_empty. discriminate.
Qed.

Lemma filter_all {A : Type} (p : A -> bool) (l : list A) :
  (forall a, In a l -> p a = true) -> List.filter p l = l.
Proof.
  induction l as [|a rest IH]; intros Hall; [reflexivity|]. simpl.
  rewrite (Hall a) by (left; reflexivity). f_equal. apply IH. intros b Hb. apply Hall.
  right. exact Hb.
Qed.

(** The three shapes of [cellAfter], by the kind of key. *)
Lemma cellAfter_cases (k : string) (n : nat) :
  (inherited k = false ->
   cellAfter k n = if (n =? 0)%nat then None else Some (Count n)) /\
  (inheritsFunction k = true -> k <> "__proto__" ->
   cellAfter k n = if (n =? 0)%nat then None else Some (Glued n)) /\
  cellAfter "__proto__" n = None.
Proof.
  unfold cellAfter, inherited. split; [|split].
  - intros Hkey. apply orb_false_iff in Hkey as [-> ->]. reflexivity.
  - intros Hfun Hproto. apply String.eqb_neq in Hproto. rewrite Hproto, Hfun.
    reflexivity.
  - destruct (n =? 0)%nat; reflexivity.
Qed.

(** X12.  For readable stored data [getGeneralStatistics] returns without
    touching the device, and its numbers are consistent: the three status
    counts add up to the total; the counts of the month table add up to
    the total (every appointment is counted once); the counts of the
    specialty table add up to the number of appointments whose specialty
    names no property of [Object.prototype], so to the total when no
    stored specialty is such a name (an appointment with such a
    specialty adds to no count: the table gets a string under
    "constructor" and nothing under "__proto__"); the numbers of distinct
    patients and doctors are at most the total, and at least one when
    there is an appointment. *)
Theorem general_statistics_add_up (w : Device) :
  readable (appointmentsKey (storage w)) ->
  readable (registeredUsersKey (storage w)) ->
  exists stats : Statistics.t,
    getGeneralStatistics w = (Returned stats, w) /\
    Statistics.totalAppointments stats = length (appointmentsOf w) /\
    Statistics.confirmedAppointments stats + Statistics.pendingAppointments stats
      + Statistics.cancelledAppointments stats = Statistics.totalAppointments stats /\
    tally (Statistics.appointmentsByMonth stats) = Statistics.totalAppointments stats /\
    counted (Statistics.specialties stats)
      = length (List.filter (fun a => negb (inherited (Appointment.specialty a)))
                  (appointmentsOf w)) /\
    ((forall a, In a (appointmentsOf w) -> inherited (Appointment.specialty a) = false) ->
     counted (Statistics.specialties stats) = Statistics.totalAppointments stats) /\
    Statistics.totalPatients stats <= Statistics.totalAppointments stats /\
    Statistics.totalDoctors stats <= Statistics.totalAppointments stats /\
    (0 < Statistics.totalAppointments stats ->
     1 <= Statistics.totalPatients stats /\ 1 <= Statistics.totalDoctors stats).
Proof.
  intros Ha Hu. exists (summarize (appointmentsOf w)).
  split; [apply getGeneralStatistics_run; assumption|].
  unfold summarize. simpl.
  split; [reflexivity|]. split; [apply status_counts_add_up|].
  split; [rewrite tally_months, tally_empty; reflexivity|].
  split; [apply countSpecialties_counted|].
  split.
  { intros Hplain. rewrite countSpecialties_counted, filter_all; [reflexivity|].
    intros a Hin. rewrite (Hplain a Hin). reflexivity. }
  split; [rewrite <- (length_map Appointment.patientId); apply distinct_at_most_length|].
  split; [rewrite <- (length_map Appointment.doctorId); apply distinct_at_most_length|].
  intros Hsome.
  split; apply distinct_positive; destruct (appointmentsOf w); simpl in *;
    try lia; discriminate.
Qed.

Lemma general_statistics_add_up_witness :
  (exists stats : Statistics.t,
     getGeneralStatistics (deviceWithAppointments (Some (Json tenAppointments)))
       = (Returned stats, deviceWithAppointments (Some (Json tenAppointments))) /\
     Statistics.totalAppointments stats = 10 /\
     tally (Statistics.appointmentsByMonth stats) = 10 /\
     counted (Statistics.specialties stats) = 10) /\
  (exists stats : Statistics.t,
     getGeneralStatistics oddSpecialtiesDevice = (Returned stats, oddSpecialtiesDevice) /\
     Statistics.totalAppointments stats = 5 /\
     tally (Statistics.appointmentsByMonth stats) = 5 /\
     counted (Statistics.specialties stats) = 2).
Proof.
  split.
  - destruct (general_statistics_add_up
                (deviceWithAppointments (Some (Json tenAppointments))))
      as [stats [Hrun [Htotal [_ [Hmonth [Hspec _]]]]]]; [discriminate | discriminate |].
    exists stats. rewrite Hspec, Hmonth, Htotal. repeat split. exact Hrun.
  - destruct (general_statistics_add_up oddSpecialtiesDevice)
      as [stats [Hrun [Htotal [_ [Hmonth [Hspec _]]]]]]; [discriminate | discriminate |].
    exists stats. rewrite Hspec, Hmonth, Htotal. repeat split. exact Hrun.
Defined.

(** X13.  In the statistics returned for readable stored data the entry
    of a month key is the number of appointments whose date gives that
    key, and the key is present exactly when some appointment has it.
    The specialty table has, under a key that names no property of
    [Object.prototype], the number of appointments of that specialty,
    and no entry when there is none; under the name of a function of
    [Object.prototype] it has not a count but a string, the text of the
    function followed by one "1" per appointment; and under "__proto__"
    it never has an entry. *)
Theorem general_statistics_tables_count_by_key (w : Device) (k : string) :
  readable (appointmentsKey (storage w)) ->
  readable (registeredUsersKey (storage w)) ->
  exists stats : Statistics.t,
    result getGeneralStatistics w = Returned stats /\
    default 0 (Statistics.appointmentsByMonth stats !! k)
      = length (List.filter (fun a => String.eqb (monthKey (Appointment.date a)) k)
                  (appointmentsOf w)) /\
    (Statistics.appointmentsByMonth stats !! k = None <->
     forall a, In a (appointmentsOf w) -> monthKey (Appointment.date a) <> k) /\
    (inherited k = false ->
     Statistics.specialties stats !! k
       = if (withSpecialty k (appointmentsOf w) =? 0)%nat then None
         else Some (Count (withSpecialty k (appointmentsOf w)))) /\
    (inheritsFunction k = true -> k <> "__proto__" ->
     Statistics.specialties stats !! k
       = if (withSpecialty k (appointmentsOf w) =? 0)%nat then None
         else Some (Glued (withSpecialty k (appointmentsOf w)))) /\
    Statistics.specialties stats !! "__proto__" = None.
Proof.
  intros Ha Hu. exists (summarize (appointmentsOf w)).
  split; [unfold result; rewrite getGeneralStatistics_run by assumption; reflexivity|].
  unfold summarize. simpl.
  split.
  { rewrite months_count_every_record, lookup_empty. reflexivity. }
  split; [apply month_absent_iff|].
  rewrite !countSpecialties_lookup.
  destruct (cellAfter_cases k (withSpecialty k (appointmentsOf w))) as [Hp [Hf _]].
  split; [exact Hp|]. split; [exact Hf|].
  apply (cellAfter_cases "__proto__").
Qed.

Lemma general_statistics_tables_count_by_key_witness :
  (exists stats : Statistics.t,
     result getGeneralStatistics (deviceWithAppointments (Some (Json tenAppointments)))
       = Returned stats /\
     default 0 (Statistics.appointmentsByMonth stats !! "01/2026") = 4) /\
  (exists stats : Statistics.t,
     result getGeneralStatistics oddSpecialtiesDevice = Returned stats /\
     Statistics.specialties stats !! "constructor" = Some (Glued 2) /\
     Statistics.specialties stats !! "__proto__" = None) /\
  (exists stats : Statistics.t,
     result getGeneralStatistics oddSpecialtiesDevice = Returned stats /\
     Statistics.specialties stats !! "Cardiologia" = Some (Count 2)).
Proof.
  split; [|split].
  - destruct (general_statistics_tables_count_by_key
                (deviceWithAppointments (Some (Json tenAppointments))) "01/2026")
      as [stats [Hrun [Hmonth _]]]; [discriminate | discriminate |].
    exists stats. split; [exact Hrun|]. rewrite Hmonth. reflexivity.
  - destruct (general_statistics_tables_count_by_key oddSpecialtiesDevice "constructor")
      as [stats [Hrun [_ [_ [_ [Hfun Hproto]]]]]]; [discriminate | discriminate |].
    exists stats. split; [exact Hrun|]. split; [|exact Hproto].
    rewrite Hfun; [reflexivity | reflexivity | discriminate].
  - destruct (general_statistics_tables_count_by_key oddSpecialtiesDevice "Cardiologia")
      as [stats [Hrun [_ [_ [Hplain _]]]]]; [discriminate | discriminate |].
    exists stats. split; [exact Hrun|]. rewrite Hplain; reflexivity.
Defined.

(** *** Statistics of one doctor and of one patient *)

Lemma countStatus_filter (s : Status) (p : Appointment.t -> bool)
    (appointments : list Appointment.t) :
  countStatus s (List.filter p appointments) <= countStatus s appointments.
Proof.
  unfold countStatus. induction appointments as [|a rest IH]; simpl; [lia|].
  destruct (p a); simpl; destruct (Status_eqb (Appointment.status a) s); simpl; lia.
Qed.

Lemma filter_length_le {A : Type} (p : A -> bool) (l : list A) :
  length (List.filter p l) <= length l.
Proof. induction l as [|x l IH]; simpl; [lia|]. destruct (p x); simpl; lia. Qed.

Lemma getDoctorStatistics_run (doctorId : string) (w : Device) :
  readable (appointmentsKey (storage w)) ->
  exists stats : DoctorStatistics.t,
    getDoctorStatistics doctorId w = (Returned stats, w) /\
    DoctorStatistics.totalAppointments stats
      = length (List.filter (fun a => String.eqb (Appointment.doctorId a) doctorId)
                  (appointmentsOf w)) /\
    DoctorStatistics.confirmedAppointments stats
      = countStatus confirmed
          (List.filter (fun a => String.eqb (Appointment.doctorId a) doctorId)
             (appointmentsOf w)) /\
    DoctorStatistics.pendingAppointments stats
      = countStatus pending
          (List.filter (fun a => String.eqb (Appointment.doctorId a) doctorId)
             (appointmentsOf w)) /\
    DoctorStatistics.cancelledAppointments stats
      = countStatus cancelled
          (List.filter (fun a => String.eqb (Appointment.doctorId a) doctorId)
             (appointmentsOf w)) /\
    DoctorStatistics.totalPatients stats
      = distinct (map Appointment.patientId
                    (List.filter (fun a => String.eqb (Appointment.doctorId a) doctorId)
                       (appointmentsOf w))) /\
    DoctorStatistics.statusPercentages stats
      = StatusPercentages.mk
          (percentage (DoctorStatistics.confirmedAppointments stats)
             (DoctorStatistics.totalAppointments stats))
          (percentage (DoctorStatistics.pendingAppointments stats)
             (DoctorStatistics.totalAppointments stats))
          (percentage (DoctorStatistics.cancelledAppointments stats)
             (DoctorStatistics.totalAppointments stats)).
Proof.
  unfold readable, getDoctorStatistics, appointmentsOf. intros Ha. js_unfold.
  destruct (appointmentsKey (storage w)) as [[appointments| |]|]; try congruence;
    eexists; (split; [reflexivity|]); repeat split.
Qed.

Lemma getPatientStatistics_run (patientId : string) (w : Device) :
  readable (appointmentsKey (storage w)) ->
  exists stats : PatientStatistics.t,
    getPatientStatistics patientId w = (Returned stats, w) /\
    PatientStatistics.totalAppointments stats
      = length (List.filter (fun a => String.eqb (Appointment.patientId a) patientId)
                  (appointmentsOf w)) /\
    PatientStatistics.confirmedAppointments stats
      = countStatus confirmed
          (List.filter (fun a => String.eqb (Appointment.patientId a) patientId)
             (appointmentsOf w)) /\
    PatientStatistics.pendingAppointments stats
      = countStatus pending
          (List.filter (fun a => String.eqb (Appointment.patientId a) patientId)
             (appointmentsOf w)) /\
    PatientStatistics.cancelledAppointments stats
      = countStatus cancelled
          (List.filter (fun a => String.eqb (Appointment.patientId a) patientId)
             (appointmentsOf w)) /\
    PatientStatistics.totalDoctors stats
      = distinct (map Appointment.doctorId
                    (List.filter (fun a => String.eqb (Appointment.patientId a) patientId)
                       (appointmentsOf w))) /\
    PatientStatistics.specialties stats
      = countSpecialties
          (List.filter (fun a => String.eqb (Appointment.patientId a) patientId)
             (appointmentsOf w)) /\
    PatientStatistics.statusPercentages stats
      = StatusPercentages.mk
          (percentage (PatientStatistics.confirmedAppointments stats)
             (PatientStatistics.totalAppointments stats))
          (percentage (PatientStatistics.pendingAppointments stats)
             (PatientStatistics.totalAppointments stats))
          (percentage (PatientStatistics.cancelledAppointments stats)
             (PatientStatistics.totalAppointments stats)).
Proof.
  unfold readable, getPatientStatistics, appointmentsOf. intros Ha. js_unfold.
  destruct (appointmentsKey (storage w)) as [[appointments| |]|]; try congruence;
    eexists; (split; [reflexivity|]); repeat split.
Qed.

(** X14.  For readable stored appointments [getDoctorStatistics] returns
    without touching the device, whatever the registered-users key
    holds.  Its total is the number of stored appointments of that
    doctor and is at most the number stored; its three status counts add
    up to the total; its number of distinct patients is at most the
    total; and for a doctor without appointments every number and every
    percentage is 0. *)
Theorem doctor_statistics_add_up (doctorId : string) (w : Device) :
  readable (appointmentsKey (storage w)) ->
  exists stats : DoctorStatistics.t,
    getDoctorStatistics doctorId w = (Returned stats, w) /\
    DoctorStatistics.totalAppointments stats
      = length (List.filter (fun a => String.eqb (Appointment.doctorId a) doctorId)
                  (appointmentsOf w)) /\
    DoctorStatistics.totalAppointments stats <= length (appointmentsOf w) /\
    DoctorStatistics.confirmedAppointments stats
      + DoctorStatistics.pendingAppointments stats
      + DoctorStatistics.cancelledAppointments stats
      = DoctorStatistics.totalAppointments stats /\
    DoctorStatistics.totalPatients stats <= DoctorStatistics.totalAppointments stats /\
    ((forall a, In a (appointmentsOf w) -> Appointment.doctorId a <> doctorId) ->
     stats = DoctorStatistics.mk 0 0 0 0 0 (StatusPercentages.mk 0 0 0)).
Proof.
  intros Ha.
  destruct (getDoctorStatistics_run doctorId w Ha)
    as [stats [Hrun [Ht [Hc [Hp [Hx [Hpat Hpct]]]]]]].
  exists stats. split; [exact Hrun|]. split; [exact Ht|].
  split; [rewrite Ht; apply filter_length_le|].
  split; [rewrite Ht, Hc, Hp, Hx; apply status_counts_add_up|].
  split; [rewrite Ht, Hpat, <- (length_map Appointment.patientId);
          apply distinct_at_most_length|].
  intros Hnone.
  assert (Hzero : List.filter (fun a => String.eqb (Appointment.doctorId a) doctorId)
                    (appointmentsOf w) = []).
  { clear -Hnone. induction (appointmentsOf w) as [|a rest IH]; [reflexivity|].
    simpl. destruct (String.eqb_spec (Appointment.doctorId a) doctorId) as [Hk|_].
    - exfalso. apply (Hnone a); [left; reflexivity | exact Hk].
    - apply IH. intros b Hb. apply Hnone. right. exact Hb. }
  rewrite Hzero in *. destruct stats as [t c p x pat pct]. simpl in *.
  subst. reflexivity.
Qed.

Lemma doctor_statistics_add_up_witness :
  exists stats : DoctorStatistics.t,
    getDoctorStatistics "1" garbledUsersDevice = (Returned stats, garbledUsersDevice) /\
    DoctorStatistics.totalAppointments stats = 10 /\
    DoctorStatistics.totalPatients stats <= 10.
Proof.
  destruct (doctor_statistics_add_up "1" garbledUsersDevice)
    as [stats [Hrun [Htotal [_ [_ [Hpatients _]]]]]]; [discriminate|].
  exists stats. split; [exact Hrun|].
  assert (Hten : DoctorStatistics.totalAppointments stats = 10)
    by (rewrite Htotal; reflexivity).
  split; [exact Hten|]. rewrite <- Hten. exact Hpatients.
Defined.

(** X15.  For readable stored appointments [getPatientStatistics] returns
    without touching the device.  Its total is the number of stored
    appointments of that patient; its status counts add up to the total;
    its number of distinct doctors is at most the total.  Its specialty
    table has, under a key that names no property of [Object.prototype],
    the number of that patient's appointments of that specialty (no entry
    when there is none); under the name of a function of
    [Object.prototype] a string instead of a count; under "__proto__"
    never an entry.  Its counts add up to the number of the patient's
    appointments whose specialty names no property of
    [Object.prototype]. *)
Theorem patient_statistics_add_up (patientId k : string) (w : Device) :
  readable (appointmentsKey (storage w)) ->
  exists stats : PatientStatistics.t,
    getPatientStatistics patientId w = (Returned stats, w) /\
    PatientStatistics.totalAppointments stats
      = length (List.filter (fun a => String.eqb (Appointment.patientId a) patientId)
                  (appointmentsOf w)) /\
    PatientStatistics.confirmedAppointments stats
      + PatientStatistics.pendingAppointments stats
      + PatientStatistics.cancelledAppointments stats
      = PatientStatistics.totalAppointments stats /\
    PatientStatistics.totalDoctors stats <= PatientStatistics.totalAppointments stats /\
    counted (PatientStatistics.specialties stats)
      = length (List.filter
                  (fun a => String.eqb (Appointment.patientId a) patientId
                            && negb (inherited (Appointment.specialty a)))
                  (appointmentsOf w)) /\
    (inherited k = false ->
     PatientStatistics.specialties stats !! k
       = let n := length (List.filter
                            (fun a => String.eqb (Appointment.patientId a) patientId
                                      && String.eqb (Appointment.specialty a) k)
                            (appointmentsOf w)) in
         if (n =? 0)%nat then None else Some (Count n)) /\
    (inheritsFunction k = true -> k <> "__proto__" ->
     PatientStatistics.specialties stats !! k
       = let n := length (List.filter
                            (fun a => String.eqb (Appointment.patientId a) patientId
                                      && String.eqb (Appointment.specialty a) k)
                            (appointmentsOf w)) in
         if (n =? 0)%nat then None else Some (Glued n)) /\
    PatientStatistics.specialties stats !! "__proto__" = None.
Proof.
  intros Ha.
  destruct (getPatientStatistics_run patientId w Ha)
    as [stats [Hrun [Ht [Hc [Hp [Hx [Hdoc [Hspec Hpct]]]]]]]].
  exists stats. split; [exact Hrun|]. split; [exact Ht|].
  split; [rewrite Ht, Hc, Hp, Hx; apply status_counts_add_up|].
  split; [rewrite Ht, Hdoc, <- (length_map Appointment.doctorId);
          apply distinct_at_most_length|].
  split; [rewrite Hspec, countSpecialties_counted, filter_filter_and; reflexivity|].
  rewrite Hspec, !countSpecialties_lookup. unfold withSpecialty.
  rewrite filter_filter_and. cbv zeta.
  match goal with
  | |- context [cellAfter k ?n] => destruct (cellAfter_cases k n) as [Hplain [Hfun _]]
  end.
  split; [exact Hplain|]. split; [exact Hfun|].
  apply (cellAfter_cases "__proto__").
Qed.

Lemma patient_statistics_add_up_witness :
  (exists stats : PatientStatistics.t,
     getPatientStatistics "p1" garbledUsersDevice = (Returned stats, garbledUsersDevice) /\
     PatientStatistics.totalAppointments stats = 10 /\
     PatientStatistics.specialties stats !! "Cardiologia" = Some (Count 10)) /\
  (exists stats : PatientStatistics.t,
     getPatientStatistics "p1" oddSpecialtiesDevice = (Returned stats, oddSpecialtiesDevice) /\
     PatientStatistics.totalAppointments stats = 5 /\
     counted (PatientStatistics.specialties stats) = 2 /\
     PatientStatistics.specialties stats !! "constructor" = Some (Glued 2)).
Proof.
  split.
  - destruct (patient_statistics_add_up "p1" "Cardiologia" garbledUsersDevice)
      as [stats [Hrun [Htotal [_ [_ [_ [Hplain _]]]]]]]; [discriminate|].
    exists stats. split; [exact Hrun|].
    split; [rewrite Htotal | rewrite Hplain]; reflexivity.
  - destruct (patient_statistics_add_up "p1" "constructor" oddSpecialtiesDevice)
      as [stats [Hrun [Htotal [_ [_ [Hcounted [_ [Hfun _]]]]]]]]; [discriminate|].
    exists stats. split; [exact Hrun|].
    split; [rewrite Htotal; reflexivity|].
    split; [rewrite Hcounted; reflexivity|].
    rewrite Hfun; [reflexivity | reflexivity | discriminate].
Defined.

(** X16.  When the appointments key holds text that is not empty and
    that [JSON.parse] rejects, each of the three statistics calls logs
    its own error line and throws the parse error, writing nothing.  When
    it holds the empty string the guard takes it for an empty array: the
    three calls return statistics that are all zero, with empty tables,
    and log nothing.  [getGeneralStatistics] fails in the first way also
    when only the registered-users text is unparseable and not empty,
    although it computes nothing from the users; the doctor and patient
    statistics do not read that key. *)
Theorem statistics_fail_on_unreadable_text (doctorId patientId : string) (w : Device) :
  (appointmentsKey (storage w) = Some Garbled ->
   getGeneralStatistics w
     = (Thrown SyntaxError,
        mkDevice (storage w) (outputs w ++ [ConsoleError "Erro ao calcular estatísticas:"])
          (ticks w) (reads w)) /\
   getDoctorStatistics doctorId w
     = (Thrown SyntaxError,
        mkDevice (storage w)
          (outputs w ++ [ConsoleError "Erro ao calcular estatísticas do médico:"])
          (ticks w) (reads w)) /\
   getPatientStatistics patientId w
     = (Thrown SyntaxError,
        mkDevice (storage w)
          (outputs w ++ [ConsoleError "Erro ao calcular estatísticas do paciente:"])
          (ticks w) (reads w))) /\
  (appointmentsKey (storage w) = Some Blank ->
   (readable (registeredUsersKey (storage w)) ->
    getGeneralStatistics w
      = (Returned (Statistics.mk 0 0 0 0 0 0 ∅ ∅ (StatusPercentages.mk 0 0 0)), w)) /\
   getDoctorStatistics doctorId w
     = (Returned (DoctorStatistics.mk 0 0 0 0 0 (StatusPercentages.mk 0 0 0)), w) /\
   getPatientStatistics patientId w
     = (Returned (PatientStatistics.mk 0 0 0 0 0 ∅ (StatusPercentages.mk 0 0 0)), w)) /\
  (readable (appointmentsKey (storage w)) ->
   registeredUsersKey (storage w) = Some Garbled ->
   result getGeneralStatistics w = Thrown SyntaxError /\
   (exists stats, result (getDoctorStatistics doctorId) w = Returned stats) /\
   (exists stats, result (getPatientStatistics patientId) w = Returned stats)).
Proof.
  split; [|split].
  - intros Hkey. unfold getGeneralStatistics, getDoctorStatistics, getPatientStatistics.
    js_unfold. rewrite Hkey. repeat split.
  - intros Hkey. split; [|split].
    + intros Hu. rewrite getGeneralStatistics_run; [|congruence|exact Hu].
      unfold appointmentsOf. rewrite Hkey. reflexivity.
    + unfold getDoctorStatistics. js_unfold. rewrite Hkey. reflexivity.
    + unfold getPatientStatistics. js_unfold. rewrite Hkey. reflexivity.
  - intros Ha Hu. split.
    + unfold result, getGeneralStatistics. js_unfold.
      unfold readable in Ha.
      destruct (appointmentsKey (storage w)) as [[appointments| |]|]; try congruence;
        simpl; rewrite Hu; reflexivity.
    + destruct (getDoctorStatistics_run doctorId w Ha) as [ds [Hd _]].
      destruct (getPatientStatistics_run patientId w Ha) as [ps [Hp _]].
      unfold result. rewrite Hd, Hp. split; eexists; reflexivity.
Qed.

Lemma statistics_fail_on_unreadable_text_witness :
  result getGeneralStatistics garbledUsersDevice = Thrown SyntaxError /\
  (exists stats, result (getDoctorStatistics "1") garbledUsersDevice = Returned stats) /\
  result (getPatientStatistics "p1") garbledAppointmentsDevice = Thrown SyntaxError /\
  getGeneralStatistics blankAppointmentsDevice
    = (Returned (Statistics.mk 0 0 0 0 0 0 ∅ ∅ (StatusPercentages.mk 0 0 0)),
       blankAppointmentsDevice).
Proof.
  destruct (statistics_fail_on_unreadable_text "1" "p1" garbledUsersDevice)
    as [_ [_ Husers]].
  destruct Husers as [Hgeneral [Hdoctor _]]; [discriminate | reflexivity |].
  destruct (statistics_fail_on_unreadable_text "1" "p1" garbledAppointmentsDevice)
    as [Happts _].
  destruct Happts as [_ [_ Hpatient]]; [reflexivity|].
  destruct (statistics_fail_on_unreadable_text "1" "p1" blankAppointmentsDevice)
    as [_ [Hblank _]].
  destruct Hblank as [Hzero _]; [reflexivity|].
  split; [exact Hgeneral|]. split; [exact Hdoctor|].
  split; [unfold result; rewrite Hpatient; reflexivity|].
  apply Hzero. discriminate.
Defined.

(** *** Outcomes of a booking *)

(** X17.  A booking with all fields present, made when the appointments
    key holds text that is not empty and that [JSON.parse] rejects, ends
    with the message "Erro ao agendar consulta. Tente novamente." and the
    loading flag lowered, and leaves the device exactly as it was:
    nothing is written, no alert is shown, the screen is not left and the
    clock is not read.  When the key holds the empty string the guard
    takes it for an empty array and the booking goes through: the new
    appointment is stored alone and no error message is set. *)
Theorem booking_fails_cleanly_on_unreadable_appointments
    (user : option User.t) (s : State) (selected : Doctor.t) (w : Device) :
  selectedDoctor s = Some selected ->
  date s <> "" -> selectedTime s <> "" ->
  (appointmentsKey (storage w) = Some Garbled ->
   handleCreateAppointment user s w
     = (Returned (mkState (date s) (selectedTime s) (selectedDoctor s) false saveFailed),
        w)) /\
  (appointmentsKey (storage w) = Some Blank ->
   result (handleCreateAppointment user s) w
     = Returned (mkState (date s) (selectedTime s) (selectedDoctor s) false "") /\
   appointmentsKey (storage (after (handleCreateAppointment user s) w))
     = Some (Json [newAppointment user s selected (ticks w (reads w))])).
Proof.
  intros Hdoc Hdate Htime. split; intros Hkey.
  - rewrite handleCreateAppointment_run, Hdoc, Hkey.
    apply String.eqb_neq in Hdate, Htime. rewrite Hdate, Htime. simpl.
    unfold settled, setLoading, setError. simpl. rewrite Hdoc. reflexivity.
  - unfold result, after.
    rewrite (handleCreateAppointment_appends user s selected w Hdoc Hdate Htime)
      by (unfold readable; congruence).
    cbn [fst snd]. split; [reflexivity|].
    rewrite creation_effect_appointments. unfold appointmentsOf. rewrite Hkey.
    reflexivity.
Qed.

Lemma booking_fails_cleanly_on_unreadable_appointments_witness :
  handleCreateAppointment (Some ana) (filled "15/01/2026" "09:00") garbledAppointmentsDevice
    = (Returned (mkState "15/01/2026" "09:00" (Some drJoao) false saveFailed),
       garbledAppointmentsDevice) /\
  appointmentsKey
    (storage (after (handleCreateAppointment (Some ana) (filled "15/01/2026" "09:00"))
                blankAppointmentsDevice))
    = Some (Json [newAppointment (Some ana) (filled "15/01/2026" "09:00") drJoao
                    (ticks blankAppointmentsDevice (reads blankAppointmentsDevice))]).
Proof.
  split.
  - apply (booking_fails_cleanly_on_unreadable_appointments (Some ana)
             (filled "15/01/2026" "09:00") drJoao garbledAppointmentsDevice);
      [reflexivity | discriminate | discriminate | reflexivity].
  - apply (booking_fails_cleanly_on_unreadable_appointments (Some ana)
             (filled "15/01/2026" "09:00") drJoao blankAppointmentsDevice);
      [reflexivity | discriminate | discriminate | reflexivity].
Defined.

Lemma creation_effect_notifications (user : option User.t) (s : State)
    (selected : Doctor.t) (w : Device) :
  readable (notificationsKey (storage w)) ->
  notificationsOf (creation_effect user s selected w)
  = (notificationsOf w ++
       [newNotification
          (newAppointmentDraft (Doctor.id selected)
             (newAppointment user s selected (ticks w (reads w))))
          (ticks w (S (reads w))) (ticks w (S (S (reads w))))])%list.
Proof.
  intros Hnotes. unfold notificationsOf at 1, creation_effect. simpl.
  rewrite createNotification_effect_appends by exact Hnotes. reflexivity.
Qed.

Lemma creation_effect_outputs (user : option User.t) (s : State)
    (selected : Doctor.t) (w : Device) :
  outputs (creation_effect user s selected w)
  = match notificationsKey (storage w) with
    | Some Garbled =>
        (outputs w ++ [ConsoleError "Erro ao criar notificação:";
                       Alert "Consulta agendada com sucesso!"; GoBack])%list
    | _ => (outputs w ++ [Alert "Consulta agendada com sucesso!"; GoBack])%list
    end.
Proof.
  unfold creation_effect, createNotification_effect. simpl.
  destruct (notificationsKey (storage w)) as [[records| |]|]; simpl;
    rewrite <- ?app_assoc; reflexivity.
Qed.

Lemma creation_effect_garbled_notifications (user : option User.t) (s : State)
    (selected : Doctor.t) (w : Device) :
  notificationsKey (storage w) = Some Garbled ->
  notificationsKey (storage (creation_effect user s selected w)) = Some Garbled.
Proof.
  intros Hnotes. unfold creation_effect, createNotification_effect. simpl.
  rewrite Hnotes. reflexivity.
Qed.

(** X18.  A booking that passes the guard with readable stored
    appointments succeeds whether or not the doctor can be notified.  With
    readable notifications (the key absent, empty, or holding an array)
    the doctor gets exactly one new unread notification of type [general]
    that points to the new appointment; when the notifications key holds
    text that is not empty and that [JSON.parse] rejects, none is stored
    and one error line is logged.  In both cases the appointment is
    stored, the success alert is shown, the screen is left, and no error
    message is set. *)
Theorem booking_succeeds_with_or_without_notification
    (user : option User.t) (s : State) (selected : Doctor.t) (w : Device) :
  selectedDoctor s = Some selected ->
  date s <> "" -> selectedTime s <> "" ->
  readable (appointmentsKey (storage w)) ->
  result (handleCreateAppointment user s) w
    = Returned (mkState (date s) (selectedTime s) (selectedDoctor s) false "") /\
  appointmentsOf (after (handleCreateAppointment user s) w)
    = (appointmentsOf w ++ [newAppointment user s selected (ticks w (reads w))])%list /\
  (readable (notificationsKey (storage w)) ->
   (exists n : Notification.t,
      notificationsOf (after (handleCreateAppointment user s) w)
        = (notificationsOf w ++ [n])%list /\
      Notification.userId n = Doctor.id selected /\
      Notification.type n = general /\
      Notification.message n
        = nameOf user +:+ " agendou uma consulta para " +:+ date s +:+ " às "
            +:+ selectedTime s +:+ "." /\
      Notification.read n = false /\
      Notification.appointmentId n = Some (pretty (ticks w (reads w)))) /\
   outputs (after (handleCreateAppointment user s) w)
     = (outputs w ++ [Alert "Consulta agendada com sucesso!"; GoBack])%list) /\
  (notificationsKey (storage w) = Some Garbled ->
   notificationsKey (storage (after (handleCreateAppointment user s) w)) = Some Garbled /\
   outputs (after (handleCreateAppointment user s) w)
     = (outputs w ++ [ConsoleError "Erro ao criar notificação:";
                      Alert "Consulta agendada com sucesso!"; GoBack])%list).
Proof.
  intros Hdoc Hdate Htime Hread.
  pose proof (handleCreateAppointment_appends user s selected w Hdoc Hdate Htime Hread)
    as Hrun.
  unfold result, after. rewrite Hrun. cbn [fst snd].
  split; [reflexivity|].
  split; [unfold appointmentsOf at 1; rewrite creation_effect_appointments; reflexivity|].
  split.
  - intros Hnotes. split.
    + eexists. split; [apply creation_effect_notifications, Hnotes|]. repeat split.
    + rewrite creation_effect_outputs. unfold readable in Hnotes.
      destruct (notificationsKey (storage w)) as [[records| |]|]; congruence.
  - intros Hnotes. split; [apply creation_effect_garbled_notifications, Hnotes|].
    rewrite creation_effect_outputs, Hnotes. reflexivity.
Qed.

Lemma booking_succeeds_with_or_without_notification_witness :
  appointmentsOf (after (handleCreateAppointment (Some ana) (filled "15/01/2026" "09:00"))
                    garbledNotificationsDevice)
    = (appointmentsOf garbledNotificationsDevice ++
         [newAppointment (Some ana) (filled "15/01/2026" "09:00") drJoao
            (ticks garbledNotificationsDevice (reads garbledNotificationsDevice))])%list /\
  notificationsKey (storage (after (handleCreateAppointment (Some ana)
                                      (filled "15/01/2026" "09:00"))
                               garbledNotificationsDevice)) = Some Garbled /\
  outputs (after (handleCreateAppointment (Some ana) (filled "15/01/2026" "09:00"))
             emptyDevice)
    = (outputs emptyDevice ++ [Alert "Consulta agendada com sucesso!"; GoBack])%list /\
  outputs (after (handleCreateAppointment (Some ana) (filled "15/01/2026" "09:00"))
             blankNotificationsDevice)
    = (outputs blankNotificationsDevice
         ++ [Alert "Consulta agendada com sucesso!"; GoBack])%list.
Proof.
  destruct (booking_succeeds_with_or_without_notification (Some ana)
              (filled "15/01/2026" "09:00") drJoao garbledNotificationsDevice)
    as [_ [Happt [_ Hgarbled]]];
    [reflexivity | discriminate | discriminate | discriminate |].
  destruct (booking_succeeds_with_or_without_notification (Some ana)
              (filled "15/01/2026" "09:00") drJoao emptyDevice)
    as [_ [_ [Hnotified _]]];
    [reflexivity | discriminate | discriminate | discriminate |].
  destruct (booking_succeeds_with_or_without_notification (Some ana)
              (filled "15/01/2026" "09:00") drJoao blankNotificationsDevice)
    as [_ [_ [Hblank _]]];
    [reflexivity | discriminate | discriminate | discriminate |].
  split; [exact Happt|]. split; [apply Hgarbled; reflexivity|].
  split; [apply Hnotified; discriminate | apply Hblank; discriminate].
Defined.

(** *** What a session on the booking screen can do to the storage *)

(** X19.  Whatever the user does on the booking screen, starting from its
    initial state on any device: the run returns; the stored appointments
    afterwards are the ones from before, untouched and in order, followed
    by at most one new record per press of "Agendar"; each new record is
    pending, has a time of the slot grid and a date text, names the user
    as patient, and carries id, name and specialty of one listed doctor;
    the stored notifications only grow at the end; the registered-users
    key is not written; and the loading flag is down at the end. *)
Theorem booking_session_only_appends
    (user : option User.t) (events : list Event) (w : Device) :
  exists (s' : State) (w' : Device) (added : list Appointment.t)
         (more : list Notification.t),
    session user events initial w = (Returned s', w') /\
    loading s' = false /\
    appointmentsOf w' = (appointmentsOf w ++ added)%list /\
    Forall (booked_by user) added /\
    length added <= presses events /\
    notificationsOf w' = (notificationsOf w ++ more)%list /\
    registeredUsersKey (storage w') = registeredUsersKey (storage w).
Proof.
  apply session_extends; [exact initial_offered | reflexivity].
Qed.

(** *** The date mask and the date check of the form *)

Lemma digit_is_not_slash (c : ascii) : JS.isDigit c = true -> Ascii.eqb c "/" = false.
Proof.
  destruct c as [[] [] [] [] [] [] [] []]; intros Hd; try reflexivity;
    discriminate Hd.
Qed.

Lemma digitsOf_are_digits (text : string) : Forall (fun c => JS.isDigit c = true)
                                             (DateMask.digitsOf text).
Proof.
  unfold DateMask.digitsOf. apply List.Forall_forall. intros c Hc.
  apply filter_In in Hc. apply Hc.
Qed.

Lemma filter_digits_id (numbers : list ascii) :
  Forall (fun c => JS.isDigit c = true) numbers ->
  List.filter JS.isDigit numbers = numbers.
Proof.
  induction 1 as [|c numbers Hc _ IH]; simpl; [reflexivity|].
  rewrite Hc, IH. reflexivity.
Qed.

Ltac digit_facts :=
  repeat match goal with
         | H : Forall _ (_ :: _) |- _ => apply Forall_cons in H as [? H]
         end.

Lemma formatDigits_digits (numbers : list ascii) :
  Forall (fun c => JS.isDigit c = true) numbers ->
  List.filter JS.isDigit (DateMask.formatDigits numbers) = take 8 numbers.
Proof.
  intros Hd.
  destruct numbers as [|a [|b [|c [|d [|e [|f [|g [|h rest]]]]]]]];
    try reflexivity; digit_facts;
    cbv [DateMask.formatDigits DateMask.slice length Nat.ltb Nat.leb Nat.sub
         take drop firstn skipn app];
    cbn [List.filter]; cbv [JS.isDigit nat_of_ascii] in *;
    repeat match goal with
           | Hc : _ = true |- _ => rewrite Hc; clear Hc
           end; try reflexivity.
Qed.

Lemma formatDigits_take (numbers : list ascii) :
  DateMask.formatDigits (take 8 numbers) = DateMask.formatDigits numbers.
Proof.
  destruct numbers as [|a [|b [|c [|d [|e [|f [|g [|h rest]]]]]]]]; reflexivity.
Qed.

Lemma formatDigits_length (numbers : list ascii) :
  length (DateMask.formatDigits numbers) <= 10.
Proof.
  destruct numbers as [|a [|b [|c [|d [|e [|f [|g [|h rest]]]]]]]];
    cbv [DateMask.formatDigits DateMask.slice length Nat.ltb Nat.leb Nat.sub
         take drop firstn skipn app]; lia.
Qed.

Lemma formatDigits_chars (numbers : list ascii) :
  Forall (fun c => JS.isDigit c = true) numbers ->
  Forall (fun c => JS.isDigit c = true \/ c = "/"%char) (DateMask.formatDigits numbers).
Proof.
  intros Hd.
  destruct numbers as [|a [|b [|c [|d [|e [|f [|g [|h rest]]]]]]]];
    digit_facts;
    cbv [DateMask.formatDigits DateMask.slice length Nat.ltb Nat.leb Nat.sub
         take drop firstn skipn app];
    repeat (apply Forall_cons;
            split; [first [left; assumption | right; reflexivity]|]);
    constructor.
Qed.

Lemma string_length_of_list (cs : list ascii) :
  String.length (string_of_list_ascii cs) = length cs.
Proof. induction cs as [|c cs IH]; simpl; congruence. Qed.

(** X20.  The date mask keeps the digits typed, up to eight of them, and
    nothing else but the slashes it inserts; the masked text is at most
    ten characters long; and masking a masked text gives it back, so
    re-entering the field's own content changes nothing. *)
Theorem date_mask_keeps_the_digits (text : string) (s : AppointmentForm.State) :
  DateMask.digitsOf (DateMask.formattedDate text) = take 8 (DateMask.digitsOf text) /\
  Forall (fun c => JS.isDigit c = true \/ c = "/"%char)
    (list_ascii_of_string (DateMask.formattedDate text)) /\
  String.length (DateMask.formattedDate text) <= 10 /\
  DateMask.formattedDate (DateMask.formattedDate text) = DateMask.formattedDate text /\
  DateMask.handleDateChange
    (AppointmentForm.dateInput (DateMask.handleDateChange text s))
    (DateMask.handleDateChange text s)
    = DateMask.handleDateChange text s.
Proof.
  assert (Hdigits : DateMask.digitsOf (DateMask.formattedDate text)
                    = take 8 (DateMask.digitsOf text)).
  { unfold DateMask.formattedDate, DateMask.digitsOf at 1.
    rewrite list_ascii_of_string_of_list_ascii.
    apply formatDigits_digits, digitsOf_are_digits. }
  assert (Hidem : DateMask.formattedDate (DateMask.formattedDate text)
                  = DateMask.formattedDate text).
  { unfold DateMask.formattedDate at 1. rewrite Hdigits, formatDigits_take. reflexivity. }
  split; [exact Hdigits|]. split.
  - unfold DateMask.formattedDate. rewrite list_ascii_of_string_of_list_ascii.
    apply formatDigits_chars, digitsOf_are_digits.
  - split; [|split; [exact Hidem|]].
    2: { unfold DateMask.handleDateChange. simpl. rewrite Hidem. reflexivity. }
    unfold DateMask.formattedDate. rewrite string_length_of_list.
    apply formatDigits_length.
Qed.

Example date_mask_samples :
  DateMask.formattedDate "1" = "1" /\
  DateMask.formattedDate "150" = "15/0" /\
  DateMask.formattedDate "15012" = "15/01/2" /\
  DateMask.formattedDate "15/01/2026" = "15/01/2026" /\
  DateMask.formattedDate "15-01-2026abc99" = "15/01/2026" /\
  DateMask.formattedDate "abc" = "".
Proof. repeat split; reflexivity. Qed.

Lemma matchDate_of_chars (cs : list ascii) :
  AppointmentForm.matchDate (string_of_list_ascii cs) =
  match cs with
  | [d1; d2; s1; m1; m2; s2; y1; y2; y3; y4] =>
      if forallb JS.isDigit [d1; d2; m1; m2; y1; y2; y3; y4]
         && Ascii.eqb s1 "/" && Ascii.eqb s2 "/"
      then Some (JS.parseDigits [d1; d2], JS.parseDigits [m1; m2],
                 JS.parseDigits [y1; y2; y3; y4])
      else None
  | _ => None
  end.
Proof.
  unfold AppointmentForm.matchDate. rewrite list_ascii_of_string_of_list_ascii.
  reflexivity.
Qed.

(** X21.  A masked text passes the DD/MM/YYYY pattern exactly when at
    least eight digits were typed; day, month and year are then the
    first two, next two and next four digits.  With fewer digits
    [validateDate] answers false whatever the calendar and the clock
    say. *)
Theorem masked_date_matches_with_eight_digits
    (text : string) (localTime : Z -> Z -> Z -> Z) (getMonth : Z -> Z)
    (setMonth : Z -> Z -> Z) (w : Device) :
  (8 <= length (DateMask.digitsOf text) ->
   AppointmentForm.matchDate (DateMask.formattedDate text)
     = Some (JS.parseDigits (take 2 (DateMask.digitsOf text)),
             JS.parseDigits (take 2 (drop 2 (DateMask.digitsOf text))),
             JS.parseDigits (take 4 (drop 4 (DateMask.digitsOf text))))) /\
  (length (DateMask.digitsOf text) < 8 ->
   AppointmentForm.matchDate (DateMask.formattedDate text) = None /\
   AppointmentForm.validateDate localTime getMonth setMonth
     (DateMask.formattedDate text) w = (Returned false, w)).
Proof.
  pose proof (digitsOf_are_digits text) as Hd.
  unfold DateMask.formattedDate. unfold AppointmentForm.validateDate.
  rewrite !matchDate_of_chars.
  destruct (DateMask.digitsOf text) as [|a [|b [|c [|d [|e [|f [|g [|h rest]]]]]]]];
    (split; [intros Hlen; simpl in Hlen; try lia | intros Hlen; simpl in Hlen; try lia]);
    try (split; reflexivity).
  digit_facts.
  cbv [DateMask.formatDigits DateMask.slice length Nat.ltb Nat.leb Nat.sub
       take drop firstn skipn app forallb];
    repeat match goal with
           | Hc : JS.isDigit _ = true |- _ => rewrite Hc; clear Hc
           end; reflexivity.
Qed.

Lemma masked_date_matches_with_eight_digits_witness :
  AppointmentForm.matchDate (DateMask.formattedDate "15012026") = Some (15, 1, 2026)%Z /\
  AppointmentForm.matchDate (DateMask.formattedDate "150120") = None.
Proof.
  destruct (masked_date_matches_with_eight_digits "15012026"
              (fun _ _ _ => 0%Z) (fun _ => 0%Z) (fun _ _ => 0%Z) emptyDevice)
    as [Hfull _].
  destruct (masked_date_matches_with_eight_digits "150120"
              (fun _ _ _ => 0%Z) (fun _ => 0%Z) (fun _ _ => 0%Z) emptyDevice)
    as [_ Hshort].
  split.
  - rewrite Hfull; [reflexivity | simpl; lia].
  - apply Hshort. simpl. lia.
Defined.

Lemma split_of_matched (inputDate : string) (day month year : Z) :
  AppointmentForm.matchDate inputDate = Some (day, month, year) ->
  AppointmentForm.part (JS.split_slash inputDate) 0 = day /\
  AppointmentForm.part (JS.split_slash inputDate) 1 = month /\
  AppointmentForm.part (JS.split_slash inputDate) 2 = year.
Proof.
  rewrite <- (string_of_list_ascii_of_string inputDate) at 1 2 3 4.
  rewrite matchDate_of_chars.
  destruct (list_ascii_of_string inputDate)
    as [|d1 [|d2 [|s1 [|m1 [|m2 [|s2 [|y1 [|y2 [|y3 [|y4 [|extra rest]]]]]]]]]]];
    try discriminate.
  destruct (forallb JS.isDigit [d1; d2; m1; m2; y1; y2; y3; y4]) eqn:Hdigits;
    [|discriminate].
  destruct (Ascii.eqb_spec s1 "/") as [->|]; [|discriminate].
  destruct (Ascii.eqb_spec s2 "/") as [->|]; [|discriminate].
  simpl. intros [= <- <- <-].
  simpl in Hdigits. repeat (apply andb_true_iff in Hdigits as [? Hdigits]).
  repeat match goal with
         | Hc : JS.isDigit _ = true |- _ => apply digit_is_not_slash in Hc
         end.
  unfold AppointmentForm.part.
  cbn [string_of_list_ascii JS.split_slash].
  repeat match goal with
         | Hc : Ascii.eqb _ "/" = false |- _ => rewrite Hc; clear Hc
         end.
  repeat split.
Qed.

(** X22.  When the form submits, the date it hands to [onSubmit] is the
    date [validateDate] compared with the clock: with doctor, time and
    description present and a date text of the shape DD/MM/YYYY inside
    the window, [handleSubmit] is one call of [onSubmit] with the doctor,
    the time and the description of the form and the instant of that
    day, after the three clock readings of the check. *)
Theorem form_submits_the_validated_date
    (localTime : Z -> Z -> Z -> Z) (getMonth : Z -> Z) (setMonth : Z -> Z -> Z)
    (onSubmit : AppointmentForm.Submission -> Js unit)
    (form : AppointmentForm.State) (day month year : Z) (w : Device) :
  AppointmentForm.selectedDoctor form <> "" ->
  AppointmentForm.selectedTime form <> "" ->
  AppointmentForm.description form <> "" ->
  AppointmentForm.matchDate (AppointmentForm.dateInput form) = Some (day, month, year) ->
  (ticks w (reads w) <= localTime year (month - 1) day)%Z ->
  (localTime year (month - 1) day
     <= setMonth (ticks w (S (reads w))) (getMonth (ticks w (S (S (reads w)))) + 3))%Z ->
  AppointmentForm.handleSubmit localTime getMonth setMonth onSubmit form w
  = onSubmit
      (AppointmentForm.mkSubmission (AppointmentForm.selectedDoctor form)
         (localTime year (month - 1)%Z day)
         (AppointmentForm.selectedTime form) (AppointmentForm.description form))
      (mkDevice (storage w) (outputs w) (ticks w) (S (S (S (reads w))))).
Proof.
  intros Hdoc Htime Hdesc Hmatch Hlow Hhigh.
  unfold AppointmentForm.handleSubmit.
  apply String.eqb_neq in Hdoc, Htime, Hdesc. rewrite Hdoc, Htime, Hdesc. simpl.
  unfold mbind, Js_bind. rewrite validateDate_run, Hmatch.
  apply Z.leb_le in Hlow, Hhigh. rewrite Hlow, Hhigh. simpl.
  destruct (split_of_matched _ _ _ _ Hmatch) as [-> [-> ->]]. reflexivity.
Qed.

Lemma form_submits_the_validated_date_witness :
  AppointmentForm.handleSubmit (fun year month day => 1700000000000%Z) (fun _ => 0%Z)
    (fun receiver _ => (receiver + 1)%Z) (fun _ => setItem_appointments [])
    (AppointmentForm.mkState "1" "15/01/2026" "09:00" "Retorno") emptyDevice
  = setItem_appointments []
      (mkDevice (storage emptyDevice) (outputs emptyDevice) (ticks emptyDevice)
         (S (S (S (reads emptyDevice))))).
Proof.
  apply (form_submits_the_validated_date (fun year month day => 1700000000000%Z)
           (fun _ => 0%Z) (fun receiver _ => (receiver + 1)%Z)
           (fun _ => setItem_appointments [])
           (AppointmentForm.mkState "1" "15/01/2026" "09:00" "Retorno")
           15 1 2026 emptyDevice);
    try discriminate; try reflexivity; simpl; lia.
Defined.

(** *** The earlier booking screen and the home screen *)

(** X23.  On the earlier booking screen a submission, when the key
    'appointments' is absent, empty, or holds an array, is stored as one
    new record after the existing ones, with the id made from the clock
    and the status "pending", and the app goes to the home screen; the
    home screen then lists exactly the stored records, the new one last
    and shown as "Pendente".  When the key holds text that is not empty
    and that [JSON.parse] rejects, the booking screen logs, alerts,
    stays, and leaves the key as it was, and the home screen logs and
    keeps the list it was showing.  With an absent key or the empty
    string the home screen keeps its list silently. *)
Theorem legacy_booking_reaches_the_home_screen
    (appointment : AppointmentForm.Submission)
    (existing : option (Text LegacyAppointment.t))
    (shown : list LegacyAppointment.t) (w : Device) :
  (readable existing ->
   exists created : LegacyAppointment.t,
     result (LegacyCreateAppointmentScreen.handleSubmit appointment existing) w
       = Returned (LegacyCreateAppointmentScreen.mkOutcome
                     (Some (Json (collection existing ++ [created]))) true) /\
     LegacyAppointment.id created = pretty (ticks w (reads w)) /\
     LegacyAppointment.doctorId created = AppointmentForm.doctorId appointment /\
     LegacyAppointment.date created = AppointmentForm.date appointment /\
     LegacyAppointment.time created = AppointmentForm.time appointment /\
     HomeScreen.shownStatus created = "Pendente" /\
     outputs (after (LegacyCreateAppointmentScreen.handleSubmit appointment existing) w)
       = outputs w /\
     forall w', HomeScreen.loadAppointments
                  (Some (Json (collection existing ++ [created]))) shown w'
                = (Returned (collection existing ++ [created])%list, w')) /\
  (existing = Some Garbled ->
   LegacyCreateAppointmentScreen.handleSubmit appointment existing w
     = (Returned (LegacyCreateAppointmentScreen.mkOutcome existing false),
        mkDevice (storage w)
          (outputs w ++ [ConsoleError "Erro ao salvar consulta:";
                         Alert "Erro ao salvar a consulta. Tente novamente."])
          (ticks w) (reads w)) /\
   HomeScreen.loadAppointments existing shown w
     = (Returned shown,
        mkDevice (storage w) (outputs w ++ [ConsoleError "Erro ao carregar consultas:"])
          (ticks w) (reads w))) /\
  HomeScreen.loadAppointments None shown w = (Returned shown, w) /\
  HomeScreen.loadAppointments (Some Blank) shown w = (Returned shown, w).
Proof.
  split; [|split; [|split; reflexivity]].
  - intros Hread. unfold readable in Hread. eexists.
    unfold result, after, LegacyCreateAppointmentScreen.handleSubmit, Date_now.
    js_unfold.
    destruct existing as [[records| |]|]; try congruence; simpl; repeat split.
  - intros ->. unfold result, LegacyCreateAppointmentScreen.handleSubmit,
                 HomeScreen.loadAppointments.
    js_unfold. simpl. rewrite <- app_assoc. split; reflexivity.
Qed.

Lemma legacy_booking_reaches_the_home_screen_witness :
  (exists created : LegacyAppointment.t,
     result (LegacyCreateAppointmentScreen.handleSubmit
               (AppointmentForm.mkSubmission "2" 1768446000000 "09:00" "Retorno") None)
            emptyDevice
       = Returned (LegacyCreateAppointmentScreen.mkOutcome (Some (Json [created])) true) /\
     LegacyAppointment.id created = "1700000000000" /\
     HomeScreen.shownStatus created = "Pendente" /\
     HomeScreen.shownDoctorName created = "Dra. Maria Santos") /\
  (exists created : LegacyAppointment.t,
     result (LegacyCreateAppointmentScreen.handleSubmit
               (AppointmentForm.mkSubmission "2" 1768446000000 "09:00" "Retorno")
               (Some Blank))
            emptyDevice
       = Returned (LegacyCreateAppointmentScreen.mkOutcome (Some (Json [created])) true)) /\
  result (LegacyCreateAppointmentScreen.handleSubmit
            (AppointmentForm.mkSubmission "2" 1768446000000 "09:00" "Retorno")
            (Some Garbled))
         emptyDevice
    = Returned (LegacyCreateAppointmentScreen.mkOutcome (Some Garbled) false).
Proof.
  destruct (legacy_booking_reaches_the_home_screen
              (AppointmentForm.mkSubmission "2" 1768446000000 "09:00" "Retorno") None []
              emptyDevice) as [Hok _].
  destruct (legacy_booking_reaches_the_home_screen
              (AppointmentForm.mkSubmission "2" 1768446000000 "09:00" "Retorno")
              (Some Blank) [] emptyDevice) as [Hblank _].
  destruct (legacy_booking_reaches_the_home_screen
              (AppointmentForm.mkSubmission "2" 1768446000000 "09:00" "Retorno")
              (Some Garbled) [] emptyDevice) as [_ [Hgarbled _]].
  destruct Hok as [created [Hrun [Hid [Hdoc [_ [_ [Hstatus _]]]]]]]; [discriminate|].
  destruct Hblank as [created' [Hrun' _]]; [discriminate|].
  destruct (Hgarbled eq_refl) as [Hfail _].
  split; [|split].
  - exists created. split; [exact Hrun|]. split; [exact Hid|]. split; [exact Hstatus|].
    unfold HomeScreen.shownDoctorName. rewrite Hdoc. reflexivity.
  - exists created'. exact Hrun'.
  - unfold result. rewrite Hfail. reflexivity.
Defined.
